(** * business_rules.operators: a shallow embedding and its properties

    The operator catalogue of [business_rules/operators.py] is embedded
    function by function.  Python values, exceptions and the few pandas
    primitives the operators call are modelled first; every operator then
    follows the text of its Python method. *)

From Stdlib Require Import ZArith QArith Qabs Qround Qpower Lqa Lia Bool List String Ascii.
From Stdlib Require Import Sorting.Sorted Sorting.Permutation.
From stdpp Require Import base option list gmap strings.

Local Open Scope Z_scope.
Local Open Scope string_scope.
Local Open Scope list_scope.

(** ** Python values and exceptions *)

Module Py.

(** The run-time values that reach the scalar types.  [VDec] is a finite
    [decimal.Decimal], held as the rational it denotes; binary floats and
    the special decimals (NaN, Infinity) are outside the model. *)
#[warning="-register-all"]
Inductive value :=
| VNone
| VBool (b : bool)
| VInt (n : Z)
| VDec (d : Q)
| VStr (s : string)
| VList (l : list value).

(** The exceptions the module raises itself or lets escape from pandas
    and [decimal].  [Unmodelled] is not a Python exception: it marks the
    few places the model does not follow, where pandas goes on with a
    frame-shaped intermediate result or a library is asked for more than
    the part of it that is modelled. *)
Inductive exn :=
| AssertionError (msg : string) (offending : value)
| Exception (msg : string)
| KeyError (key : string)
| TypeError (msg : string)
| ValueError (msg : string)
| Overflow (msg : string)
| Unmodelled (what : string).

Inductive result (A : Type) :=
| Ok (a : A)
| Raise (e : exn).
Arguments Ok {A} a.
Arguments Raise {A} e.

Definition bind {A B} (r : result A) (k : A -> result B) : result B :=
  match r with
  | Ok a => k a
  | Raise e => Raise e
  end.

Definition fmap {A B} (f : A -> B) (r : result A) : result B :=
  bind r (fun a => Ok (f a)).

Definition is_ok {A} (r : result A) : bool :=
  match r with Ok _ => true | Raise _ => false end.

(** [bool(v)]: Python truthiness. *)
Definition truthy (v : value) : bool :=
  match v with
  | VNone => false
  | VBool b => b
  | VInt n => negb (n =? 0)%Z
  | VDec d => negb (Qeq_bool d 0)
  | VStr s => negb (String.eqb s "")
  | VList l => match l with [] => false | _ => true end
  end.

(** [a or b] *)
Definition or_ (a b : value) : value := if truthy a then a else b.

(** [isinstance(v, string_types)] *)
Definition is_str (v : value) : bool :=
  match v with VStr _ => true | _ => false end.

(** [isinstance(v, list)] *)
Definition is_list (v : value) : bool :=
  match v with VList _ => true | _ => false end.

(** [hasattr(v, '__iter__')]: strings and lists iterate, the other
    modelled values do not. *)
Definition has_iter (v : value) : bool :=
  match v with VStr _ | VList _ => true | _ => false end.

(** The number a [bool], [int] or [Decimal] denotes. *)
Definition as_number (v : value) : option Q :=
  match v with
  | VBool b => Some (inject_Z (Z.b2z b))
  | VInt n => Some (inject_Z n)
  | VDec d => Some d
  | _ => None
  end.

(** [a == b]: numbers compare by value across [bool], [int] and
    [Decimal]; strings and lists structurally; everything else differs. *)
Fixpoint eqb (a b : value) : bool :=
  match a, b with
  | VNone, VNone => true
  | VStr s, VStr t => String.eqb s t
  | VList xs, VList ys =>
      (fix go (xs ys : list value) : bool :=
         match xs, ys with
         | [], [] => true
         | x :: xs', y :: ys' => eqb x y && go xs' ys'
         | _, _ => false
         end) xs ys
  | _, _ =>
      match as_number a, as_number b with
      | Some p, Some q => Qeq_bool p q
      | _, _ => false
      end
  end.

(** The items a [for] loop visits in a string or a list. *)
Definition items (v : value) : list value :=
  match v with
  | VList l => l
  | VStr s => List.map (fun c => VStr (String c EmptyString)) (list_ascii_of_string s)
  | _ => []
  end.

(** [for x in v]: a value that does not iterate makes the loop raise. *)
Definition iter (v : value) : result (list value) :=
  if has_iter v then Ok (items v)
  else Raise (TypeError "object is not iterable").

Definition lower_ascii (c : ascii) : ascii :=
  let n := nat_of_ascii c in
  if (65 <=? n)%nat && (n <=? 90)%nat then ascii_of_nat (n + 32) else c.

(** [str.lower()] on the ASCII range. *)
Fixpoint lower (s : string) : string :=
  match s with
  | EmptyString => EmptyString
  | String c s' => String (lower_ascii c) (lower s')
  end.

End Py.

Import Py.

(** [result] is the error monad of the development: [let* x := r in k]
    runs [r] and stops at the first exception. *)
Notation "'let*' x ':=' r 'in' k" := (Py.bind r (fun x => k))
  (at level 10, x name, r at level 100, k at level 200, only parsing).

(** ** The decimal context

    [Decimal] arithmetic gives every result to the thread's context to
    round.  The module never touches the context, so the default one
    applies: 28 significant digits, ROUND_HALF_EVEN, exponents between
    -999999 and 999999 and a trap on [Overflow]; [Underflow], [Inexact]
    and [Rounded] are not trapped. *)

Module Context.
Local Open Scope Z_scope.

Definition prec : Z := 28.
Definition Emax : Z := 999999.
Definition Emin : Z := -999999.
Definition Etiny : Z := Emin - prec + 1.

(** The number of decimal digits of a positive integer. *)
Fixpoint digits_fuel (fuel : nat) (n : Z) : Z :=
  match fuel with
  | O => 0
  | S fuel' => if n <? 10 then 1 else 1 + digits_fuel fuel' (n / 10)
  end.

Definition digits (n : Z) : Z := digits_fuel (S (Z.to_nat (Z.log2 n))) n.

(** The exponent of the leading digit of a positive number:
    [adjusted x = k] when [10^k <= x < 10^(k+1)]. *)
Definition adjusted (x : Q) : Z :=
  let n := Qnum x in
  let d := Zpos (Qden x) in
  if d <=? n then digits (n / d) - 1 else - digits ((d - 1) / n).

(** ROUND_HALF_EVEN to an integer. *)
Definition round_half_even (x : Q) : Z :=
  let f := Qfloor x in
  match (2 * (x - inject_Z f) ?= 1)%Q with
  | Lt => f
  | Gt => f + 1
  | Eq => if Z.even f then f else f + 1
  end.

(** [Decimal._fix] on a positive number: the coefficient is rounded to
    [prec] digits, or to the exponent [Etiny] for a subnormal number, and
    a result above [Emax] raises. *)
Definition fix_positive (x : Q) : result Q :=
  let k := adjusted x in
  if Emax <? k then Raise (Overflow "above Emax")
  else
    let q := Z.max (k - prec + 1) Etiny in
    let m := round_half_even (x / 10 ^ q)%Q in
    let k' := if 10 ^ prec <=? m then k + 1 else k in
    if Emax <? k' then Raise (Overflow "above Emax")
    else Ok (inject_Z m * 10 ^ q)%Q.

Definition _fix (x : Q) : result Q :=
  match Qnum x ?= 0 with
  | Eq => Ok 0%Q
  | Gt => fix_positive (Qred x)
  | Lt => let* r := fix_positive (Qred (- x)) in Ok (- r)%Q
  end.

(** [a - b]: the exact difference, given to the context. *)
Definition sub (a b : Q) : result Q := _fix (a - b).

(** The difference fits the precision: the context returns it as it is. *)
Definition exact (a b : Q) : Prop :=
  match sub a b with
  | Ok d => (d == a - b)%Q
  | Raise _ => False
  end.

End Context.

(** ** StringType *)

Module StringType.

Record t := { value : string }.

Definition _assert_valid_value_and_cast (v : Py.value) : result string :=
  let v := or_ v (VStr "") in
  match v with
  | VStr s => Ok s
  | _ => Raise (AssertionError "is not a valid string type." v)
  end.

(** [BaseType.__init__] *)
Definition new (v : Py.value) : result t :=
  let* s := _assert_valid_value_and_cast v in Ok {| value := s |}.

(** [type_operator(FIELD_TEXT)]: the argument is cast before the body runs. *)
Definition type_operator {R} (func : t -> string -> R) (self : t) (arg : Py.value)
  : result R :=
  let* a := _assert_valid_value_and_cast arg in Ok (func self a).

Definition equal_to : t -> Py.value -> result bool :=
  type_operator (fun self other_string => String.eqb (value self) other_string).

Definition not_equal_to : t -> Py.value -> result bool :=
  type_operator (fun self other_string => negb (String.eqb (value self) other_string)).

Definition equal_to_case_insensitive : t -> Py.value -> result bool :=
  type_operator (fun self other_string =>
    String.eqb (lower (value self)) (lower other_string)).

Definition non_empty (self : t) : result bool :=
  Ok (negb (String.eqb (value self) "")).

End StringType.

(** ** NumericType *)

Module NumericType.

Definition EPSILON : Q := 1 # 1000000.

Record t := { value : Q }.

(** The branch for [float] calls [float_to_decimal] of [utils]; floats
    are not among the values of [Py.value]. *)
Definition _assert_valid_value_and_cast (v : Py.value) : result Q :=
  match v with
  | VBool b => Ok (inject_Z (Z.b2z b))
  | VInt n => Ok (inject_Z n)
  | VDec d => Ok d
  | _ => Raise (AssertionError "is not a valid numeric type." v)
  end.

Definition new (v : Py.value) : result t :=
  let* d := _assert_valid_value_and_cast v in Ok {| value := d |}.

(** [a <= b] and [a > b] on decimals *)
Definition dec_le (a b : Q) : bool := Qle_bool a b.
Definition dec_gt (a b : Q) : bool := negb (Qle_bool a b).

(** [abs] and the comparisons are exact on a difference the context has
    rounded already. *)
Definition equal_to (self : t) (arg : Py.value) : result bool :=
  let* other_numeric := _assert_valid_value_and_cast arg in
  let* d := Context.sub (value self) other_numeric in
  Ok (dec_le (Qabs d) EPSILON).

Definition not_equal_to (self : t) (arg : Py.value) : result bool :=
  let* other_numeric := _assert_valid_value_and_cast arg in
  let* d := Context.sub (value self) other_numeric in
  Ok (dec_gt (Qabs d) EPSILON).

Definition greater_than (self : t) (arg : Py.value) : result bool :=
  let* other_numeric := _assert_valid_value_and_cast arg in
  let* d := Context.sub (value self) other_numeric in
  Ok (dec_gt d EPSILON).

Definition less_than (self : t) (arg : Py.value) : result bool :=
  let* other_numeric := _assert_valid_value_and_cast arg in
  let* d := Context.sub other_numeric (value self) in
  Ok (dec_gt d EPSILON).

(** [self.greater_than(x) or self.equal_to(x)]: both calls go through the
    decorator again, with the decimal already cast. *)
Definition greater_than_or_equal_to (self : t) (arg : Py.value) : result bool :=
  let* other_numeric := _assert_valid_value_and_cast arg in
  let* g := greater_than self (VDec other_numeric) in
  if g then Ok true else equal_to self (VDec other_numeric).

Definition less_than_or_equal_to (self : t) (arg : Py.value) : result bool :=
  let* other_numeric := _assert_valid_value_and_cast arg in
  let* l := less_than self (VDec other_numeric) in
  if l then Ok true else equal_to self (VDec other_numeric).

End NumericType.

(** ** BooleanType *)

Module BooleanType.

Record t := { value : bool }.

Definition _assert_valid_value_and_cast (v : Py.value) : result bool :=
  match v with
  | VBool b => Ok b
  | _ => Raise (AssertionError "is not a valid boolean type" v)
  end.

Definition new (v : Py.value) : result t :=
  let* b := _assert_valid_value_and_cast v in Ok {| value := b |}.


End BooleanType.

(** ** SelectType *)

Module SelectType.

Record t := { value : Py.value }.

Definition _assert_valid_value_and_cast (v : Py.value) : result Py.value :=
  if has_iter v then Ok v
  else Raise (AssertionError "is not a valid select type" v).

Definition new (v : Py.value) : result t :=
  let* x := _assert_valid_value_and_cast v in Ok {| value := x |}.

Definition _case_insensitive_equal_to (value_from_list other_value : Py.value) : bool :=
  match value_from_list, other_value with
  | VStr a, VStr b => String.eqb (lower a) (lower b)
  | _, _ => Py.eqb value_from_list other_value
  end.

(** [for val in self.value: if ...: return True] and then [return False];
    the operator is registered with [assert_type_for_arguments=False]. *)
Fixpoint contains_loop (vals : list Py.value) (other_value : Py.value) : bool :=
  match vals with
  | [] => false
  | val :: rest =>
      if _case_insensitive_equal_to val other_value then true
      else contains_loop rest other_value
  end.

Definition contains (self : t) (other_value : Py.value) : bool :=
  contains_loop (items (value self)) other_value.

Fixpoint does_not_contain_loop (vals : list Py.value) (other_value : Py.value) : bool :=
  match vals with
  | [] => true
  | val :: rest =>
      if _case_insensitive_equal_to val other_value then false
      else does_not_contain_loop rest other_value
  end.

Definition does_not_contain (self : t) (other_value : Py.value) : bool :=
  does_not_contain_loop (items (value self)) other_value.

End SelectType.

(** ** SelectMultipleType *)

Module SelectMultipleType.

Record t := { value : Py.value }.

Definition _assert_valid_value_and_cast (v : Py.value) : result Py.value :=
  if has_iter v then Ok v
  else Raise (AssertionError "is not a valid select multiple type" v).

Definition new (v : Py.value) : result t :=
  let* x := _assert_valid_value_and_cast v in Ok {| value := x |}.

(** The bodies below are the undecorated methods: their argument has
    been cast already.  [cast] is the cast of the class of [self], which a
    subclass replaces by its own. *)
Section Bodies.
Variable cast : Py.value -> result Py.value.

Fixpoint contains_all_loop (select : SelectType.t) (others : list Py.value) : bool :=
  match others with
  | [] => true
  | other_val :: rest =>
      if negb (SelectType.contains select other_val) then false
      else contains_all_loop select rest
  end.

Definition contains_all_body (self_value other_value : Py.value) : result bool :=
  let* select := SelectType.new self_value in
  let* others := iter other_value in
  Ok (contains_all_loop select others).

Definition contains_all_with (self_value arg : Py.value) : result bool :=
  let* other_value := cast arg in contains_all_body self_value other_value.

(** [SelectMultipleType(other_value).contains_all(self.value)]: the new
    instance is a plain [SelectMultipleType], so both the constructor and
    the decorator of [contains_all] use this class's own cast. *)
Definition is_contained_by_body (self_value other_value : Py.value) : result bool :=
  let* other_select_multiple := new other_value in
  let* arg := _assert_valid_value_and_cast self_value in
  contains_all_body (value other_select_multiple) arg.

Definition is_contained_by_with (self_value arg : Py.value) : result bool :=
  let* other_value := cast arg in is_contained_by_body self_value other_value.

Fixpoint shares_at_least_one_loop (select : SelectType.t) (others : list Py.value) : bool :=
  match others with
  | [] => false
  | other_val :: rest =>
      if SelectType.contains select other_val then true
      else shares_at_least_one_loop select rest
  end.

Definition shares_at_least_one_element_with_with (self_value arg : Py.value)
  : result bool :=
  let* other_value := cast arg in
  let* select := SelectType.new self_value in
  let* others := iter other_value in
  Ok (shares_at_least_one_loop select others).

Fixpoint shares_exactly_one_loop (select : SelectType.t) (found_one : bool)
    (others : list Py.value) : bool :=
  match others with
  | [] => found_one
  | other_val :: rest =>
      if SelectType.contains select other_val then
        if found_one then false else shares_exactly_one_loop select true rest
      else shares_exactly_one_loop select found_one rest
  end.

Definition shares_exactly_one_element_with_with (self_value arg : Py.value)
  : result bool :=
  let* other_value := cast arg in
  let* select := SelectType.new self_value in
  let* others := iter other_value in
  Ok (shares_exactly_one_loop select false others).

(** [not self.shares_at_least_one_element_with(other_value)]: the inner
    call is decorated as well and casts the argument a second time. *)
Definition shares_no_elements_with_with (self_value arg : Py.value) : result bool :=
  let* other_value := cast arg in
  let* r := shares_at_least_one_element_with_with self_value other_value in
  Ok (negb r).

End Bodies.

Definition contains_all (self : t) :=
  contains_all_with _assert_valid_value_and_cast (value self).
Definition is_contained_by (self : t) :=
  is_contained_by_with _assert_valid_value_and_cast (value self).
Definition is_not_contained_by (self : t) (arg : Py.value) : result bool :=
  let* other_value := _assert_valid_value_and_cast arg in
  let* r := is_contained_by self other_value in
  Ok (negb r).
Definition shares_at_least_one_element_with (self : t) :=
  shares_at_least_one_element_with_with _assert_valid_value_and_cast (value self).
Definition shares_exactly_one_element_with (self : t) :=
  shares_exactly_one_element_with_with _assert_valid_value_and_cast (value self).
Definition shares_no_elements_with (self : t) :=
  shares_no_elements_with_with _assert_valid_value_and_cast (value self).

End SelectMultipleType.

(** ** GenericType

    [GenericType] inherits from all scalar types and is the one class
    whose methods assign to [self.value]; its operators therefore take
    the instance and give back the instance they leave behind. *)

Module GenericType.

Definition EPSILON : Q := 1 # 1000000.

Record t := { value : Py.value }.

(** Strings stay, integers become decimals, everything else passes; the
    branch for [float] is left out as in [NumericType]. *)
Definition _assert_valid_value_and_cast (v : Py.value) : Py.value :=
  match v with
  | VStr s => VStr s
  | VBool b => VDec (inject_Z (Z.b2z b))
  | VInt n => VDec (inject_Z n)
  | _ => v
  end.

Definition cast (v : Py.value) : result Py.value :=
  Ok (_assert_valid_value_and_cast v).

Definition new (v : Py.value) : t :=
  {| value := _assert_valid_value_and_cast v |}.

(** [a - b], defined between decimals only once both sides are cast. *)
Definition sub (a b : Py.value) : result Q :=
  match a, b with
  | VDec x, VDec y => Context.sub x y
  | _, _ => Raise (TypeError "unsupported operand type(s) for -")
  end.

Definition num_equal_to (self : t) (arg : Py.value) : result bool :=
  let* other_numeric := cast arg in
  let* d := sub (value self) other_numeric in
  Ok (Qle_bool (Qabs d) EPSILON).

Definition str_equal_to (self : t) (arg : Py.value) : result bool :=
  let* other_string := cast arg in
  Ok (Py.eqb (value self) other_string).

Definition num_not_equal_to (self : t) (arg : Py.value) : result bool :=
  let* other_numeric := cast arg in
  let* d := sub (value self) other_numeric in
  Ok (negb (Qle_bool (Qabs d) EPSILON)).

Definition str_not_equal_to (self : t) (arg : Py.value) : result bool :=
  let* other_string := cast arg in
  Ok (negb (Py.eqb (value self) other_string)).

Definition is_decimal (v : Py.value) : bool :=
  match v with VDec _ => true | _ => false end.

Definition equal_to (self : t) (other : Py.value) : result bool :=
  if is_decimal (value self) then num_equal_to self other
  else str_equal_to self other.

Definition not_equal_to (self : t) (other : Py.value) : result bool :=
  if is_decimal (value self) then num_not_equal_to self other
  else str_not_equal_to self other.

(** [if not isinstance(self.value, list): self.value = [self.value]],
    then [super().is_contained_by(other_value)].  The assignment happens
    before anything can raise, so the instance is returned next to the
    result. *)
Definition is_contained_by (self : t) (other_value : Py.value) : result bool * t :=
  let self' :=
    if negb (is_list (value self)) then {| value := VList [value self] |} else self in
  (SelectMultipleType.is_contained_by_with cast (value self') other_value, self').

(** Inherited [SelectMultipleType.is_not_contained_by]; [self.is_contained_by]
    resolves to the override above. *)
Definition is_not_contained_by (self : t) (arg : Py.value) : result bool * t :=
  let other_value := _assert_valid_value_and_cast arg in
  let '(r, self') := is_contained_by self other_value in
  (let* b := r in Ok (negb b), self').

Definition contains_all (self : t) :=
  SelectMultipleType.contains_all_with cast (value self).
Definition shares_at_least_one_element_with (self : t) :=
  SelectMultipleType.shares_at_least_one_element_with_with cast (value self).
Definition shares_exactly_one_element_with (self : t) :=
  SelectMultipleType.shares_exactly_one_element_with_with cast (value self).
Definition shares_no_elements_with (self : t) :=
  SelectMultipleType.shares_no_elements_with_with cast (value self).

(** Inherited [StringType.non_empty]: [bool(self.value)]. *)
Definition non_empty (self : t) : result bool := Ok (truthy (value self)).

(** The operators of the class by name, as a rule engine calls them:
    [getattr(instance, name)(argument)]. *)
Inductive operator :=
| op_equal_to | op_not_equal_to
| op_num_equal_to | op_num_not_equal_to
| op_str_equal_to | op_str_not_equal_to
| op_is_contained_by | op_is_not_contained_by
| op_contains_all
| op_shares_at_least_one_element_with
| op_shares_exactly_one_element_with
| op_shares_no_elements_with
| op_non_empty.

Definition call (op : operator) (self : t) (arg : Py.value) : result bool * t :=
  match op with
  | op_equal_to => (equal_to self arg, self)
  | op_not_equal_to => (not_equal_to self arg, self)
  | op_num_equal_to => (num_equal_to self arg, self)
  | op_num_not_equal_to => (num_not_equal_to self arg, self)
  | op_str_equal_to => (str_equal_to self arg, self)
  | op_str_not_equal_to => (str_not_equal_to self arg, self)
  | op_is_contained_by => is_contained_by self arg
  | op_is_not_contained_by => is_not_contained_by self arg
  | op_contains_all => (contains_all self arg, self)
  | op_shares_at_least_one_element_with =>
      (shares_at_least_one_element_with self arg, self)
  | op_shares_exactly_one_element_with =>
      (shares_exactly_one_element_with self arg, self)
  | op_shares_no_elements_with => (shares_no_elements_with self arg, self)
  | op_non_empty => (non_empty self, self)
  end.

End GenericType.

(** ** The pandas primitives the dataframe operators call

    Only what the operators use is modelled, on tables with the default
    positional index.  A cell is a Python scalar of an object column; a
    missing cell is [None]. *)

Module Pandas.

Inductive cell :=
| CNone
| CBool (b : bool)
| CInt (n : Z)
| CStr (s : string).

#[global] Instance cell_eq_dec : EqDecision cell.
Proof. solve_decision. Defined.

Definition isna (c : cell) : bool :=
  match c with CNone => true | _ => false end.

Definition notna (c : cell) : bool := negb (isna c).

(** The number a [bool] or [int] cell denotes. *)
Definition cell_number (c : cell) : option Z :=
  match c with
  | CBool b => Some (Z.b2z b)
  | CInt n => Some n
  | _ => None
  end.

Definition is_num (c : cell) : bool :=
  match c with CBool _ | CInt _ => true | _ => false end.

Definition is_str (c : cell) : bool :=
  match c with CStr _ => true | _ => false end.

(** Python [a == b] on cells, which is also the equality of hashing
    ([isin], [set], [unique], group keys): [True == 1], [None == None]. *)
Definition cell_eqb (a b : cell) : bool :=
  match a, b with
  | CNone, CNone => true
  | CStr s, CStr t => String.eqb s t
  | _, _ =>
      match cell_number a, cell_number b with
      | Some m, Some n => (m =? n)%Z
      | _, _ => false
      end
  end.

(** The element-wise [==] of [Series.eq] and [Series == other]: a
    missing value on either side compares false. *)
Definition cmp_eq (a b : cell) : bool :=
  if isna a || isna b then false else cell_eqb a b.

(** [a <= b] where Python defines it (numbers with numbers, strings with
    strings); across the two kinds numbers are put first, which is the
    order pandas gives to mixed group keys.  Missing cells go last. *)
Definition cell_leb (a b : cell) : bool :=
  match a, b with
  | _, CNone => true
  | CNone, _ => false
  | CStr s, CStr t => String.leb s t
  | CStr _, _ => false
  | _, CStr _ => true
  | _, _ =>
      match cell_number a, cell_number b with
      | Some m, Some n => (m <=? n)%Z
      | _, _ => false
      end
  end.

(** Python raises [TypeError] when [<] meets a string and a number, or
    [None]; a sort of two or more cells raises unless they are all numbers
    or all strings. *)
Definition comparable (l : list cell) : bool :=
  match l with
  | [] | [_] => true
  | _ => forallb is_num l || forallb is_str l
  end.

(** Stable insertion sort; [leb x y] keeps [x], which stood first, first. *)
Fixpoint insert_sorted {A} (leb : A -> A -> bool) (x : A) (l : list A) : list A :=
  match l with
  | [] => [x]
  | y :: l' => if leb x y then x :: l else y :: insert_sorted leb x l'
  end.

Fixpoint isort {A} (leb : A -> A -> bool) (l : list A) : list A :=
  match l with
  | [] => []
  | x :: l' => insert_sorted leb x (isort leb l')
  end.

(** Python's [sorted(x)] on a list of cells. *)
Definition sorted (x : list cell) : result (list cell) :=
  if comparable x then Ok (isort cell_leb x)
  else Raise (TypeError "'<' not supported between instances").

(** The cell at a position; positions come from [seq] over the length of
    the column, the default keeps the function total. *)
Definition cell_at (col : list cell) (i : nat) : cell := nth i col CNone.

(** [nargsort]: the positions of the non-missing cells in ascending
    order of their cells, then the positions of the missing ones. *)
Definition nargsort (keys : list cell) : result (list nat) :=
  let idx := seq 0 (length keys) in
  let non_nan_idx := List.filter (fun i => notna (cell_at keys i)) idx in
  let nan_idx := List.filter (fun i => isna (cell_at keys i)) idx in
  if comparable (List.filter notna keys) then
    Ok (isort (fun i j => cell_leb (cell_at keys i) (cell_at keys j)) non_nan_idx
          ++ nan_idx)
  else Raise (TypeError "'<' not supported between instances").

(** [take]: the rows at the given positions, in that order. *)
Definition take {A} (d : A) (positions : list nat) (col : list A) : list A :=
  List.map (fun i => nth i col d) positions.

(** [Series.sort_values(ignore_index=True)] *)
Definition Series_sort_values (s : list cell) : result (list cell) :=
  let* indexer := nargsort s in Ok (take CNone indexer s).

(** A column in ascending order: no cell is followed by a smaller one. *)
Definition non_decreasing (col : list cell) : Prop :=
  Sorted (fun a b => cell_leb a b = true) col.

(** [Series.isin(values)] *)
Definition isin (s : list cell) (values : list cell) : list bool :=
  List.map (fun x => existsb (cell_eqb x) values) s.

(** [~s] on a boolean column and [a & b] on two of them. *)
Definition invert (s : list bool) : list bool := List.map negb s.

Definition and_ (a b : list bool) : list bool :=
  List.map (fun p => andb (fst p) (snd p)) (combine a b).

(** [~s] on an object column of booleans and [pandas.NA]: [NA] stays. *)
Definition invert_na (s : list (option bool)) : list (option bool) :=
  List.map (option_map negb) s.

(** [Series.unique()] keeps the first occurrence of every value. *)
Fixpoint unique (s : list cell) : list cell :=
  match s with
  | [] => []
  | x :: s' => x :: List.filter (fun y => negb (cell_eqb x y)) (unique s')
  end.

(** A table: the length of its index and its named columns. *)
Record DataFrame := {
  index : nat;
  columns : gmap string (list cell)
}.

(** Every column is as long as the index. *)
Definition wf (df : DataFrame) : Prop :=
  map_Forall (fun _ col => length col = index df) (columns df).

(** [name in df] *)
Definition has_column (df : DataFrame) (key : cell) : bool :=
  match key with
  | CStr name => bool_decide (is_Some (columns df !! name))
  | _ => false
  end.

(** [df[key]] for one label; labels of the model are strings. *)
Definition getitem (df : DataFrame) (key : cell) : result (list cell) :=
  match key with
  | CStr name =>
      match columns df !! name with
      | Some col => Ok col
      | None => Raise (KeyError name)
      end
  | _ => Raise (KeyError "not a column label")
  end.

(** The labels of a list key, when each is a string naming a column. *)
Fixpoint labels (df : DataFrame) (keys : list cell) : result (list string) :=
  match keys with
  | [] => Ok []
  | CStr name :: rest =>
      match columns df !! name with
      | Some _ => let* ls := labels df rest in Ok (name :: ls)
      | None => Raise (KeyError name)
      end
  | _ :: _ => Raise (KeyError "not a column label")
  end.

(** [df.take(positions)] *)
Definition DataFrame_take (positions : list nat) (df : DataFrame) : DataFrame :=
  {| index := length positions;
     columns := take CNone positions <$> columns df |}.

(** [com.is_bool_indexer] on a list: not empty and booleans only. *)
Definition is_bool_indexer (keys : list cell) : bool :=
  match keys with
  | [] => false
  | _ => forallb (fun k => match k with CBool _ => true | _ => false end) keys
  end.

(** The positions a boolean list selects. *)
Definition nonzero (mask : list cell) : list nat :=
  List.filter (fun i => match cell_at mask i with CBool true => true | _ => false end)
    (seq 0 (length mask)).

(** [df[[k1, ..., kn]]].  A list of booleans is a row mask, which has to
    be as long as the index; any other list selects the sub-table of the
    columns it names, and raises [KeyError] unless every label is a
    column. *)
Definition getitem_list (df : DataFrame) (keys : list cell) : result DataFrame :=
  if is_bool_indexer keys then
    if (length keys =? index df)%nat then Ok (DataFrame_take (nonzero keys) df)
    else Raise (ValueError "Item wrong length")
  else
    let* ls := labels df keys in
    Ok {| index := index df;
          columns := filter (fun kv => fst kv ∈ ls) (columns df) |}.

(** [df[name] = col] *)
Definition setitem (df : DataFrame) (name : string) (col : list cell) : DataFrame :=
  {| index := index df; columns := <[name := col]> (columns df) |}.

(** [df.sort_values(by=[key])] *)
Definition sort_values (df : DataFrame) (key : cell) : result DataFrame :=
  let* k := getitem df key in
  let* indexer := nargsort k in
  Ok (DataFrame_take indexer df).

(** *** groupby *)

(** The key of a row under several grouping columns. *)
Definition row_key (key_cols : list (list cell)) (i : nat) : list cell :=
  List.map (fun col => cell_at col i) key_cols.

Fixpoint cells_eqb (a b : list cell) : bool :=
  match a, b with
  | [], [] => true
  | x :: a', y :: b' => cell_eqb x y && cells_eqb a' b'
  | _, _ => false
  end.

(** Keys are ordered column by column. *)
Fixpoint cells_leb (a b : list cell) : bool :=
  match a, b with
  | [], _ => true
  | _ :: _, [] => false
  | x :: a', y :: b' =>
      if cell_eqb x y then cells_leb a' b' else cell_leb x y
  end.

Fixpoint distinct_keys (ks : list (list cell)) : list (list cell) :=
  match ks with
  | [] => []
  | k :: ks' => k :: List.filter (fun k' => negb (cells_eqb k k')) (distinct_keys ks')
  end.

(** The groups of [groupby]: rows with a missing key are left out
    ([dropna=True]), groups come in ascending key order ([sort=True]) and
    every group lists its row positions in table order. *)
Definition group_positions (key_cols : list (list cell)) (n : nat) : list (list nat) :=
  let rows := seq 0 n in
  let keyed := List.filter (fun i => forallb notna (row_key key_cols i)) rows in
  let keys := isort cells_leb (distinct_keys (List.map (row_key key_cols) keyed)) in
  List.map (fun k => List.filter (fun i => cells_eqb (row_key key_cols i) k) keyed) keys.

Fixpoint mapM {A B} (f : A -> result B) (l : list A) : result (list B) :=
  match l with
  | [] => Ok []
  | x :: l' => let* y := f x in let* ys := mapM f l' in Ok (y :: ys)
  end.

(** [df.groupby(keys)] for a list of labels. *)
Definition groupby_list (df : DataFrame) (keys : list cell) : result (list (list nat)) :=
  match keys with
  | [] => Raise (ValueError "No group keys passed!")
  | _ =>
      let* key_cols := mapM (getitem df) keys in
      if bool_decide (NoDup keys)
      then Ok (group_positions key_cols (index df))
      else Raise (ValueError "Grouper not 1-dimensional")
  end.

(** [df.groupby(key)] for one label. *)
Definition groupby (df : DataFrame) (key : cell) : result (list (list nat)) :=
  match key with
  | CNone => Raise (TypeError "You have to supply one of 'by' and 'level'")
  | _ => let* col := getitem df key in Ok (group_positions [col] (index df))
  end.

End Pandas.

(** ** DataframeType *)

Module DataframeType.
Import Pandas.

(** An argument of a rule: one scalar or a list of scalars.  A key the
    rule leaves out reads as [None]. *)
Inductive arg :=
| AVal (c : cell)
| AList (l : list cell).

(** The record every dataframe operator receives
    ([other_value.get(...)] of the keys used below). *)
Record other_value := {
  target : cell;
  comparator : arg;
  value_is_literal : bool;
  within : cell;
  ordering : cell
}.

(** The bundle: the table and the prefix map, a dict kept in insertion
    order.  The reference and codelist maps play no part in the operators
    below. *)
Record t := {
  value : DataFrame;
  column_prefix_map : list (string * string)
}.

(** What an operator compares the target column with. *)
Inductive comparison_data :=
| CDVal (c : cell)
| CDList (l : list cell)
| CDSeries (s : list cell)
| CDFrame (df : DataFrame).

Definition literal (a : arg) : comparison_data :=
  match a with AVal c => CDVal c | AList l => CDList l end.

(** [for prefix, replacement in ...items(): if value.startswith(prefix):
    return value.replace(prefix, replacement, 1)] *)
Fixpoint replace_prefix_loop (items : list (string * string)) (value : string) : string :=
  match items with
  | [] => value
  | (prefix, replacement) :: rest =>
      if String.prefix prefix value
      then replacement ++
           String.substring (String.length prefix)
             (String.length value - String.length prefix) value
      else replace_prefix_loop rest value
  end.

Definition replace_prefix (self : t) (value : cell) : cell :=
  match value with
  | CStr s => CStr (replace_prefix_loop (column_prefix_map self) s)
  | _ => value
  end.

(** [replace_prefix] at an argument that may be a list: a list is not a
    [str] and comes back as it is. *)
Definition replace_prefix_arg (self : t) (value : arg) : arg :=
  match value with
  | AVal c => AVal (replace_prefix self c)
  | AList _ => value
  end.

Definition replace_all_prefixes (self : t) (values : list cell) : list cell :=
  List.map (replace_prefix self) values.

(** [DataFrame.get(key, default)]: [df[key]], and [default] when that
    raises [KeyError] or [ValueError].  A list key selects a sub-table, or
    rows when it is a mask. *)
Definition DataFrame_get (df : DataFrame) (key : arg) (default : comparison_data)
  : comparison_data :=
  match key with
  | AVal c =>
      match getitem df c with
      | Ok col => CDSeries col
      | Raise _ => default
      end
  | AList keys =>
      match getitem_list df keys with
      | Ok sub => CDFrame sub
      | Raise _ => default
      end
  end.

Definition get_comparator_data (self : t) (comparator : arg) (value_is_literal : bool)
  : comparison_data :=
  if value_is_literal then literal comparator
  else DataFrame_get (value self) comparator (literal comparator).

(** [Series.eq(other)].  Against one value a missing cell compares
    false ([cmp_eq]); against a column, or a list made into one, the two
    arrays of objects are compared item by item with [==], so [None]
    equals [None]. *)
Definition Series_eq (s : list cell) (other : comparison_data) : result (list bool) :=
  match other with
  | CDVal c => Ok (List.map (fun x => cmp_eq x c) s)
  | CDSeries o => Ok (List.map (fun p => cell_eqb (fst p) (snd p)) (combine s o))
  | CDList l =>
      if (length l =? length s)%nat
      then Ok (List.map (fun p => cell_eqb (fst p) (snd p)) (combine s l))
      else Raise (ValueError "Lengths must be equal")
  | CDFrame _ => Raise (Unmodelled "Series.eq against a DataFrame")
  end.

(** The value row [i] of the target is compared with: the literal, or
    the cell of the comparator column or list at that row. *)
Definition comparison_value (other : comparison_data) (i : nat) : option cell :=
  match other with
  | CDVal c => Some c
  | CDSeries o => o !! i
  | CDList l => l !! i
  | CDFrame _ => None
  end.

(** [x in ["", None]] *)
Definition in_empty (x : cell) : bool := existsb (cell_eqb x) [CStr ""; CNone].

Definition exists_ (self : t) (other_value : other_value) : bool :=
  let target_column := replace_prefix self (target other_value) in
  has_column (value self) target_column.

Definition not_exists (self : t) (other_value : other_value) : bool :=
  negb (exists_ self other_value).

Definition equal_to (self : t) (other_value : other_value) : result (list bool) :=
  let target := replace_prefix self (target other_value) in
  let value_is_literal := value_is_literal other_value in
  let comparator :=
    if negb value_is_literal then replace_prefix_arg self (comparator other_value)
    else comparator other_value in
  let comparison_data := get_comparator_data self comparator value_is_literal in
  let* col := getitem (value self) target in
  let* e := Series_eq col comparison_data in
  Ok (and_ e (invert (isin col [CStr ""; CNone]))).

Definition not_equal_to (self : t) (other_value : other_value) : result (list bool) :=
  let* r := equal_to self other_value in Ok (invert r).

Definition empty (self : t) (other_value : other_value) : result (list bool) :=
  let target := replace_prefix self (target other_value) in
  let* col := getitem (value self) target in
  Ok (isin col [CStr ""; CNone]).

Definition non_empty (self : t) (other_value : other_value) : result (list bool) :=
  let* r := empty self other_value in Ok (invert r).

(** [set(values).issubset(set(self.value[target].unique()))] *)
Definition contains_all (self : t) (other_value : other_value) : result bool :=
  let target := replace_prefix self (target other_value) in
  let* values :=
    match comparator other_value with
    | AList l => Ok l
    | AVal c =>
        let comparator := replace_prefix self c in
        let* col := getitem (value self) comparator in Ok (unique col)
    end in
  let* tcol := getitem (value self) target in
  Ok (forallb (fun v => existsb (cell_eqb v) (unique tcol)) values).

Definition not_contains_all (self : t) (other_value : other_value) : result bool :=
  let* r := contains_all self other_value in Ok (negb r).

(** [groupby(...)[target].transform('size')]: for every row the size of
    its group; a row outside every group (missing key) gets no count. *)
Definition transform_size (groups : list (list nat)) (n : nat) : list (option nat) :=
  List.map
    (fun i => option_map (@length nat)
                (List.find (fun g => existsb (Nat.eqb i) g) groups))
    (seq 0 n).

Definition set_comparator (ov : other_value) (a : arg) : other_value :=
  {| target := target ov; comparator := a;
     value_is_literal := value_is_literal ov;
     within := within ov; ordering := ordering ov |}.

(** With a list comparator [value.append(target)] and
    [replace_all_prefixes] write into the list of the caller's rule, before
    anything can raise; the operator gives the rule back next to its
    result.  A single comparator is put into a new list and the rule stays
    as it was. *)
Definition is_unique_set (self : t) (ov : other_value)
  : result (list bool) * other_value :=
  let target := replace_prefix self (target ov) in
  let value := comparator ov in
  let target_data :=
    match value with
    | AList l => l ++ [target]
    | AVal c => [c; target]
    end in
  let target_data := replace_all_prefixes self target_data in
  let ov' :=
    match value with
    | AList _ => set_comparator ov (AList target_data)
    | AVal _ => ov
    end in
  (let* sub := getitem_list (DataframeType.value self) target_data in
   let* groups := groupby_list sub target_data in
   let* _ := getitem sub target in
   let counts := transform_size groups (index sub) in
   Ok (List.map (fun c => match c with Some k => (k <=? 1)%nat | None => false end)
         counts),
   ov').

Definition is_not_unique_set (self : t) (ov : other_value)
  : result (list bool) * other_value :=
  let '(r, ov') := is_unique_set self ov in
  (let* b := r in Ok (invert b), ov').

(** [groupby(value).agg(lambda x: list(x))[target].map(lambda x: sorted(x) == x).tolist()]:
    the grouping column becomes the index of the aggregate, so it cannot
    be selected as [target]. *)
Definition ordered_flags (self : t) (target value : cell) : result (list bool) :=
  let* groups := groupby (DataframeType.value self) value in
  let* tcol :=
    if bool_decide (target = value) then
      Raise (KeyError "the grouping column is the index of the aggregate")
    else getitem (DataframeType.value self) target in
  mapM (fun g => let x := take CNone g tcol in
                 let* sx := sorted x in Ok (cells_eqb sx x)) groups.

Definition is_ordered_set (self : t) (other_value : other_value) : result bool :=
  let target := replace_prefix self (target other_value) in
  match comparator other_value with
  | AList _ => Raise (Exception "Comparator must be a single String value")
  | AVal value =>
      let* flags := ordered_flags self target value in
      Ok (negb (existsb negb flags))
  end.

Definition is_not_ordered_set (self : t) (other_value : other_value) : result bool :=
  let target := replace_prefix self (target other_value) in
  match comparator other_value with
  | AList _ => Raise (Exception "Comparator must be a single String value")
  | AVal value =>
      let* flags := ordered_flags self target value in
      Ok (existsb negb flags)
  end.

(** [[*results, pandas.NA]] after comparing the target without its last
    row with the comparator without its first row, by position. *)
Definition compare_target_with_comparator_next_row
    (df : DataFrame) (target comparator : cell) : result (list (option bool)) :=
  let* t := getitem df target in
  let* c := getitem df comparator in
  let target_without_last_row := removelast t in
  let comparator_without_first_row := tail c in
  let results :=
    List.map (fun p => cell_eqb (fst p) (snd p))
      (combine target_without_last_row comparator_without_first_row) in
  Ok (List.map Some results ++ [None]).

(** The result lists the groups one after the other
    ([results.explode().tolist()]); [None] is [pandas.NA].  Without any
    group [apply] gives an empty table, and [explode] of a table asks for
    a column. *)
Definition has_next_corresponding_record (self : t) (other_value : other_value)
  : result (list (option bool)) :=
  let target := replace_prefix self (target other_value) in
  match replace_prefix_arg self (comparator other_value) with
  | AList _ => Raise (Unmodelled "a list of columns as comparator")
  | AVal comparator =>
      let group_by_column := replace_prefix self (within other_value) in
      let order_by_column := replace_prefix self (ordering other_value) in
      let* ordered_df := sort_values (DataframeType.value self) order_by_column in
      let* grouped_df := groupby ordered_df group_by_column in
      let* results :=
        mapM (fun g => compare_target_with_comparator_next_row
                         (DataFrame_take g ordered_df) target comparator)
             grouped_df in
      match grouped_df with
      | [] => Raise (TypeError "DataFrame.explode() missing 1 required positional argument: 'column'")
      | _ => Ok (concat results)
      end
  end.

Definition does_not_have_next_corresponding_record (self : t) (other_value : other_value)
  : result (list (option bool)) :=
  let* r := has_next_corresponding_record self other_value in Ok (invert_na r).

(** [bool(a)] of a rule argument. *)
Definition arg_truthy (a : arg) : bool :=
  match a with
  | AVal CNone => false
  | AVal (CBool b) => b
  | AVal (CInt n) => negb (n =? 0)%Z
  | AVal (CStr s) => negb (String.eqb s "")
  | AList l => match l with [] => false | _ => true end
  end.

(** [len(ser) > min_length] needs a number; [[False] * min_length] then
    has [min_length] items (none when it is negative). *)
Definition validate_series_length (ser : list cell) (min_length : arg)
  : result (list bool) :=
  match min_length with
  | AVal c =>
      match cell_number c with
      | Some m =>
          if (m <? Z.of_nat (length ser))%Z
          then Ok (repeat true (length ser))
          else Ok (repeat false (Z.to_nat m))
      | None => Raise (TypeError "'>' not supported between instances")
      end
  | AList _ => Raise (TypeError "'>' not supported between instances")
  end.

Definition present_on_multiple_rows_within (self : t) (other_value : other_value)
  : result (list bool) :=
  let target := replace_prefix self (target other_value) in
  let min_count :=
    if arg_truthy (comparator other_value) then comparator other_value
    else AVal (CInt 1) in
  let group_by_column := replace_prefix self (within other_value) in
  let* grouped := groupby (DataframeType.value self) group_by_column in
  let* results :=
    mapM (fun g =>
            let* ser := getitem (DataFrame_take g (DataframeType.value self)) target in
            validate_series_length ser min_count)
         grouped in
  match grouped with
  | [] => Raise (TypeError "DataFrame.explode() missing 1 required positional argument: 'column'")
  | _ => Ok (concat results)
  end.

Definition not_present_on_multiple_rows_within (self : t) (other_value : other_value)
  : result (list bool) :=
  let* r := present_on_multiple_rows_within self other_value in Ok (invert r).

Definition has_different_values (self : t) (other_value : other_value)
  : result (list bool) :=
  let target := replace_prefix self (target other_value) in
  let* col := getitem (DataframeType.value self) target in
  let is_valid := (1 <? length (unique col))%nat in
  Ok (repeat is_valid (length col)).

(** [~pandas.Series([is_valid] * n)]: a column made of no items has no
    boolean type, and what [~] does with it is not followed. *)
Definition has_same_values (self : t) (other_value : other_value)
  : result (list bool) :=
  let* r := has_different_values self other_value in
  match r with
  | [] => Raise (Unmodelled "~ on a column made of no items")
  | _ => Ok (invert r)
  end.

Definition is_ordered_by (self : t) (other_value : other_value) : result (list bool) :=
  let target := replace_prefix self (target other_value) in
  let* col := getitem (DataframeType.value self) target in
  let* ordered := Series_sort_values col in
  Series_eq col (CDSeries ordered).

(** *** The two operators that write into the table *)

(** [grouped_target.apply(lambda x: x[:-1]).apply(lambda x: x in ["", None])]:
    the rows of every group but its last, each with its flag. *)
Definition except_last_row_flags (groups : list (list nat)) (tcol : list cell)
  : list (nat * bool) :=
  concat (List.map
            (fun g => List.map (fun i => (i, in_empty (cell_at tcol i))) (removelast g))
            groups).

(** Assigning the flags as a column aligns them on the row labels; rows
    without a flag hold a missing value. *)
Definition aligned_column (flags : list (nat * bool)) (n : nat) : list cell :=
  List.map
    (fun i => match List.find (fun p => Nat.eqb (fst p) i) flags with
              | Some p => CBool (snd p)
              | None => CNone
              end)
    (seq 0 n).

Definition grouped_target (self : t) (comparator : arg) (target : cell)
  : result (list (list nat) * list cell) :=
  let* groups :=
    match comparator with
    | AVal c => groupby (DataframeType.value self) c
    | AList l => groupby_list (DataframeType.value self) l
    end in
  let* tcol := getitem (DataframeType.value self) target in
  Ok (groups, tcol).

Definition set_value (self : t) (df : DataFrame) : t :=
  {| value := df; column_prefix_map := column_prefix_map self |}.

(** With two or more grouping columns [reset_index(level=0, drop=True)]
    leaves an index of several levels, which a table that has rows cannot
    take as a column. *)
Definition incompatible_index (self : t) (comparator : arg) : bool :=
  match comparator with
  | AList (_ :: _ :: _) => negb (index (DataframeType.value self) =? 0)%nat
  | _ => false
  end.

(** [uuid] is the text [uuid4()] draws in this call.  The operator gives
    back the bundle next to its result: the table is shared and written
    in place. *)
Definition empty_within_except_last_row (uuid : string) (self : t)
    (other_value : other_value) : result bool * t :=
  let target := replace_prefix self (target other_value) in
  let comparator := comparator other_value in
  match grouped_target self comparator target with
  | Raise e => (Raise e, self)
  | Ok (groups, tcol) =>
      let results := except_last_row_flags groups tcol in
      if incompatible_index self comparator then
        (Raise (TypeError "incompatible index of inserted column with frame index"),
         self)
      else
      let df :=
        setitem (DataframeType.value self) ("result_" ++ uuid)
          (aligned_column results (index (DataframeType.value self))) in
      (Ok (existsb id (List.map snd results)), set_value self df)
  end.

Definition non_empty_within_except_last_row (uuid : string) (self : t)
    (other_value : other_value) : result bool * t :=
  let target := replace_prefix self (target other_value) in
  let comparator := comparator other_value in
  match grouped_target self comparator target with
  | Raise e => (Raise e, self)
  | Ok (groups, tcol) =>
      let results :=
        List.map (fun p => (fst p, negb (snd p))) (except_last_row_flags groups tcol) in
      if incompatible_index self comparator then
        (Raise (TypeError "incompatible index of inserted column with frame index"),
         self)
      else
      let df :=
        setitem (DataframeType.value self) ("result_" ++ uuid)
          (aligned_column results (index (DataframeType.value self))) in
      (Ok (negb (existsb negb (List.map snd results))), set_value self df)
  end.

(** *** The operators by name

    What an operator hands back: one boolean, a boolean column, or a
    column of booleans and [pandas.NA]. *)
Inductive ret :=
| RBool (b : bool)
| RColumn (l : list bool)
| RColumnNA (l : list (option bool)).

Inductive operator :=
| op_exists | op_not_exists
| op_equal_to | op_not_equal_to
| op_empty | op_non_empty
| op_empty_within_except_last_row | op_non_empty_within_except_last_row
| op_contains_all | op_not_contains_all
| op_is_unique_set | op_is_not_unique_set
| op_is_ordered_set | op_is_not_ordered_set
| op_has_next_corresponding_record | op_does_not_have_next_corresponding_record
| op_present_on_multiple_rows_within | op_not_present_on_multiple_rows_within
| op_has_different_values | op_has_same_values
| op_is_ordered_by.

(** A call leaves three things behind: what it returned or raised, the
    bundle and the rule record, the latter two because some operators
    write into them. *)
Record outcome := {
  returned : result ret;
  bundle : t;
  rule : other_value
}.

(** [getattr(instance, name)(other_value)] *)
Definition call (uuid : string) (op : operator) (self : t) (ov : other_value)
  : outcome :=
  let pure (r : result ret) := {| returned := r; bundle := self; rule := ov |} in
  match op with
  | op_exists => pure (Ok (RBool (exists_ self ov)))
  | op_not_exists => pure (Ok (RBool (not_exists self ov)))
  | op_equal_to => pure (Py.fmap RColumn (equal_to self ov))
  | op_not_equal_to => pure (Py.fmap RColumn (not_equal_to self ov))
  | op_empty => pure (Py.fmap RColumn (empty self ov))
  | op_non_empty => pure (Py.fmap RColumn (non_empty self ov))
  | op_empty_within_except_last_row =>
      let '(r, self') := empty_within_except_last_row uuid self ov in
      {| returned := Py.fmap RBool r; bundle := self'; rule := ov |}
  | op_non_empty_within_except_last_row =>
      let '(r, self') := non_empty_within_except_last_row uuid self ov in
      {| returned := Py.fmap RBool r; bundle := self'; rule := ov |}
  | op_contains_all => pure (Py.fmap RBool (contains_all self ov))
  | op_not_contains_all => pure (Py.fmap RBool (not_contains_all self ov))
  | op_is_unique_set =>
      let '(r, ov') := is_unique_set self ov in
      {| returned := Py.fmap RColumn r; bundle := self; rule := ov' |}
  | op_is_not_unique_set =>
      let '(r, ov') := is_not_unique_set self ov in
      {| returned := Py.fmap RColumn r; bundle := self; rule := ov' |}
  | op_is_ordered_set => pure (Py.fmap RBool (is_ordered_set self ov))
  | op_is_not_ordered_set => pure (Py.fmap RBool (is_not_ordered_set self ov))
  | op_has_next_corresponding_record =>
      pure (Py.fmap RColumnNA (has_next_corresponding_record self ov))
  | op_does_not_have_next_corresponding_record =>
      pure (Py.fmap RColumnNA (does_not_have_next_corresponding_record self ov))
  | op_present_on_multiple_rows_within =>
      pure (Py.fmap RColumn (present_on_multiple_rows_within self ov))
  | op_not_present_on_multiple_rows_within =>
      pure (Py.fmap RColumn (not_present_on_multiple_rows_within self ov))
  | op_has_different_values => pure (Py.fmap RColumn (has_different_values self ov))
  | op_has_same_values => pure (Py.fmap RColumn (has_same_values self ov))
  | op_is_ordered_by => pure (Py.fmap RColumn (is_ordered_by self ov))
  end.




End DataframeType.

(** ** Sample bundles and rules *)

Module Samples.
Import Pandas DataframeType.

Definition table (n : nat) (cols : list (string * list cell)) : DataFrame :=
  {| index := n; columns := list_to_map cols |}.

Definition rule (target : cell) (comparator : arg) : other_value :=
  {| target := target; comparator := comparator; value_is_literal := false;
     within := CNone; ordering := CNone |}.

Definition literal_rule (target : cell) (comparator : arg) : other_value :=
  {| target := target; comparator := comparator; value_is_literal := true;
     within := CNone; ordering := CNone |}.

Definition rule_within (target : cell) (comparator : arg) (within ordering : cell)
  : other_value :=
  {| target := target; comparator := comparator; value_is_literal := false;
     within := within; ordering := ordering |}.

(** One visit of one subject. *)
Definition one_row : t :=
  {| value := table 1 [("USUBJID", [CStr "S1"]); ("VISIT", [CStr "V1"])];
     column_prefix_map := [] |}.

(** A column holding one missing cell. *)
Definition one_missing : t :=
  {| value := table 1 [("AESEQ", [CNone])]; column_prefix_map := [] |}.


(** Two records of one group whose ordering column holds a number and a
    string. *)
Definition unordered : t :=
  {| value := table 2 [("g", [CStr "X"; CStr "X"]);
                       ("t", [CInt 1; CStr "A"]);
                       ("target", [CInt 10; CInt 20]);
                       ("comparator", [CInt 20; CInt 10])];
     column_prefix_map := [] |}.

(** One record whose grouping key is missing. *)
Definition unkeyed : t :=
  {| value := table 1 [("g", [CNone]); ("t", [CInt 1]);
                       ("target", [CInt 10]); ("comparator", [CInt 10])];
     column_prefix_map := [] |}.

(** Adverse events with a domain prefix. *)
Definition events : t :=
  {| value := table 2 [("AESEV", [CStr "MILD"; CStr "SEVERE"]);
                       ("AESEQ", [CInt 1; CInt 2])];
     column_prefix_map := [("--", "AE")] |}.

(** Terms of which the first is the empty string and the second is
    missing, in both columns. *)
Definition blanks : t :=
  {| value := table 3 [("AETERM", [CStr ""; CNone; CStr "HEADACHE"]);
                       ("AELLT", [CStr ""; CNone; CStr "HEADACHE"])];
     column_prefix_map := [] |}.

(** Three records of one group, listed out of order. *)
Definition records : t :=
  {| value := table 3 [("g", [CStr "X"; CStr "X"; CStr "X"]);
                       ("t", [CInt 3; CInt 1; CInt 2]);
                       ("target", [CInt 30; CInt 10; CInt 20]);
                       ("comparator", [CInt 20; CNone; CInt 10])];
     column_prefix_map := [] |}.

End Samples.

(** ** The remaining operators of the scalar types *)

Module StringOperators.

(** [p in s] between two strings: [p] starts at some position of [s]. *)
Fixpoint is_substring (p s : string) : bool :=
  String.prefix p s ||
  match s with
  | EmptyString => false
  | String _ s' => is_substring p s'
  end.

(** [s.endswith(p)]: [p] is what is left of [s] from some position on. *)
Fixpoint is_suffix (p s : string) : bool :=
  String.eqb p s ||
  match s with
  | EmptyString => false
  | String _ s' => is_suffix p s'
  end.

Definition starts_with : StringType.t -> Py.value -> result bool :=
  StringType.type_operator
    (fun self other_string => String.prefix other_string (StringType.value self)).

Definition ends_with : StringType.t -> Py.value -> result bool :=
  StringType.type_operator
    (fun self other_string => is_suffix other_string (StringType.value self)).

Definition contains : StringType.t -> Py.value -> result bool :=
  StringType.type_operator
    (fun self other_string => is_substring other_string (StringType.value self)).

End StringOperators.

Module GenericOperators.

(** [x in container]: a substring test in a string, which takes a
    string only; a search with [==] in a list; [TypeError] in anything
    that does not iterate. *)
Definition py_in (x container : Py.value) : result bool :=
  match container with
  | VStr s =>
      match x with
      | VStr p => Ok (StringOperators.is_substring p s)
      | _ => Raise (TypeError "'in <string>' requires string as left operand")
      end
  | VList l => Ok (existsb (Py.eqb x) l)
  | _ => Raise (TypeError "argument is not iterable")
  end.

(** [GenericType.contains], registered with [FIELD_TEXT]. *)
Definition contains (self : GenericType.t) (arg : Py.value) : result bool :=
  let* other_string := GenericType.cast arg in
  py_in other_string (GenericType.value self).

End GenericOperators.

(** ** Codelists

    The two helpers of the codelist operators.  [column_codelist_map]
    gives, for a column name, the names of the codelists its values may
    come from; every item of [codelist_term_maps] gives, for a codelist
    name, whether the codelist is extensible and the terms it allows. *)

Module Codelists.

(** [codelist_term_map[codelist]]: a missing or [None] entry
    [extensible] is falsy, a missing entry [allowed_terms] is [[]]. *)
Record codelist := {
  extensible : bool;
  allowed_terms : list string
}.

Record t := {
  bundle : DataframeType.t;
  column_codelist_map : gmap string (list string);
  codelist_term_maps : list (gmap string codelist)
}.

(** [codelist in names] *)
Definition listed (codelist : string) (names : list string) : bool :=
  existsb (String.eqb codelist) names.

(** [for key in self.column_prefix_map: if column_name.startswith(...)]:
    the name with the replacement at its front turned back into the key;
    the search goes on when that generic name has no codelists. *)
Fixpoint generic_lookup (codelists : gmap string (list string))
    (items : list (string * string)) (column_name codelist : string) : bool :=
  match items with
  | [] => true
  | (key, replacement) :: rest =>
      if String.prefix replacement column_name then
        let generic_column_name :=
          (key ++ String.substring (String.length replacement)
                    (String.length column_name - String.length replacement)
                    column_name)%string in
        match codelists !! generic_column_name with
        | Some names => listed codelist names
        | None => generic_lookup codelists rest column_name codelist
        end
      else generic_lookup codelists rest column_name codelist
  end.

Definition valid_codelist_reference (self : t) (column_name codelist : string) : bool :=
  match column_codelist_map self !! column_name with
  | Some names => listed codelist names
  | None =>
      generic_lookup (column_codelist_map self)
        (DataframeType.column_prefix_map (bundle self)) column_name codelist
  end.

(** [codelist in codelist_term_map]: the keys are strings; a list cannot
    be hashed. *)
Definition lookup_codelist (m : gmap string codelist) (c : Py.value)
  : result (option codelist) :=
  match c with
  | VStr s => Ok (m !! s)
  | VList _ => Raise (TypeError "unhashable type: 'list'")
  | _ => Ok None
  end.

(** [set(terms_list)]: the characters of a string, the items of a list. *)
Definition set_of (terms_list : Py.value) : result (list Py.value) :=
  match terms_list with
  | VStr _ => Ok (items terms_list)
  | VList l =>
      if forallb (fun x => negb (is_list x)) l then Ok l
      else Raise (TypeError "unhashable type: 'list'")
  | _ => Raise (TypeError "object is not iterable")
  end.

Definition allowed (terms : list string) (x : Py.value) : bool :=
  match x with
  | VStr s => existsb (String.eqb s) terms
  | _ => false
  end.

(** The loop of [valid_terms]; [or] evaluates its right side only when
    the left one is falsy. *)
Fixpoint valid_terms_loop (maps : list (gmap string codelist))
    (codelist terms_list : Py.value) (valid_term : bool) : result bool :=
  match maps with
  | [] => Ok valid_term
  | codelist_term_map :: rest =>
      let* found := lookup_codelist codelist_term_map codelist in
      match found with
      | None => valid_terms_loop rest codelist terms_list valid_term
      | Some entry =>
          let* valid_term' :=
            if valid_term then Ok true
            else if extensible entry then Ok true
            else let* terms := set_of terms_list in
                 Ok (forallb (allowed (allowed_terms entry)) terms) in
          valid_terms_loop rest codelist terms_list valid_term'
      end
  end.

Definition valid_terms (self : t) (codelist terms_list : Py.value) : result bool :=
  if negb (truthy codelist) then Ok true
  else valid_terms_loop (codelist_term_maps self) codelist terms_list false.

End Codelists.

(** ** One-to-one relationships *)

Module Relationship.
Import Pandas DataframeType.

(** [DataFrame.drop_duplicates()]: the positions of the rows that no
    earlier row equals; missing cells count as equal to each other. *)
Definition drop_duplicates (cols : list (list cell)) (n : nat) : list nat :=
  List.filter
    (fun i => negb (existsb (fun j => cells_eqb (row_key cols j) (row_key cols i))
                      (seq 0 i)))
    (seq 0 n).

(** [Series.duplicated(keep=False)]: every cell that occurs more than once. *)
Definition duplicated (s : list cell) : list bool :=
  List.map (fun x => (1 <? length (List.filter (cell_eqb x) s))%nat) s.

(** [s[mask]] *)
Definition mask (m : list bool) (s : list cell) : list cell :=
  List.map snd (List.filter fst (combine m s)).

(** [a + b] on two boolean columns. *)
Definition add (a b : list bool) : list bool :=
  List.map (fun p => orb (fst p) (snd p)) (combine a b).

(** A list comparator has its prefixes replaced in the list of the
    caller's rule before the selection of the two columns fails; that
    failure and the case of one column in both roles are not followed. *)
Definition is_not_unique_relationship (self : t) (ov : other_value)
  : result (list bool) * other_value :=
  let target := replace_prefix self (target ov) in
  match comparator ov with
  | AList l =>
      (Raise (Unmodelled "a list of columns as comparator"),
       set_comparator ov (AList (replace_all_prefixes self l)))
  | AVal c =>
      let comparator := replace_prefix self c in
      (let* sub := getitem_list (DataframeType.value self) [target; comparator] in
       if bool_decide (target = comparator)
       then Raise (Unmodelled "one column as target and comparator")
       else
         let* t := getitem sub target in
         let* c := getitem sub comparator in
         let kept := drop_duplicates [t; c] (index sub) in
         let without_duplicates_comparator := take CNone kept c in
         let without_duplicates_target := take CNone kept t in
         let duplicated_comparator := duplicated without_duplicates_comparator in
         let duplicated_target := duplicated without_duplicates_target in
         let* ccol := getitem (DataframeType.value self) comparator in
         let* tcol := getitem (DataframeType.value self) target in
         let result := repeat false (index (DataframeType.value self)) in
         let result :=
           if existsb id duplicated_comparator
           then add result
                  (isin ccol (mask duplicated_comparator without_duplicates_comparator))
           else result in
         let result :=
           if existsb id duplicated_target
           then add result
                  (isin tcol (mask duplicated_target without_duplicates_target))
           else result in
         Ok result,
       ov)
  end.

(** [~result]: [pd.Series([False] * 0)] has no boolean type, and what
    [~] does with it is not followed. *)
Definition is_unique_relationship (self : t) (ov : other_value)
  : result (list bool) * other_value :=
  let '(r, ov') := is_not_unique_relationship self ov in
  (let* b := r in
   match b with
   | [] => Raise (Unmodelled "~ on a column made of no items")
   | _ => Ok (invert b)
   end, ov').

End Relationship.

(** ** Regular expressions *)

Module Regex.
Import Pandas DataframeType.







End Regex.

(** * Properties *)

(** ** The sample tables are well formed *)

Lemma one_row_wf : Pandas.wf (DataframeType.value Samples.one_row).
Proof. apply (bool_decide_unpack _). vm_compute. exact I. Qed.

Lemma one_missing_wf : Pandas.wf (DataframeType.value Samples.one_missing).
Proof. apply (bool_decide_unpack _). vm_compute. exact I. Qed.

Lemma events_wf : Pandas.wf (DataframeType.value Samples.events).
Proof. apply (bool_decide_unpack _). vm_compute. exact I. Qed.

Lemma records_wf : Pandas.wf (DataframeType.value Samples.records).
Proof. apply (bool_decide_unpack _). vm_compute. exact I. Qed.

(** ** The error monad *)

Lemma bind_Ok {A B} (r : result A) (k : A -> result B) (b : B) :
  Py.bind r k = Ok b <-> exists a, r = Ok a /\ k a = Ok b.
Proof.
  destruct r as [a|e]; simpl; split.
  - intros H. exists a. auto.
  - intros (a' & Ha & Hk). injection Ha as ->. exact Hk.
  - discriminate.
  - intros (a' & Ha & _). discriminate.
Qed.

Lemma bind_Raise {A B} (r : result A) (k : A -> result B) (e : exn) :
  Py.bind r k = Raise e <-> r = Raise e \/ exists a, r = Ok a /\ k a = Raise e.
Proof.
  destruct r as [a|e']; simpl; split.
  - intros H. right. exists a. auto.
  - intros [H | (a' & Ha & Hk)]; [discriminate | injection Ha as ->; exact Hk].
  - intros H. left. congruence.
  - intros [H | (a' & Ha & _)]; [congruence | discriminate].
Qed.

(** ** Scalar types *)

Section Numeric.
Import NumericType.

Lemma dec_gt_iff (a b : Q) : dec_gt a b = true <-> (b < a)%Q.
Proof.
  unfold dec_gt. rewrite negb_true_iff, <- not_true_iff_false, Qle_bool_iff.
  split; [apply Qnot_le_lt | apply Qlt_not_le].
Qed.

Lemma dec_le_iff (a b : Q) : dec_le a b = true <-> (a <= b)%Q.
Proof. apply Qle_bool_iff. Qed.

Lemma dec_gt_false_iff (a b : Q) : dec_gt a b = false <-> (a <= b)%Q.
Proof.
  rewrite <- not_true_iff_false, dec_gt_iff.
  split; [apply Qnot_lt_le | apply Qle_not_lt].
Qed.

End Numeric.

(** ** The decimal context *)

Section ContextLemmas.
Import Context.
Local Open Scope Z_scope.

Lemma digits_fuel_nonneg (fuel : nat) (n : Z) : 0 <= digits_fuel fuel n.
Proof.
  revert n. induction fuel as [|fuel IH]; intros n; cbn [digits_fuel]; [lia|].
  destruct (n <? 10); [lia|]. specialize (IH (n / 10)). lia.
Qed.

Lemma adjusted_below_one (x : Q) : Qnum x < Zpos (Qden x) -> adjusted x <= 0.
Proof.
  intros H. unfold adjusted.
  destruct (Z.leb_spec (Zpos (Qden x)) (Qnum x)) as [H'|_]; [lia|].
  unfold digits. pose proof (digits_fuel_nonneg
    (S (Z.to_nat (Z.log2 ((Zpos (Qden x) - 1) / Qnum x))))
    ((Zpos (Qden x) - 1) / Qnum x)). lia.
Qed.

Lemma round_half_even_nonneg (x : Q) : (0 <= x)%Q -> 0 <= round_half_even x.
Proof.
  intros H. unfold round_half_even.
  assert (Hf : 0 <= Qfloor x).
  { rewrite <- (Qfloor_Z 0). now apply Qfloor_resp_le. }
  destruct (Qcompare _ _); [destruct (Z.even _) | |]; lia.
Qed.

(** Rounding to an integer does not pass an integer. *)
Lemma round_half_even_le (x : Q) (N : Z) :
  (x <= inject_Z N)%Q -> round_half_even x <= N.
Proof.
  intros H. unfold round_half_even.
  assert (Hf : Qfloor x <= N).
  { rewrite <- (Qfloor_Z N). now apply Qfloor_resp_le. }
  destruct (Z.eq_dec (Qfloor x) N) as [E|E].
  - assert (Hx : (inject_Z (Qfloor x) <= x)%Q) by apply Qfloor_le.
    rewrite E in *.
    destruct (Qcompare_spec (2 * (x - inject_Z N)) 1) as [C|C|C]; try lia.
    + exfalso. lra.
    + exfalso. lra.
  - destruct (Qcompare _ _); [destruct (Z.even _) | |]; lia.
Qed.

Lemma ten_pos (q : Z) : (0 < 10 ^ q)%Q.
Proof. apply Qpower_0_lt. reflexivity. Qed.

Lemma fix_positive_nonneg (x r : Q) :
  (0 <= x)%Q -> fix_positive x = Ok r -> (0 <= r)%Q.
Proof.
  intros Hx. unfold fix_positive.
  destruct (Emax <? adjusted x); [discriminate|].
  set (q := Z.max (adjusted x - prec + 1) Etiny).
  set (m := round_half_even (x / 10 ^ q)).
  destruct (Emax <? _); [discriminate|]. intros [= <-].
  assert (Hm : 0 <= m).
  { apply round_half_even_nonneg. apply Qle_shift_div_l; [apply ten_pos | lra]. }
  apply Qmult_le_0_compat; [| apply Qlt_le_weak, ten_pos].
  change 0%Q with (inject_Z 0). now rewrite <- Zle_Qle.
Qed.

Lemma fix_positive_Raise (x : Q) (e : exn) :
  fix_positive x = Raise e -> e = Overflow "above Emax".
Proof.
  unfold fix_positive. destruct (Emax <? adjusted x); [now intros [= <-]|].
  destruct (Emax <? _); [now intros [= <-] | discriminate].
Qed.

(** A positive number within the tolerance is rounded to one. *)
Lemma fix_positive_small (x : Q) :
  (0 < x)%Q -> (x <= NumericType.EPSILON)%Q ->
  exists r, fix_positive x = Ok r /\ (0 <= r <= NumericType.EPSILON)%Q.
Proof.
  intros Hpos Hle.
  assert (Hlt : Qnum x < Zpos (Qden x)).
  { assert (H1 : (x < 1)%Q) by (unfold NumericType.EPSILON in Hle; lra).
    unfold Qlt in H1. simpl in H1. lia. }
  pose proof (adjusted_below_one x Hlt) as Hk.
  unfold fix_positive.
  destruct (Z.ltb_spec Emax (adjusted x)) as [H|_]; [unfold Emax in H; lia|].
  set (q := Z.max (adjusted x - prec + 1) Etiny).
  assert (Hq : q <= -27) by (unfold q, Etiny, Emin, prec; lia).
  set (m := round_half_even (x / 10 ^ q)).
  assert (Hten : ~ (10 == 0)%Q) by discriminate.
  assert (HN : (10 ^ (-6 - q) == inject_Z (10 ^ (-6 - q)))%Q).
  { rewrite Zpower_Qpower by lia. reflexivity. }
  assert (Hm : m <= 10 ^ (-6 - q)).
  { apply round_half_even_le. rewrite <- HN.
    apply Qle_shift_div_r; [apply ten_pos|].
    rewrite <- Qpower_plus by exact Hten.
    replace (-6 - q + q) with (-6) by lia. exact Hle. }
  assert (Hm0 : 0 <= m).
  { apply round_half_even_nonneg. apply Qle_shift_div_l; [apply ten_pos | lra]. }
  destruct (Z.ltb_spec Emax (if 10 ^ prec <=? m then adjusted x + 1 else adjusted x))
    as [H|_].
  { destruct (10 ^ prec <=? m); unfold Emax in H; lia. }
  eexists. split; [reflexivity|]. split.
  - apply Qmult_le_0_compat; [| apply Qlt_le_weak, ten_pos].
    change 0%Q with (inject_Z 0). now rewrite <- Zle_Qle.
  - apply Qle_trans with (inject_Z (10 ^ (-6 - q)) * 10 ^ q)%Q.
    + apply Qmult_le_compat_r; [| apply Qlt_le_weak, ten_pos].
      now rewrite <- Zle_Qle.
    + rewrite <- HN, <- Qpower_plus by exact Hten.
      replace (-6 - q + q) with (-6) by lia.
      unfold NumericType.EPSILON. apply Qle_refl.
Qed.

Lemma sign_compat (x y : Q) : (x == y)%Q -> (Qnum x ?= 0) = (Qnum y ?= 0).
Proof.
  intros H. unfold Qeq in H.
  destruct (Z.compare_spec (Qnum x) 0), (Z.compare_spec (Qnum y) 0);
    try reflexivity; nia.
Qed.

(** The context sees the number, not the fraction that denotes it. *)
Lemma fix_compat (x y : Q) : (x == y)%Q -> _fix x = _fix y.
Proof.
  intros H. unfold _fix. rewrite (sign_compat x y H).
  rewrite (Qred_complete x y H).
  assert (H' : (- x == - y)%Q) by now rewrite H.
  now rewrite (Qred_complete _ _ H').
Qed.

(** Rounding is symmetric: the opposite number is rounded to the
    opposite result, or raises the same exception. *)
Lemma fix_opp (x : Q) :
  match _fix x, _fix (- x) with
  | Ok r, Ok r' => (r' == - r)%Q
  | Raise e, Raise e' => e = e'
  | _, _ => False
  end.
Proof.
  unfold _fix.
  assert (Hdd : Qred (- - x) = Qred x).
  { apply Qred_complete. apply Qopp_involutive. }
  change (Qnum (- x)) with (- Qnum x).
  destruct (Z.compare_spec (Qnum x) 0) as [E|E|E].
  - rewrite E. simpl. reflexivity.
  - assert (C : (- Qnum x ?= 0) = Gt) by (apply Z.compare_gt_iff; lia).
    rewrite C. destruct (fix_positive (Qred (- x))); simpl; [| reflexivity].
    symmetry. apply Qopp_involutive.
  - assert (C : (- Qnum x ?= 0) = Lt) by (apply Z.compare_lt_iff; lia).
    rewrite C, Hdd. destruct (fix_positive (Qred x)); simpl; reflexivity.
Qed.

Lemma fix_Raise (x : Q) (e : exn) : _fix x = Raise e -> e = Overflow "above Emax".
Proof.
  unfold _fix. destruct (Qnum x ?= 0).
  - discriminate.
  - destruct (fix_positive (Qred (- x))) eqn:F; [discriminate|].
    simpl. intros [= <-]. eapply fix_positive_Raise; eauto.
  - apply fix_positive_Raise.
Qed.

(** What the context gives is on the same side of zero. *)
Lemma fix_sign (x r : Q) :
  _fix x = Ok r -> ((0 <= x)%Q -> (0 <= r)%Q) /\ ((x <= 0)%Q -> (r <= 0)%Q).
Proof.
  unfold _fix. destruct (Z.compare_spec (Qnum x) 0) as [E|E|E].
  - intros [= <-]. split; intros; apply Qle_refl.
  - destruct (fix_positive (Qred (- x))) as [p|] eqn:F; [| discriminate].
    simpl. intros [= <-].
    assert (Hp : (0 <= p)%Q).
    { apply (fix_positive_nonneg _ _ ) in F; [exact F|].
      rewrite Qred_correct. unfold Qle. simpl. lia. }
    assert (Hx : (x < 0)%Q) by (unfold Qlt; simpl; lia).
    split; intros; lra.
  - intros F.
    assert (Hp : (0 <= r)%Q).
    { apply (fix_positive_nonneg _ _ ) in F; [exact F|].
      rewrite Qred_correct. unfold Qle. simpl. lia. }
    split; [auto|]. intros Hx. exfalso. unfold Qle in Hx. simpl in Hx. lia.
Qed.

(** A number within the tolerance stays within it. *)
Lemma fix_small (x : Q) :
  (Qabs x <= NumericType.EPSILON)%Q ->
  exists r, _fix x = Ok r /\ (Qabs r <= NumericType.EPSILON)%Q.
Proof.
  intros H. apply Qabs_Qle_condition in H as [H1 H2].
  unfold _fix. destruct (Z.compare_spec (Qnum x) 0) as [E|E|E].
  - exists 0%Q. split; [reflexivity | discriminate].
  - destruct (fix_positive_small (Qred (- x))) as (r & Hr & H0 & H3).
    + rewrite Qred_correct. unfold Qlt. simpl. lia.
    + rewrite Qred_correct. lra.
    + exists (- r)%Q. rewrite Hr. split; [reflexivity|].
      apply Qabs_Qle_condition. split; lra.
  - destruct (fix_positive_small (Qred x)) as (r & Hr & H0 & H3).
    + rewrite Qred_correct. unfold Qlt. simpl. lia.
    + now rewrite Qred_correct.
    + exists r. split; [exact Hr|]. apply Qabs_Qle_condition. split; lra.
Qed.

(** The difference taken the other way round. *)
Lemma sub_swap (a b : Q) :
  match Context.sub a b, Context.sub b a with
  | Ok r, Ok r' => (r' == - r)%Q
  | Raise e, Raise e' => e = e'
  | _, _ => False
  end.
Proof.
  unfold Context.sub.
  assert (E : (b - a == - (a - b))%Q) by ring.
  rewrite (fix_compat _ _ E). apply fix_opp.
Qed.

Lemma sub_Raise (a b : Q) (e : exn) :
  Context.sub a b = Raise e -> e = Overflow "above Emax".
Proof. apply fix_Raise. Qed.

End ContextLemmas.

(** C4. Two decimals within EPSILON of each other are [equal_to] and
    neither [greater_than] nor [less_than]; a strict comparison holds
    only when the difference exceeds EPSILON; the [_or_equal_to] variants
    are the disjunction of the strict comparison and [equal_to].  The
    difference is the one the decimal context gives: where the context
    leaves the exact difference as it is, the strict comparison and
    [equal_to] hold exactly when the difference exceeds, or stays within,
    EPSILON. *)
Theorem numeric_tolerance (a b : Q) :
  let self := {| NumericType.value := a |} in
  ((Qabs (a - b) <= NumericType.EPSILON)%Q ->
     NumericType.equal_to self (VDec b) = Ok true /\
     NumericType.greater_than self (VDec b) = Ok false /\
     NumericType.less_than self (VDec b) = Ok false) /\
  (NumericType.greater_than self (VDec b) = Ok true ->
     (NumericType.EPSILON < a - b)%Q) /\
  (NumericType.less_than self (VDec b) = Ok true ->
     (NumericType.EPSILON < b - a)%Q) /\
  (forall g e,
     NumericType.greater_than self (VDec b) = Ok g ->
     NumericType.equal_to self (VDec b) = Ok e ->
     NumericType.greater_than_or_equal_to self (VDec b) = Ok (g || e)) /\
  (forall l e,
     NumericType.less_than self (VDec b) = Ok l ->
     NumericType.equal_to self (VDec b) = Ok e ->
     NumericType.less_than_or_equal_to self (VDec b) = Ok (l || e)) /\
  (forall d, Context.sub a b = Ok d -> (d == a - b)%Q ->
     (NumericType.greater_than self (VDec b) = Ok true <->
        (NumericType.EPSILON < a - b)%Q) /\
     (NumericType.equal_to self (VDec b) = Ok true <->
        (Qabs (a - b) <= NumericType.EPSILON)%Q)).
Proof.
  intros self. unfold self; clear self.
  assert (Hwithin : forall x y, (Qabs (x - y) <= NumericType.EPSILON)%Q ->
            exists r, Context.sub x y = Ok r /\ (Qabs r <= NumericType.EPSILON)%Q).
  { intros x y H. now apply fix_small. }
  assert (Hpart1 : (Qabs (a - b) <= NumericType.EPSILON)%Q ->
     NumericType.equal_to {| NumericType.value := a |} (VDec b) = Ok true /\
     NumericType.greater_than {| NumericType.value := a |} (VDec b) = Ok false /\
     NumericType.less_than {| NumericType.value := a |} (VDec b) = Ok false).
  { intros H.
    destruct (Hwithin a b H) as (r & Hr & Hb).
    assert (H' : (Qabs (b - a) <= NumericType.EPSILON)%Q).
    { rewrite <- (Qabs_opp (b - a)).
      assert (E : (- (b - a) == a - b)%Q) by ring. now rewrite E. }
    destruct (Hwithin b a H') as (r' & Hr' & Hb').
    unfold NumericType.equal_to, NumericType.greater_than, NumericType.less_than.
    cbn [NumericType._assert_valid_value_and_cast Py.bind NumericType.value].
    rewrite Hr, Hr'. cbn [Py.bind].
    apply Qabs_Qle_condition in Hb as [Hb1 Hb2].
    apply Qabs_Qle_condition in Hb' as [Hb1' Hb2'].
    repeat split; f_equal.
    - apply dec_le_iff. apply Qabs_Qle_condition. now split.
    - now apply dec_gt_false_iff.
    - now apply dec_gt_false_iff. }
  assert (Hstrict : forall x y,
            (let* d := Context.sub x y in Ok (NumericType.dec_gt d NumericType.EPSILON))
            = Ok true -> (NumericType.EPSILON < x - y)%Q).
  { intros x y H. apply bind_Ok in H as (d & Hd & [= Hgt]).
    apply dec_gt_iff in Hgt.
    destruct (Qlt_le_dec NumericType.EPSILON (x - y)) as [|Hle]; [assumption|].
    exfalso.
    destruct (Qlt_le_dec (x - y) (- NumericType.EPSILON)) as [Hneg | Hge].
    - destruct (fix_sign _ _ Hd) as [_ Hs].
      assert (Hd0 : (d <= 0)%Q).
      { apply Hs. unfold NumericType.EPSILON in *. lra. }
      unfold NumericType.EPSILON in *. lra.
    - destruct (Hwithin x y) as (r & Hr & Hb).
      { apply Qabs_Qle_condition. now split. }
      rewrite Hr in Hd. injection Hd as <-.
      apply Qabs_Qle_condition in Hb as [_ Hb]. lra. }
  split; [exact Hpart1|]. split; [| split; [| split; [| split]]].
  - unfold NumericType.greater_than.
    cbn [NumericType._assert_valid_value_and_cast Py.bind NumericType.value].
    apply Hstrict.
  - unfold NumericType.less_than.
    cbn [NumericType._assert_valid_value_and_cast Py.bind NumericType.value].
    apply Hstrict.
  - intros g e Hg He. unfold NumericType.greater_than_or_equal_to.
    cbn [NumericType._assert_valid_value_and_cast Py.bind].
    rewrite Hg. cbn [Py.bind]. rewrite He. now destruct g.
  - intros l e Hl He. unfold NumericType.less_than_or_equal_to.
    cbn [NumericType._assert_valid_value_and_cast Py.bind].
    rewrite Hl. cbn [Py.bind]. rewrite He. now destruct l.
  - intros d Hd Hexact.
    unfold NumericType.greater_than, NumericType.equal_to.
    cbn [NumericType._assert_valid_value_and_cast Py.bind NumericType.value].
    rewrite Hd. cbn [Py.bind]. split.
    + split.
      * intros [= H]. apply dec_gt_iff in H. now rewrite <- Hexact.
      * intros H. f_equal. apply dec_gt_iff. now rewrite Hexact.
    + split.
      * intros [= H]. apply dec_le_iff in H. now rewrite <- Hexact.
      * intros H. f_equal. apply dec_le_iff. now rewrite Hexact.
Qed.

Lemma numeric_tolerance_witness :
  NumericType.equal_to {| NumericType.value := 10000001 # 10000000 |} (VDec 1) = Ok true /\
  NumericType.greater_than {| NumericType.value := 10000001 # 10000000 |} (VDec 1) = Ok false /\
  NumericType.less_than {| NumericType.value := 10000001 # 10000000 |} (VDec 1) = Ok false.
Proof.
  apply (proj1 (numeric_tolerance (10000001 # 10000000) 1)).
  vm_compute. discriminate.
Defined.

(** The tolerance is applied to the rounded difference: a difference a
    little above EPSILON is rounded to EPSILON. *)
Example numeric_tolerance_rounded :
  NumericType.equal_to
    {| NumericType.value := 10000000000000000000000000000000001
                            # 10000000000000000000000000000000000000000 |}
    (VDec 0) = Ok true /\
  NumericType.greater_than
    {| NumericType.value := 10000000000000000000000000000000001
                            # 10000000000000000000000000000000000000000 |}
    (VDec 0) = Ok false.
Proof. split; vm_compute; reflexivity. Qed.

(** C10. The string coercion sends every falsy input to the empty
    string and raises exactly on the truthy inputs that are not strings;
    [StringType(0)] and [StringType(False)] are the instance of [""]. *)
Theorem string_coercion_of_falsy (v : Py.value) :
  (truthy v = false -> StringType._assert_valid_value_and_cast v = Ok "") /\
  (is_ok (StringType._assert_valid_value_and_cast v) = false <->
     truthy v = true /\ Py.is_str v = false) /\
  (forall s, v = VStr s -> StringType._assert_valid_value_and_cast v = Ok s) /\
  StringType.new (VInt 0) = StringType.new (VStr "") /\
  StringType.new (VBool false) = StringType.new (VStr "") /\
  StringType.new VNone = StringType.new (VStr "") /\
  StringType.new (VList []) = StringType.new (VStr "") /\
  StringType.new (VStr "") = Ok {| StringType.value := "" |}.
Proof.
  unfold StringType._assert_valid_value_and_cast, or_.
  split; [| split; [split |]].
  - intros H. now rewrite H.
  - destruct (truthy v) eqn:T; [| discriminate].
    destruct v; simpl; intros H; split; congruence.
  - intros [T S]. rewrite T. destruct v; simpl in *; congruence.
  - split; [| repeat split].
    intros s ->. simpl. destruct s; reflexivity.
Qed.

Lemma string_coercion_of_falsy_witness :
  StringType._assert_valid_value_and_cast (VInt 0) = Ok "".
Proof.
  apply (proj1 (string_coercion_of_falsy (VInt 0))). reflexivity.
Defined.

(** ** Lists of results *)

Section MapM.
Import Pandas.
Context {A B : Type} (f : A -> result B).

Lemma mapM_Raise (l : list A) (e : exn) :
  mapM f l = Raise e -> exists x, In x l /\ f x = Raise e.
Proof.
  induction l as [|x l IH]; simpl; [discriminate|].
  intros H. apply bind_Raise in H as [H | (y & Hy & H)].
  - exists x. auto.
  - apply bind_Raise in H as [H | (ys & Hys & H)]; [| discriminate].
    destruct (IH H) as (x' & Hin & Hx'). exists x'. auto.
Qed.

Lemma mapM_Ok (l : list A) (g : A -> B) :
  (forall x, In x l -> f x = Ok (g x)) -> mapM f l = Ok (List.map g l).
Proof.
  induction l as [|x l IH]; simpl; intros H; [reflexivity|].
  rewrite (H x (or_introl eq_refl)). simpl.
  rewrite IH; [reflexivity|]. intros y Hy. apply H. now right.
Qed.

End MapM.

(** ** Comparison data *)

Section Labels.
Import Pandas DataframeType.

Lemma has_column_lookup (df : DataFrame) (c : cell) :
  has_column df c = true <-> exists name, c = CStr name /\ is_Some (columns df !! name).
Proof.
  destruct c as [| b | n | s]; simpl; split; try discriminate;
    try (intros (name & E & _); discriminate).
  - intros H. apply bool_decide_eq_true in H. eauto.
  - intros (name & [= ->] & H). now apply bool_decide_eq_true.
Qed.

Lemma labels_Ok (df : DataFrame) (keys : list cell) :
  (forall c, In c keys -> has_column df c = true) ->
  exists ls, labels df keys = Ok ls /\ keys = List.map CStr ls.
Proof.
  induction keys as [|c keys IH]; intros H.
  - exists []. split; reflexivity.
  - destruct (proj1 (has_column_lookup df c) (H c (or_introl eq_refl)))
      as (name & -> & [col Hcol]).
    destruct IH as (ls & Hls & ->); [intros c Hc; apply H; now right|].
    exists (name :: ls). simpl. rewrite Hcol, Hls. split; reflexivity.
Qed.

Lemma labels_Raise (df : DataFrame) (keys : list cell) (c : cell) :
  In c keys -> has_column df c = false -> exists e, labels df keys = Raise e.
Proof.
  induction keys as [|k keys IH]; intros Hin Hc; [destruct Hin|].
  destruct Hin as [-> | Hin].
  - destruct c as [| b | n | name]; simpl; eauto.
    simpl in Hc. apply bool_decide_eq_false in Hc.
    destruct (columns df !! name) eqn:E; [| eauto].
    exfalso. apply Hc. eauto.
  - destruct (IH Hin Hc) as [e He].
    destruct k as [| b | n | name]; simpl; eauto.
    destruct (columns df !! name); [| eauto]. rewrite He. simpl. eauto.
Qed.

End Labels.

Lemma is_bool_indexer_label (keys : list Pandas.cell) (name : string) :
  In (Pandas.CStr name) keys -> Pandas.is_bool_indexer keys = false.
Proof.
  intros H. unfold Pandas.is_bool_indexer. destruct keys as [|k keys]; [reflexivity|].
  apply not_true_iff_false. intros Hall. rewrite forallb_forall in Hall.
  specialize (Hall _ H). discriminate.
Qed.

(** C6 at a list that names a column.  The rule does not mark the
    comparator literal, [DataFrame.get] reads the list as column labels and
    the comparison data is the sub-table of the column [AESEV], not the
    list; with the literal mark the same list comes back as it is. *)
Theorem list_of_column_names_is_not_literal :
  (exists sub,
     DataframeType.get_comparator_data Samples.events
       (DataframeType.AList [Pandas.CStr "AESEV"]) false = DataframeType.CDFrame sub /\
     Pandas.index sub = 2%nat /\
     Pandas.columns sub !! "AESEV"
       = Some [Pandas.CStr "MILD"; Pandas.CStr "SEVERE"]) /\
  DataframeType.get_comparator_data Samples.events
    (DataframeType.AList [Pandas.CStr "AESEV"]) false
  <> DataframeType.CDList [Pandas.CStr "AESEV"] /\
  DataframeType.get_comparator_data Samples.events
    (DataframeType.AList [Pandas.CStr "AESEV"]) true
  = DataframeType.CDList [Pandas.CStr "AESEV"].
Proof.
  split; [| split].
  - eexists. split; [vm_compute; reflexivity|]. split; [reflexivity|].
    vm_compute. reflexivity.
  - vm_compute. discriminate.
  - reflexivity.
Qed.

(** C1 at a group smaller than the count asked for: one row, two flags. *)
Theorem present_on_multiple_rows_within_length :
  DataframeType.present_on_multiple_rows_within Samples.one_row
    (Samples.rule_within (Pandas.CStr "VISIT") (DataframeType.AVal (Pandas.CInt 2))
       (Pandas.CStr "USUBJID") Pandas.CNone)
  = Ok [false; false] /\
  DataframeType.not_present_on_multiple_rows_within Samples.one_row
    (Samples.rule_within (Pandas.CStr "VISIT") (DataframeType.AVal (Pandas.CInt 2))
       (Pandas.CStr "USUBJID") Pandas.CNone)
  = Ok [true; true] /\
  Pandas.index (DataframeType.value Samples.one_row) = 1%nat /\
  Pandas.getitem (DataframeType.value Samples.one_row) (Pandas.CStr "VISIT")
  = Ok [Pandas.CStr "V1"].
Proof. repeat split; vm_compute; reflexivity. Qed.

(** ** What a call leaves behind *)



(** The one write into a rule record: [is_unique_set] leaves the target
    appended to a list comparator. *)
Lemma is_unique_set_rule (self : DataframeType.t) (ov : DataframeType.other_value) :
  snd (DataframeType.is_unique_set self ov) =
  match DataframeType.comparator ov with
  | DataframeType.AList l =>
      DataframeType.set_comparator ov
        (DataframeType.AList
           (DataframeType.replace_all_prefixes self
              (l ++ [DataframeType.replace_prefix self (DataframeType.target ov)])))
  | DataframeType.AVal _ => ov
  end.
Proof.
  unfold DataframeType.is_unique_set.
  now destruct (DataframeType.comparator ov).
Qed.




(** ** Groups *)

Section Groups.
Import Pandas.

Lemma group_positions_range (key_cols : list (list cell)) (n : nat) (g : list nat) (i : nat) :
  In g (group_positions key_cols n) -> In i g -> (i < n)%nat.
Proof.
  unfold group_positions. intros Hg Hi.
  apply in_map_iff in Hg as (k & <- & _).
  apply filter_In in Hi as [Hi _]. apply filter_In in Hi as [Hi _].
  apply in_seq in Hi. lia.
Qed.

Lemma groupby_Ok (df : DataFrame) (name : string) (col : list cell) :
  columns df !! name = Some col ->
  groupby df (CStr name) = Ok (group_positions [col] (index df)).
Proof. intros H. unfold groupby, getitem. now rewrite H. Qed.

Lemma groupby_missing (df : DataFrame) (name : string) :
  columns df !! name = None -> groupby df (CStr name) = Raise (KeyError name).
Proof. intros H. unfold groupby, getitem. now rewrite H. Qed.

Lemma groupby_not_Exception (df : DataFrame) (key : cell) (msg : string) :
  groupby df key <> Raise (Exception msg).
Proof.
  unfold groupby, getitem.
  destruct key as [| b | n | name]; simpl; try discriminate.
  destruct (columns df !! name); discriminate.
Qed.

Lemma getitem_not_Exception (df : DataFrame) (key : cell) (msg : string) :
  getitem df key <> Raise (Exception msg).
Proof.
  unfold getitem. destruct key as [| b | n | name]; try discriminate.
  destruct (columns df !! name); discriminate.
Qed.

Lemma take_forallb (P : cell -> bool) (g : list nat) (col : list cell) :
  (forall i, In i g -> (i < length col)%nat) ->
  forallb P col = true -> forallb P (take CNone g col) = true.
Proof.
  intros Hg HP. unfold take. apply forallb_forall. intros x Hx.
  apply in_map_iff in Hx as (i & <- & Hi).
  rewrite forallb_forall in HP. apply HP, nth_In, Hg, Hi.
Qed.

Lemma comparable_homogeneous (l : list cell) :
  forallb is_num l || forallb is_str l = true -> comparable l = true.
Proof. intros H. destruct l as [|x [|y l]]; auto. Qed.

Lemma sorted_not_Exception (x : list cell) (msg : string) :
  sorted x <> Raise (Exception msg).
Proof. unfold sorted. destruct (comparable x); discriminate. Qed.

End Groups.

Section OrderedSet.
Import Pandas DataframeType.

Lemma ordered_flags_not_Exception (self : t) (target value : cell) (msg : string) :
  ordered_flags self target value <> Raise (Exception msg).
Proof.
  unfold ordered_flags. intros H.
  apply bind_Raise in H as [H | (groups & _ & H)].
  { now apply groupby_not_Exception in H. }
  apply bind_Raise in H as [H | (tcol & _ & H)].
  { destruct (bool_decide _); [discriminate|].
    now apply getitem_not_Exception in H. }
  apply mapM_Raise in H as (g & _ & H).
  apply bind_Raise in H as [H | (sx & _ & H)]; [| discriminate].
  now apply sorted_not_Exception in H.
Qed.

Lemma ordered_flags_Ok (self : t) (target : cell) (by_ : string) (wcol tcol : list cell) :
  wf (DataframeType.value self) ->
  columns (DataframeType.value self) !! by_ = Some wcol ->
  target <> CStr by_ ->
  getitem (DataframeType.value self) target = Ok tcol ->
  forallb is_num tcol || forallb is_str tcol = true ->
  exists flags, ordered_flags self target (CStr by_) = Ok flags.
Proof.
  intros Hwf Hw Hne Ht Hhom. unfold ordered_flags.
  rewrite (groupby_Ok _ _ _ Hw). simpl.
  rewrite bool_decide_eq_false_2 by exact Hne. rewrite Ht. simpl.
  eexists. apply mapM_Ok with
    (g := fun g => cells_eqb (isort cell_leb (take CNone g tcol)) (take CNone g tcol)).
  intros g Hg. unfold sorted.
  rewrite comparable_homogeneous; [reflexivity|].
  assert (Hlen : length tcol = index (DataframeType.value self)).
  { unfold getitem in Ht. destruct target as [| | | name]; try discriminate.
    destruct (columns (DataframeType.value self) !! name) eqn:E; [| discriminate].
    injection Ht as ->. now apply (Hwf name). }
  assert (Hr : forall i, In i g -> (i < length tcol)%nat).
  { intros i Hi. rewrite Hlen. eapply group_positions_range; eauto. }
  apply orb_true_iff in Hhom as [H | H].
  - rewrite (take_forallb _ _ _ Hr H). reflexivity.
  - rewrite (take_forallb _ _ _ Hr H). apply orb_true_r.
Qed.

End OrderedSet.

(** C9, as the code has it.  [is_ordered_set] and [is_not_ordered_set]
    raise the diagnostic exactly when the comparator is a list.  With a
    single string they return when it names a column, the target names
    another column and the target cells are all numbers or all strings;
    a string that names no column raises [KeyError]. *)
Theorem is_ordered_set_errors (self : DataframeType.t) (ov : DataframeType.other_value) :
  (DataframeType.is_ordered_set self ov
     = Raise (Exception "Comparator must be a single String value")
   <-> exists l, DataframeType.comparator ov = DataframeType.AList l) /\
  (DataframeType.is_not_ordered_set self ov
     = Raise (Exception "Comparator must be a single String value")
   <-> exists l, DataframeType.comparator ov = DataframeType.AList l) /\
  (forall by_ wcol tcol,
     Pandas.wf (DataframeType.value self) ->
     DataframeType.comparator ov = DataframeType.AVal (Pandas.CStr by_) ->
     Pandas.columns (DataframeType.value self) !! by_ = Some wcol ->
     DataframeType.replace_prefix self (DataframeType.target ov) <> Pandas.CStr by_ ->
     Pandas.getitem (DataframeType.value self)
       (DataframeType.replace_prefix self (DataframeType.target ov)) = Ok tcol ->
     forallb Pandas.is_num tcol || forallb Pandas.is_str tcol = true ->
     exists b, DataframeType.is_ordered_set self ov = Ok b /\
               DataframeType.is_not_ordered_set self ov = Ok (negb b)) /\
  (forall by_,
     DataframeType.comparator ov = DataframeType.AVal (Pandas.CStr by_) ->
     Pandas.columns (DataframeType.value self) !! by_ = None ->
     DataframeType.is_ordered_set self ov = Raise (KeyError by_) /\
     DataframeType.is_not_ordered_set self ov = Raise (KeyError by_)).
Proof.
  unfold DataframeType.is_ordered_set, DataframeType.is_not_ordered_set.
  split; [| split; [| split]].
  - destruct (DataframeType.comparator ov) as [c | l]; split.
    + intros H. apply bind_Raise in H as [H | (flags & _ & H)]; [| discriminate].
      now apply ordered_flags_not_Exception in H.
    + intros [l H]. discriminate.
    + intros _. eauto.
    + reflexivity.
  - destruct (DataframeType.comparator ov) as [c | l]; split.
    + intros H. apply bind_Raise in H as [H | (flags & _ & H)]; [| discriminate].
      now apply ordered_flags_not_Exception in H.
    + intros [l H]. discriminate.
    + intros _. eauto.
    + reflexivity.
  - intros by_ wcol tcol Hwf -> Hw Hne Ht Hhom.
    destruct (ordered_flags_Ok self _ by_ wcol tcol Hwf Hw Hne Ht Hhom) as [flags ->].
    simpl. eexists. split; [reflexivity|]. now rewrite negb_involutive.
  - intros by_ -> Hw. unfold DataframeType.ordered_flags.
    rewrite (groupby_missing _ _ Hw). split; reflexivity.
Qed.

Lemma is_ordered_set_errors_witness :
  exists b,
    DataframeType.is_ordered_set Samples.records
      (Samples.rule (Pandas.CStr "t") (DataframeType.AVal (Pandas.CStr "g"))) = Ok b /\
    DataframeType.is_not_ordered_set Samples.records
      (Samples.rule (Pandas.CStr "t") (DataframeType.AVal (Pandas.CStr "g"))) = Ok (negb b).
Proof.
  apply (proj1 (proj2 (proj2 (is_ordered_set_errors Samples.records
           (Samples.rule (Pandas.CStr "t") (DataframeType.AVal (Pandas.CStr "g"))))))
         "g" [Pandas.CStr "X"; Pandas.CStr "X"; Pandas.CStr "X"]
         [Pandas.CInt 3; Pandas.CInt 1; Pandas.CInt 2]).
  - exact records_wf.
  - reflexivity.
  - vm_compute. reflexivity.
  - vm_compute. discriminate.
  - vm_compute. reflexivity.
  - reflexivity.
Defined.

(** C9 at a single-string comparator that names no column: the call
    raises. *)
Lemma is_ordered_set_raises_on_missing_column :
  DataframeType.comparator
    (Samples.rule (Pandas.CStr "VISIT") (DataframeType.AVal (Pandas.CStr "ARM")))
  = DataframeType.AVal (Pandas.CStr "ARM") /\
  DataframeType.is_ordered_set Samples.one_row
    (Samples.rule (Pandas.CStr "VISIT") (DataframeType.AVal (Pandas.CStr "ARM")))
  = Raise (KeyError "ARM") /\
  DataframeType.is_not_ordered_set Samples.one_row
    (Samples.rule (Pandas.CStr "VISIT") (DataframeType.AVal (Pandas.CStr "ARM")))
  = Raise (KeyError "ARM").
Proof. repeat split. Qed.

(** ** Complementary operators *)


Lemma select_multiple_cast_Ok (arg v : Py.value) :
  SelectMultipleType._assert_valid_value_and_cast arg = Ok v ->
  v = arg /\ SelectMultipleType._assert_valid_value_and_cast v = Ok v.
Proof.
  unfold SelectMultipleType._assert_valid_value_and_cast.
  destruct (has_iter arg) eqn:E; [| discriminate].
  intros [= <-]. now rewrite E.
Qed.

Lemma generic_cast_idempotent (v : Py.value) :
  GenericType._assert_valid_value_and_cast (GenericType._assert_valid_value_and_cast v)
  = GenericType._assert_valid_value_and_cast v.
Proof. now destruct v. Qed.











(** ** Row-wise equality *)

Section EqualTo.
Import Pandas DataframeType.

Lemma lookup_map {A B} (f : A -> B) (l : list A) (i : nat) (x : A) :
  l !! i = Some x -> List.map f l !! i = Some (f x).
Proof.
  revert i. induction l as [|a l IH]; intros [|i]; simpl; try discriminate.
  - now intros [= ->].
  - apply IH.
Qed.

Lemma lookup_map_combine {A B C} (f : A * B -> C) (l1 : list A) (l2 : list B)
    (i : nat) (x : A) (y : B) :
  l1 !! i = Some x -> l2 !! i = Some y ->
  List.map f (combine l1 l2) !! i = Some (f (x, y)).
Proof.
  revert l2 i. induction l1 as [|a l1 IH]; intros [|b l2] [|i]; simpl;
    try discriminate.
  - now intros [= ->] [= ->].
  - apply IH.
Qed.

Lemma getitem_length (df : DataFrame) (key : cell) (col : list cell) :
  wf df -> getitem df key = Ok col -> length col = index df.
Proof.
  intros Hwf. unfold getitem. destruct key as [| b | n | name]; try discriminate.
  destruct (columns df !! name) eqn:E; [| discriminate].
  intros [= <-]. exact (Hwf name _ E).
Qed.

Lemma get_comparator_data_series (self : t) (a : arg) (lit : bool) (o : list cell) :
  wf (value self) ->
  get_comparator_data self a lit = CDSeries o -> length o = index (value self).
Proof.
  intros Hwf. unfold get_comparator_data, DataFrame_get, literal.
  destruct lit; [destruct a; discriminate|].
  destruct a as [c | l].
  - destruct (getitem (value self) c) eqn:E; [| discriminate].
    intros [= <-]. eapply getitem_length; eauto.
  - destruct (getitem_list (value self) l); discriminate.
Qed.

(** What one row of [equal_to] holds. *)
Local Abbreviation row_flag x y := (cmp_eq x y && negb (in_empty x)).

Lemma row_flag_empty (x y : cell) : in_empty x = true -> row_flag x y = false.
Proof. intros ->. apply andb_false_r. Qed.

Lemma row_flag_filled (x y : cell) : in_empty x = false -> row_flag x y = cell_eqb x y.
Proof.
  unfold cmp_eq. intros H. rewrite H, andb_true_r.
  destruct x as [| b | n | s]; [discriminate | | |];
    destruct y as [| b' | n' | s']; reflexivity.
Qed.

Lemma and_isin_scalar (col : list cell) (c : cell) :
  and_ (List.map (fun x => cmp_eq x c) col) (invert (isin col [CStr ""; CNone]))
  = List.map (fun x => row_flag x c) col.
Proof.
  unfold and_, invert, isin.
  induction col as [|x col IH]; [reflexivity|].
  cbn [List.map combine]. f_equal. exact IH.
Qed.

(** The same for a comparison item by item, where two missing cells
    compare equal. *)
Local Abbreviation raw_flag x y := (cell_eqb x y && negb (in_empty x)).

Lemma raw_flag_empty (x y : cell) : in_empty x = true -> raw_flag x y = false.
Proof. intros ->. apply andb_false_r. Qed.

Lemma raw_flag_filled (x y : cell) : in_empty x = false -> raw_flag x y = cell_eqb x y.
Proof. intros ->. apply andb_true_r. Qed.

Lemma and_isin_pairs (col ys : list cell) :
  and_ (List.map (fun p => cell_eqb (fst p) (snd p)) (combine col ys))
       (invert (isin col [CStr ""; CNone]))
  = List.map (fun p => raw_flag (fst p) (snd p)) (combine col ys).
Proof.
  unfold and_, invert, isin. revert ys.
  induction col as [|x col IH]; intros [|y ys]; try reflexivity.
  cbn [List.map combine]. f_equal. apply IH.
Qed.

Lemma equal_to_unfold (self : t) (ov : other_value) (col : list cell) :
  getitem (value self) (replace_prefix self (target ov)) = Ok col ->
  equal_to self ov =
    let cd :=
      get_comparator_data self
        (if negb (value_is_literal ov) then replace_prefix_arg self (comparator ov)
         else comparator ov) (value_is_literal ov) in
    Py.bind (Series_eq col cd)
      (fun e => Ok (and_ e (invert (isin col [CStr ""; CNone])))).
Proof. intros H. unfold equal_to. now rewrite H. Qed.

End EqualTo.

(** C3. [equal_to] gives one flag per row.  The flag is false wherever
    the target cell is the empty string or missing, whatever it is
    compared with; at every other row it tells whether the target cell
    equals the comparison value of that row. *)
Theorem equal_to_rows (self : DataframeType.t) (ov : DataframeType.other_value)
    (col : list Pandas.cell) :
  Pandas.wf (DataframeType.value self) ->
  Pandas.getitem (DataframeType.value self)
    (DataframeType.replace_prefix self (DataframeType.target ov)) = Ok col ->
  let cd :=
    DataframeType.get_comparator_data self
      (if negb (DataframeType.value_is_literal ov)
       then DataframeType.replace_prefix_arg self (DataframeType.comparator ov)
       else DataframeType.comparator ov) (DataframeType.value_is_literal ov) in
  ((forall sub, cd <> DataframeType.CDFrame sub) ->
   (forall l, cd = DataframeType.CDList l -> length l = length col) ->
   exists r, DataframeType.equal_to self ov = Ok r) /\
  (forall r, DataframeType.equal_to self ov = Ok r ->
     length r = Pandas.index (DataframeType.value self) /\
     forall i x, col !! i = Some x ->
       (DataframeType.in_empty x = true -> r !! i = Some false) /\
       (DataframeType.in_empty x = false ->
          exists y, DataframeType.comparison_value cd i = Some y /\
                    r !! i = Some (Pandas.cell_eqb x y))).
Proof.
  intros Hwf Hcol cd.
  pose proof (getitem_length _ _ _ Hwf Hcol) as Hlen.
  rewrite (equal_to_unfold self ov col Hcol). fold cd.
  pose proof (get_comparator_data_series self
    (if negb (DataframeType.value_is_literal ov)
     then DataframeType.replace_prefix_arg self (DataframeType.comparator ov)
     else DataframeType.comparator ov) (DataframeType.value_is_literal ov)) as Hser.
  fold cd in Hser. clearbody cd. cbv zeta.
  split.
  - intros Hframe Hlist. destruct cd as [c | l | o | sub]; simpl.
    + eauto.
    + rewrite (Hlist l eq_refl), Nat.eqb_refl. simpl. eauto.
    + eauto.
    + now destruct (Hframe sub).
  - intros r Hr. destruct cd as [c | l | o | sub];
      unfold DataframeType.Series_eq, Py.bind in Hr.
    + injection Hr as <-. rewrite and_isin_scalar. split.
      { now rewrite length_map. }
      intros i x Hx. rewrite (lookup_map _ _ _ _ Hx). split.
      * intros E. now rewrite row_flag_empty.
      * intros E. exists c. split; [reflexivity|]. now rewrite row_flag_filled.
    + destruct (Nat.eqb_spec (length l) (length col)) as [El|]; [| discriminate].
      injection Hr as <-. rewrite and_isin_pairs. split.
      { rewrite length_map, length_combine. lia. }
      intros i x Hx.
      destruct (lookup_lt_is_Some_2 l i) as [y Hy].
      { rewrite El. eapply lookup_lt_Some; eauto. }
      rewrite (lookup_map_combine _ _ _ _ _ _ Hx Hy). simpl. split.
      * intros E. now rewrite raw_flag_empty.
      * intros E. exists y. split; [exact Hy|]. now rewrite raw_flag_filled.
    + specialize (Hser o Hwf eq_refl).
      injection Hr as <-. rewrite and_isin_pairs. split.
      { rewrite length_map, length_combine. lia. }
      intros i x Hx.
      destruct (lookup_lt_is_Some_2 o i) as [y Hy].
      { rewrite Hser, <- Hlen. eapply lookup_lt_Some; eauto. }
      rewrite (lookup_map_combine _ _ _ _ _ _ Hx Hy). simpl. split.
      * intros E. now rewrite raw_flag_empty.
      * intros E. exists y. split; [exact Hy|]. now rewrite raw_flag_filled.
    + discriminate.
Qed.

(** The third scenario of the specification, and two columns that are
    empty at the same rows. *)
Example equal_to_scenario :
  DataframeType.equal_to Samples.events
    (Samples.literal_rule (Pandas.CStr "--SEV") (DataframeType.AVal (Pandas.CStr "MILD")))
  = Ok [true; false].
Proof. vm_compute. reflexivity. Qed.

Example equal_to_both_empty :
  DataframeType.equal_to Samples.blanks
    (Samples.rule (Pandas.CStr "AETERM") (DataframeType.AVal (Pandas.CStr "AELLT")))
  = Ok [false; false; true] /\
  DataframeType.equal_to Samples.blanks
    (Samples.literal_rule (Pandas.CStr "AETERM") (DataframeType.AVal (Pandas.CStr "")))
  = Ok [false; false; false].
Proof. split; vm_compute; reflexivity. Qed.

Lemma equal_to_rows_witness :
  exists r,
    DataframeType.equal_to Samples.events
      (Samples.literal_rule (Pandas.CStr "--SEV") (DataframeType.AVal (Pandas.CStr "MILD")))
    = Ok r.
Proof.
  apply (proj1 (equal_to_rows Samples.events
           (Samples.literal_rule (Pandas.CStr "--SEV")
              (DataframeType.AVal (Pandas.CStr "MILD")))
           [Pandas.CStr "MILD"; Pandas.CStr "SEVERE"] events_wf eq_refl)).
  - intros sub. vm_compute. discriminate.
  - intros l. vm_compute. discriminate.
Defined.

(** ** Insertion sort *)

Section InsertionSort.
Import Pandas.
Context {A : Type} (leb : A -> A -> bool).

Local Abbreviation R := (fun a b : A => leb a b = true).

Lemma insert_sorted_Permutation (x : A) (l : list A) :
  Permutation (insert_sorted leb x l) (x :: l).
Proof.
  induction l as [|y l IH]; simpl; [reflexivity|].
  destruct (leb x y); [reflexivity|].
  rewrite IH. apply perm_swap.
Qed.

Lemma isort_Permutation (l : list A) : Permutation (isort leb l) l.
Proof.
  induction l as [|x l IH]; simpl; [reflexivity|].
  rewrite insert_sorted_Permutation. now apply perm_skip.
Qed.

Lemma isort_In (l : list A) (x : A) : In x (isort leb l) <-> In x l.
Proof.
  split; apply Permutation_in;
    [apply isort_Permutation | symmetry; apply isort_Permutation].
Qed.

Lemma isort_length (l : list A) : length (isort leb l) = length l.
Proof. apply Permutation_length, isort_Permutation. Qed.

Lemma insert_sorted_HdRel (a x : A) (l : list A) :
  leb a x = true -> HdRel R a l -> HdRel R a (insert_sorted leb x l).
Proof.
  intros Hax Hal. destruct l as [|y l]; simpl; [now constructor|].
  destruct (leb x y); constructor; [exact Hax|].
  now apply HdRel_inv in Hal.
Qed.

Lemma insert_sorted_Sorted (x : A) (l : list A) :
  (forall y, In y l -> leb x y = false -> leb y x = true) ->
  Sorted R l -> Sorted R (insert_sorted leb x l).
Proof.
  intros Htot Hs. induction l as [|y l IH]; simpl.
  - repeat constructor.
  - destruct (leb x y) eqn:E.
    + constructor; [exact Hs | now constructor].
    + apply Sorted_inv in Hs as [Hs Hhd]. constructor.
      * apply IH; [| exact Hs]. intros z Hz. apply Htot. now right.
      * apply insert_sorted_HdRel; [| exact Hhd].
        apply Htot; [now left | exact E].
Qed.

Lemma isort_Sorted (l : list A) :
  (forall x y, In x l -> In y l -> leb x y = false -> leb y x = true) ->
  Sorted R (isort leb l).
Proof.
  induction l as [|x l IH]; simpl; intros Htot; [constructor|].
  apply insert_sorted_Sorted.
  - intros y Hy. apply Htot; [now left | right; exact (proj1 (isort_In l y) Hy)].
  - apply IH. intros a b Ha Hb. apply Htot; now right.
Qed.

Lemma isort_of_Sorted (l : list A) : Sorted R l -> isort leb l = l.
Proof.
  induction 1 as [|x l Hs IH Hhd]; simpl; [reflexivity|].
  rewrite IH. destruct Hhd as [|y l Hxy]; simpl; [reflexivity|].
  simpl in Hxy. now rewrite Hxy.
Qed.

End InsertionSort.

Lemma isort_map {A B : Type} (leb : B -> B -> bool) (f : A -> B) (l : list A) :
  List.map f (Pandas.isort (fun i j => leb (f i) (f j)) l)
  = Pandas.isort leb (List.map f l).
Proof.
  induction l as [|x l IH]; simpl; [reflexivity|].
  rewrite <- IH. generalize (Pandas.isort (fun i j => leb (f i) (f j)) l) as s.
  induction s as [|y s IHs]; simpl; [reflexivity|].
  destruct (leb (f x) (f y)); simpl; [reflexivity | now rewrite IHs].
Qed.

(** ** Equality and order of cells *)

Section Cells.
Import Pandas.

Ltac eqb_to_eq :=
  repeat match goal with
  | H : (_ =? _)%Z = true |- _ => apply Z.eqb_eq in H
  | H : String.eqb _ _ = true |- _ => apply String.eqb_eq in H
  | H : (_ =? _)%Z = false |- _ => apply Z.eqb_neq in H
  end.

Lemma cell_eqb_refl (a : cell) : cell_eqb a a = true.
Proof.
  destruct a as [| b | n | s]; simpl;
    [reflexivity | apply Z.eqb_refl | apply Z.eqb_refl | apply String.eqb_refl].
Qed.

Lemma cell_eqb_sym (a b : cell) : cell_eqb a b = cell_eqb b a.
Proof.
  destruct a as [| x | m | s], b as [| y | n | t]; simpl; try reflexivity;
    try apply Z.eqb_sym.
  apply String.eqb_sym.
Qed.

Lemma cell_eqb_trans (a b c : cell) :
  cell_eqb a b = true -> cell_eqb b c = true -> cell_eqb a c = true.
Proof.
  destruct a as [| x | m | s], b as [| y | n | t], c as [| z | k | u]; simpl;
    try discriminate; try reflexivity; intros H1 H2; eqb_to_eq;
    try (apply Z.eqb_eq; congruence).
  apply String.eqb_eq. congruence.
Qed.

Lemma cell_leb_eqb_compat (a a' b b' : cell) :
  cell_eqb a a' = true -> cell_eqb b b' = true -> cell_leb a b = cell_leb a' b'.
Proof.
  destruct a as [| x | m | s], a' as [| x' | m' | s']; simpl; try discriminate;
    destruct b as [| y | n | t], b' as [| y' | n' | t']; simpl; try discriminate;
    intros H1 H2; eqb_to_eq; try reflexivity; congruence.
Qed.

Lemma cmp_eq_true (a b : cell) :
  cmp_eq a b = true <-> notna a = true /\ notna b = true /\ cell_eqb a b = true.
Proof.
  unfold cmp_eq, notna.
  destruct (isna a), (isna b); simpl; intuition discriminate.
Qed.

Lemma cell_leb_total_num (a b : cell) :
  is_num a = true -> is_num b = true -> cell_leb a b = false -> cell_leb b a = true.
Proof.
  destruct a as [| x | m | s], b as [| y | n | t]; simpl; try discriminate;
    intros _ _ H; apply Z.leb_gt in H; apply Z.leb_le; lia.
Qed.

Lemma cell_leb_total_str (a b : cell) :
  is_str a = true -> is_str b = true -> cell_leb a b = false -> cell_leb b a = true.
Proof.
  destruct a as [| x | m | s], b as [| y | n | t]; simpl; try discriminate.
  intros _ _ H. destruct (String.leb_total s t) as [E | E]; congruence.
Qed.

Lemma homogeneous_total (l : list cell) (a b : cell) :
  forallb is_num l || forallb is_str l = true ->
  In a l -> In b l -> cell_leb a b = false -> cell_leb b a = true.
Proof.
  intros H Ha Hb. apply orb_true_iff in H as [H | H];
    rewrite forallb_forall in H.
  - apply cell_leb_total_num; auto.
  - apply cell_leb_total_str; auto.
Qed.

Lemma homogeneous_notna (l : list cell) :
  forallb is_num l || forallb is_str l = true -> forallb notna l = true.
Proof.
  intros H. apply forallb_forall. intros x Hx.
  apply orb_true_iff in H as [H | H]; rewrite forallb_forall in H;
    specialize (H x Hx); now destruct x.
Qed.

End Cells.

(** ** Positions *)

Section Positions.
Import Pandas.

Lemma filter_all {A} (f : A -> bool) (l : list A) :
  (forall x, In x l -> f x = true) -> List.filter f l = l.
Proof.
  induction l as [|x l IH]; simpl; intros H; [reflexivity|].
  rewrite (H x (or_introl eq_refl)), IH; [reflexivity|].
  intros y Hy. apply H. now right.
Qed.

Lemma filter_none {A} (f : A -> bool) (l : list A) :
  (forall x, In x l -> f x = false) -> List.filter f l = [].
Proof.
  induction l as [|x l IH]; simpl; intros H; [reflexivity|].
  rewrite (H x (or_introl eq_refl)). apply IH.
  intros y Hy. apply H. now right.
Qed.

Lemma take_seq {A} (d : A) (col : list A) :
  take d (seq 0 (length col)) col = col.
Proof.
  unfold take. induction col as [|x col IH]; simpl; [reflexivity|].
  f_equal. rewrite <- seq_shift, List.map_map. exact IH.
Qed.

Lemma take_length {A} (d : A) (positions : list nat) (col : list A) :
  length (take d positions col) = length positions.
Proof. apply length_map. Qed.

Lemma filter_split_length {A} (f : A -> bool) (l : list A) :
  (length (List.filter f l) + length (List.filter (fun x => negb (f x)) l)
   = length l)%nat.
Proof.
  induction l as [|x l IH]; simpl; [reflexivity|].
  destruct (f x); simpl; lia.
Qed.

Lemma nargsort_length (keys : list cell) (indexer : list nat) :
  nargsort keys = Ok indexer -> length indexer = length keys.
Proof.
  unfold nargsort. destruct (comparable _); [| discriminate].
  intros [= <-]. rewrite length_app, isort_length.
  pose proof (filter_split_length (fun i => notna (cell_at keys i))
                (seq 0 (length keys))) as H.
  rewrite length_seq in H. unfold notna in H at 2.
  erewrite (filter_ext (fun i => isna (cell_at keys i))).
  - exact H.
  - intros i. simpl. now rewrite negb_involutive.
Qed.

Lemma nargsort_filled (keys : list cell) :
  forallb is_num keys || forallb is_str keys = true ->
  nargsort keys
  = Ok (isort (fun i j => cell_leb (cell_at keys i) (cell_at keys j))
          (seq 0 (length keys))).
Proof.
  intros Hhom. pose proof (homogeneous_notna keys Hhom) as Hna.
  rewrite forallb_forall in Hna.
  assert (Hpos : forall i, In i (seq 0 (length keys)) -> notna (cell_at keys i) = true).
  { intros i Hi. apply in_seq in Hi. apply Hna, nth_In. lia. }
  unfold nargsort.
  rewrite (filter_all notna keys Hna), (comparable_homogeneous keys Hhom).
  rewrite (filter_all _ _ Hpos), filter_none, app_nil_r; [reflexivity|].
  intros i Hi. specialize (Hpos i Hi). unfold notna in Hpos.
  now apply negb_true_iff in Hpos.
Qed.

Lemma Series_sort_values_filled (col : list cell) :
  forallb is_num col || forallb is_str col = true ->
  Series_sort_values col = Ok (isort cell_leb col).
Proof.
  intros Hhom. unfold Series_sort_values. rewrite (nargsort_filled col Hhom).
  simpl. f_equal. unfold take.
  rewrite (isort_map cell_leb (fun i => nth i col CNone)).
  f_equal. apply (take_seq CNone col).
Qed.

End Positions.

(** ** Ordered columns *)

Section OrderedBy.
Import Pandas DataframeType.

Lemma non_decreasing_transfer (col s : list cell) :
  Forall2 (fun x y => cell_eqb x y = true) col s ->
  non_decreasing s -> non_decreasing col.
Proof.
  unfold non_decreasing. induction 1 as [|x y col s Hxy Hrest IH]; intros Hs.
  - constructor.
  - apply Sorted_inv in Hs as [Hs Hhd]. constructor; [now apply IH|].
    destruct Hrest as [|x' y' col s Hxy' _]; constructor.
    apply HdRel_inv in Hhd.
    now rewrite (cell_leb_eqb_compat x y x' y' Hxy Hxy').
Qed.

End OrderedBy.

(** ** Sorting a table *)

Section SortValues.
Import Pandas.

Lemma filter_split_Permutation {A} (f : A -> bool) (l : list A) :
  Permutation (List.filter f l ++ List.filter (fun x => negb (f x)) l) l.
Proof.
  induction l as [|x l IH]; simpl; [reflexivity|].
  destruct (f x); simpl.
  - now apply perm_skip.
  - rewrite <- Permutation_middle. now apply perm_skip.
Qed.

Lemma Sorted_all_related {A} (R : A -> A -> Prop) (l : list A) :
  (forall a b, In a l -> In b l -> R a b) -> Sorted R l.
Proof.
  induction l as [|x l IH]; intros H; constructor.
  - apply IH. intros a b Ha Hb. apply H; now right.
  - destruct l as [|y l]; constructor. apply H; [now left | right; now left].
Qed.

Lemma Sorted_app_cross {A} (R : A -> A -> Prop) (l1 l2 : list A) :
  Sorted R l1 -> Sorted R l2 ->
  (forall a b, In a l1 -> In b l2 -> R a b) -> Sorted R (l1 ++ l2).
Proof.
  intros H1 H2 Hc. induction H1 as [|x l1 Hs IH Hhd]; simpl; [exact H2|].
  constructor.
  - apply IH. intros a b Ha Hb. apply Hc; [now right | exact Hb].
  - destruct Hhd as [|y l1 Hxy]; simpl.
    + destruct l2 as [|z l2]; constructor. apply Hc; now left.
    + now constructor.
Qed.

Lemma cell_leb_refl (a : cell) : notna a = true -> cell_leb a a = true.
Proof.
  destruct a as [| b | n | s]; simpl; intros H;
    [discriminate | apply Z.leb_refl | apply Z.leb_refl |].
  now destruct (String.leb_total s s).
Qed.

Lemma comparable_total (l : list cell) (a b : cell) :
  comparable l = true -> forallb notna l = true ->
  In a l -> In b l -> cell_leb a b = false -> cell_leb b a = true.
Proof.
  intros Hc Hna Ha Hb. destruct l as [|x [|y l]].
  - destruct Ha.
  - destruct Ha as [<- | []], Hb as [<- | []]. intros _.
    apply cell_leb_refl. simpl in Hna. now rewrite andb_true_r in Hna.
  - now apply homogeneous_total with (l := x :: y :: l).
Qed.

Lemma filter_forallb {A} (f : A -> bool) (l : list A) :
  forallb f (List.filter f l) = true.
Proof.
  apply forallb_forall. intros x Hx. now apply filter_In in Hx.
Qed.

(** The indexer of a sort is a permutation of the row positions, in
    ascending order of the keys, missing keys last. *)
Lemma nargsort_Ok (keys : list cell) :
  comparable (List.filter notna keys) = true ->
  exists rows,
    nargsort keys = Ok rows /\
    Permutation rows (seq 0 (length keys)) /\
    Sorted (fun i j => cell_leb (cell_at keys i) (cell_at keys j) = true) rows.
Proof.
  intros Hc. unfold nargsort. rewrite Hc. eexists. split; [reflexivity|]. split.
  - rewrite isort_Permutation.
    erewrite (filter_ext (fun i => isna (cell_at keys i))).
    + apply filter_split_Permutation.
    + intros i. unfold notna. now rewrite negb_involutive.
  - apply Sorted_app_cross.
    + apply isort_Sorted. intros i j Hi Hj.
      apply filter_In in Hi as [Hi Hni], Hj as [Hj Hnj].
      apply in_seq in Hi, Hj.
      apply comparable_total with (l := List.filter notna keys);
        [exact Hc | apply filter_forallb | |];
        apply filter_In; (split; [apply nth_In; lia | assumption]).
    + apply Sorted_all_related. intros i j _ Hj.
      apply filter_In in Hj as [_ Hj]. unfold cell_at in *.
      destruct (nth j keys CNone); try discriminate.
      now destruct (nth i keys CNone).
    + intros i j _ Hj. apply filter_In in Hj as [_ Hj]. unfold cell_at in *.
      destruct (nth j keys CNone); try discriminate.
      now destruct (nth i keys CNone).
Qed.

Lemma getitem_take (df : DataFrame) (positions : list nat) (key : cell)
    (col : list cell) :
  getitem df key = Ok col ->
  getitem (DataFrame_take positions df) key = Ok (take CNone positions col).
Proof.
  unfold getitem. destruct key as [| b | n | name]; try discriminate.
  simpl. rewrite lookup_fmap.
  destruct (columns df !! name); [| discriminate]. now intros [= ->].
Qed.

Lemma getitem_is_label (df : DataFrame) (key : cell) (col : list cell) :
  getitem df key = Ok col -> exists name, key = CStr name.
Proof. destruct key; try discriminate. eauto. Qed.

Lemma sort_values_Ok (df : DataFrame) (key : cell) (ocol : list cell) :
  getitem df key = Ok ocol ->
  comparable (List.filter notna ocol) = true ->
  exists rows,
    sort_values df key = Ok (DataFrame_take rows df) /\
    Permutation rows (seq 0 (length ocol)) /\
    Sorted (fun i j => cell_leb (cell_at ocol i) (cell_at ocol j) = true) rows.
Proof.
  intros Hk Hc. destruct (nargsort_Ok ocol Hc) as (rows & Hn & Hp & Hs).
  exists rows. unfold sort_values. rewrite Hk. simpl. rewrite Hn. auto.
Qed.

End SortValues.

(** ** Ordered columns: a column against its sort *)

Section SortedColumn.
Import Pandas DataframeType.















End SortedColumn.




(** Columns with missing cells: in order when the missing cells come
    last, out of order when a string follows one. *)
Example is_ordered_by_missing_cells :
  DataframeType.is_ordered_by Samples.one_missing
    (Samples.rule (Pandas.CStr "AESEQ") (DataframeType.AVal Pandas.CNone))
  = Ok [true] /\
  DataframeType.is_ordered_by Samples.blanks
    (Samples.rule (Pandas.CStr "AETERM") (DataframeType.AVal Pandas.CNone))
  = Ok [true; false; false].
Proof. split; vm_compute; reflexivity. Qed.

(** ** Grouping rows *)

Section GroupKeys.
Import Pandas.

Lemma cells_eqb_refl (k : list cell) : cells_eqb k k = true.
Proof. induction k as [|x k IH]; simpl; [reflexivity|]. now rewrite cell_eqb_refl. Qed.

Lemma cells_eqb_sym (a b : list cell) : cells_eqb a b = cells_eqb b a.
Proof.
  revert b. induction a as [|x a IH]; intros [|y b]; simpl; try reflexivity.
  now rewrite cell_eqb_sym, IH.
Qed.

Lemma cells_eqb_trans (a b c : list cell) :
  cells_eqb a b = true -> cells_eqb b c = true -> cells_eqb a c = true.
Proof.
  revert b c. induction a as [|x a IH]; intros [|y b] [|z c]; simpl;
    try discriminate; try reflexivity.
  intros [H1 H2]%andb_true_iff [H3 H4]%andb_true_iff. apply andb_true_iff. split.
  - eapply cell_eqb_trans; eauto.
  - eapply IH; eauto.
Qed.

Lemma distinct_keys_In (ks : list (list cell)) (k : list cell) :
  In k (distinct_keys ks) -> In k ks.
Proof.
  revert k. induction ks as [|k0 ks IH]; simpl; intros k; [tauto|].
  intros [-> | H]; [now left|]. right. apply IH.
  now apply filter_In in H.
Qed.

Lemma distinct_keys_cover (ks : list (list cell)) (k0 : list cell) :
  In k0 ks -> exists k, In k (distinct_keys ks) /\ cells_eqb k k0 = true.
Proof.
  induction ks as [|k1 ks IH]; simpl; intros H; [destruct H|].
  destruct H as [-> | H].
  - exists k0. split; [now left | apply cells_eqb_refl].
  - destruct (IH H) as (k' & Hin & Heq).
    destruct (cells_eqb k1 k') eqn:E.
    + exists k1. split; [now left|]. eapply cells_eqb_trans; eauto.
    + exists k'. split; [| exact Heq]. right. apply filter_In. now rewrite E.
Qed.

Context (key : nat -> list cell) (rows : list nat).

Local Abbreviation group k := (List.filter (fun i => cells_eqb (key i) k) rows).

Lemma concat_map_Permutation {A B} (f : A -> list B) (l l' : list A) :
  Permutation l l' -> Permutation (concat (List.map f l)) (concat (List.map f l')).
Proof.
  induction 1 as [| x l l' _ IH | x y l | l l' l'' _ IH1 _ IH2]; simpl.
  - reflexivity.
  - now apply Permutation_app_head.
  - rewrite !app_assoc. apply Permutation_app_tail, Permutation_app_comm.
  - now transitivity (concat (List.map f l')).
Qed.

Lemma In_groups (ks : list (list cell)) (i : nat) :
  In i (concat (List.map (fun k => group k) ks)) <->
  In i rows /\ exists k, In k ks /\ cells_eqb (key i) k = true.
Proof.
  rewrite in_concat. split.
  - intros (g & Hg & Hi). apply in_map_iff in Hg as (k & <- & Hk).
    apply filter_In in Hi as [Hi E]. eauto.
  - intros (Hi & k & Hk & E). exists (group k). split.
    + apply in_map_iff. eauto.
    + apply filter_In. auto.
Qed.

Lemma NoDup_groups_filter (P : list cell -> bool) (ks : list (list cell)) :
  List.NoDup (concat (List.map (fun k => group k) ks)) ->
  List.NoDup (concat (List.map (fun k => group k) (List.filter P ks))).
Proof.
  induction ks as [|k ks IH]; cbn [List.filter List.map concat]; intros H;
    [constructor|].
  pose proof (NoDup_app_remove_l _ _ H) as Htail.
  destruct (P k); cbn [List.map concat]; [| now apply IH].
  apply List.NoDup_app; [eapply NoDup_app_remove_r; eauto | now apply IH |].
  intros i Hi Hin.
  apply NoDup_ListNoDup, NoDup_app in H as (_ & H2 & _).
  apply (H2 i); apply list_elem_of_In; [exact Hi|].
  apply In_groups in Hin as (Hr & k' & Hk' & E).
  apply In_groups. split; [exact Hr|]. exists k'. split; [| exact E].
  now apply filter_In in Hk'.
Qed.

Lemma NoDup_groups_distinct (ks : list (list cell)) :
  List.NoDup rows ->
  List.NoDup (concat (List.map (fun k => group k) (distinct_keys ks))).
Proof.
  intros Hrows. induction ks as [|k ks IH];
    cbn [distinct_keys List.map concat]; [constructor|].
  apply List.NoDup_app.
  - now apply List.NoDup_filter.
  - now apply NoDup_groups_filter.
  - intros i Hi Hin.
    apply filter_In in Hi as [_ E1].
    apply In_groups in Hin as (_ & k' & Hk' & E2).
    apply filter_In in Hk' as [_ Hne]. apply negb_true_iff in Hne.
    rewrite cells_eqb_sym in E1.
    now rewrite (cells_eqb_trans _ _ _ E1 E2) in Hne.
Qed.

(** The groups of the distinct keys, in whatever order the keys are
    listed, hold every row once. *)
Lemma groups_partition (keys : list (list cell)) :
  List.NoDup rows ->
  Permutation keys (distinct_keys (List.map key rows)) ->
  Permutation (concat (List.map (fun k => group k) keys)) rows.
Proof.
  intros Hrows Hkeys. apply Permutation.NoDup_Permutation; [| exact Hrows |].
  - eapply Permutation.Permutation_NoDup.
    + symmetry. apply concat_map_Permutation, Hkeys.
    + now apply NoDup_groups_distinct.
  - intros i. rewrite In_groups. split; [tauto|]. intros Hi. split; [exact Hi|].
    destruct (distinct_keys_cover (List.map key rows) (key i)) as (k & Hk & E).
    { now apply in_map. }
    exists k. split.
    + eapply Permutation_in; [symmetry; exact Hkeys | exact Hk].
    + now rewrite cells_eqb_sym.
Qed.

Lemma group_nonempty (keys : list (list cell)) (k : list cell) :
  Permutation keys (distinct_keys (List.map key rows)) ->
  In k keys -> group k <> [].
Proof.
  intros Hkeys Hk Hnil.
  apply (Permutation_in _ Hkeys), distinct_keys_In, in_map_iff in Hk
    as (i & <- & Hi).
  assert (Hin : In i (group (key i))).
  { apply filter_In. split; [exact Hi | apply cells_eqb_refl]. }
  rewrite Hnil in Hin. destruct Hin.
Qed.

End GroupKeys.

Section SingleKey.
Import Pandas.

Lemma filter_filter_andb {A} (f g : A -> bool) (l : list A) :
  List.filter f (List.filter g l) = List.filter (fun x => g x && f x) l.
Proof.
  induction l as [|x l IH]; simpl; [reflexivity|].
  destruct (g x); simpl; [| exact IH]. destruct (f x); now rewrite IH.
Qed.

Lemma cell_eqb_notna (x c : cell) :
  notna c = true -> notna x && (cell_eqb x c && true) = cell_eqb x c.
Proof.
  rewrite andb_true_r. destruct x; simpl; try reflexivity.
  now destruct c.
Qed.

(** Grouping by one column: the groups hold every row with a key once,
    and each group lists, in table order, the rows of one key. *)
Lemma group_positions_single (w : list cell) (n : nat) :
  Permutation (concat (group_positions [w] n))
    (List.filter (fun p => notna (cell_at w p)) (seq 0 n)) /\
  Forall (fun g =>
            g <> [] /\
            exists k, notna k = true /\
              g = List.filter (fun p => cell_eqb (cell_at w p) k) (seq 0 n))
    (group_positions [w] n).
Proof.
  unfold group_positions.
  assert (Hkeyed :
    List.filter (fun i => forallb notna (row_key [w] i)) (seq 0 n)
    = List.filter (fun p => notna (cell_at w p)) (seq 0 n)).
  { apply filter_ext. intros i. simpl. apply andb_true_r. }
  rewrite Hkeyed.
  set (keyed := List.filter (fun p => notna (cell_at w p)) (seq 0 n)).
  set (keys := isort cells_leb (distinct_keys (List.map (row_key [w]) keyed))).
  assert (Hperm : Permutation keys (distinct_keys (List.map (row_key [w]) keyed)))
    by apply isort_Permutation.
  split.
  - apply groups_partition; [| exact Hperm].
    apply List.NoDup_filter, List.seq_NoDup.
  - apply Forall_forall. intros g Hg.
    apply list_elem_of_In, in_map_iff in Hg as (k & <- & Hk). split.
    + now apply (group_nonempty (row_key [w]) keyed keys k Hperm).
    + apply (Permutation_in _ Hperm), distinct_keys_In, in_map_iff in Hk
        as (i & <- & Hi).
      apply filter_In in Hi as [_ Hi].
      exists (cell_at w i). split; [exact Hi|].
      unfold keyed. rewrite filter_filter_andb. apply filter_ext.
      intros p. simpl. now apply cell_eqb_notna.
Qed.

Lemma groupby_take (df : DataFrame) (rows : list nat) (key : cell) (wcol : list cell) :
  getitem df key = Ok wcol ->
  groupby (DataFrame_take rows df) key
  = Ok (group_positions [take CNone rows wcol] (length rows)).
Proof.
  intros H. destruct (getitem_is_label _ _ _ H) as [name ->].
  unfold groupby. now rewrite (getitem_take df rows _ _ H).
Qed.

End SingleKey.

(** ** Neighbouring rows *)

Section NextRow.
Import Pandas DataframeType.

Lemma removelast_map {A B} (f : A -> B) (l : list A) :
  removelast (List.map f l) = List.map f (removelast l).
Proof.
  induction l as [|x [|y l] IH]; try reflexivity.
  cbn [List.map removelast] in *. now rewrite IH.
Qed.

Lemma tail_map {A B} (f : A -> B) (l : list A) :
  tail (List.map f l) = List.map f (tail l).
Proof. now destruct l. Qed.

Lemma combine_map_map {A B C D} (f : A -> C) (h : B -> D) (a : list A) (b : list B) :
  combine (List.map f a) (List.map h b)
  = List.map (fun p => (f (fst p), h (snd p))) (combine a b).
Proof.
  revert b. induction a as [|x a IH]; intros [|y b]; simpl; try reflexivity.
  now rewrite IH.
Qed.

Lemma adjacent_pairs_length {A} (g : list A) :
  length (combine (removelast g) (tail g)) = (length g - 1)%nat.
Proof.
  induction g as [|x [|y g] IH]; try reflexivity.
  cbn [removelast tail combine length] in *. rewrite IH. simpl. lia.
Qed.

Lemma adjacent_pairs_lookup {A} (g : list A) (j : nat) (p q : A) :
  g !! j = Some p -> g !! S j = Some q ->
  combine (removelast g) (tail g) !! j = Some (p, q).
Proof.
  revert j. induction g as [|x [|y g] IH]; intros j.
  - discriminate.
  - intros Hp Hq. destruct j; simpl in *; discriminate.
  - destruct j as [|j]; cbn [removelast tail combine].
    + simpl. now intros [= ->] [= ->].
    + intros Hp Hq. simpl. apply (IH j); [exact Hp | exact Hq].
Qed.

Lemma compare_next_row_take (df : DataFrame) (g : list nat) (tkey ckey : cell)
    (t c : list cell) :
  getitem df tkey = Ok t -> getitem df ckey = Ok c ->
  compare_target_with_comparator_next_row (DataFrame_take g df) tkey ckey
  = Ok (List.map (fun p => Some (cell_eqb (cell_at t (fst p)) (cell_at c (snd p))))
          (combine (removelast g) (tail g)) ++ [None]).
Proof.
  intros Ht Hc. unfold compare_target_with_comparator_next_row.
  rewrite (getitem_take _ g _ _ Ht), (getitem_take _ g _ _ Hc). simpl.
  unfold take. rewrite removelast_map, tail_map, combine_map_map, !List.map_map.
  reflexivity.
Qed.

Lemma next_row_flags (g : list nat) (t c : list cell) :
  g <> [] ->
  let res :=
    List.map (fun p => Some (cell_eqb (cell_at t (fst p)) (cell_at c (snd p))))
      (combine (removelast g) (tail g)) ++ [None] in
  length res = length g /\
  res !! (length g - 1)%nat = Some None /\
  forall j p q, g !! j = Some p -> g !! S j = Some q ->
    res !! j = Some (Some (cell_eqb (cell_at t p) (cell_at c q))).
Proof.
  intros Hg res. subst res.
  assert (Hlen : (length g > 0)%nat) by (destruct g; [congruence | simpl; lia]).
  split; [| split].
  - rewrite length_app, length_map, adjacent_pairs_length. simpl. lia.
  - rewrite lookup_app_r; rewrite length_map, adjacent_pairs_length; [| lia].
    now rewrite Nat.sub_diag.
  - intros j p q Hp Hq. rewrite lookup_app_l.
    + now rewrite (lookup_map _ _ _ _ (adjacent_pairs_lookup g j p q Hp Hq)).
    + rewrite length_map, adjacent_pairs_length.
      apply lookup_lt_Some in Hq. lia.
Qed.

End NextRow.

Lemma Forall2_map_right {A B} (P : A -> B -> Prop) (f : A -> B) (l : list A) :
  (forall x, In x l -> P x (f x)) -> Forall2 P l (List.map f l).
Proof.
  induction l as [|x l IH]; intros H; constructor.
  - apply H. now left.
  - apply IH. intros y Hy. apply H. now right.
Qed.

Section KeyedRows.
Import Pandas.

Lemma take_cell_at (rows : list nat) (col : list cell) (p : nat) :
  (p < length rows)%nat ->
  cell_at (take CNone rows col) p = cell_at col (nth p rows 0%nat).
Proof.
  intros Hp. unfold cell_at, take.
  rewrite (nth_indep _ CNone (nth 0%nat col CNone)) by now rewrite length_map.
  apply (map_nth (fun i => nth i col CNone)).
Qed.

Lemma take_cell_from (rows : list nat) (col : list cell) (p : nat) :
  cell_at (take CNone rows col) p = CNone \/ In (cell_at (take CNone rows col) p) col.
Proof.
  unfold cell_at, take.
  destruct (nth_in_or_default p (List.map (fun i => nth i col CNone) rows) CNone)
    as [H | H]; [| now left].
  apply in_map_iff in H as (i & Hi & _). rewrite <- Hi.
  destruct (nth_in_or_default i col CNone) as [H | H]; [now right | now left].
Qed.

(** Rows with a key make a group, whatever the order of the rows. *)
Lemma keyed_row_sorted (rows : list nat) (wcol : list cell) (n : nat) :
  length wcol = n -> Permutation rows (seq 0 n) ->
  existsb notna wcol = true ->
  List.filter (fun p => notna (cell_at (take CNone rows wcol) p)) (seq 0 n) <> [].
Proof.
  intros Hlen Hperm Hk. apply existsb_exists in Hk as (x & Hx & Hnx).
  destruct (In_nth wcol x CNone Hx) as (i & Hi & Ei).
  assert (Hin : In i rows).
  { apply (Permutation_in i (Permutation_sym Hperm)), in_seq. lia. }
  destruct (In_nth rows i 0%nat Hin) as (p & Hp & Ep).
  assert (Hrows : length rows = n).
  { rewrite (Permutation_length Hperm). apply length_seq. }
  assert (Hf : In p (List.filter
                       (fun p => notna (cell_at (take CNone rows wcol) p)) (seq 0 n))).
  { apply filter_In. split; [apply in_seq; lia|].
    rewrite (take_cell_at rows wcol p Hp), Ep. unfold cell_at. now rewrite Ei. }
  intros E. rewrite E in Hf. destruct Hf.
Qed.

Lemma no_keyed_row_sorted (rows : list nat) (wcol : list cell) (n : nat) :
  existsb notna wcol = false ->
  List.filter (fun p => notna (cell_at (take CNone rows wcol) p)) (seq 0 n) = [].
Proof.
  intros Hk. apply filter_none. intros p _.
  destruct (take_cell_from rows wcol p) as [-> | H]; [reflexivity|].
  apply not_true_iff_false. intros Hn.
  assert (E : existsb notna wcol = true) by (apply existsb_exists; eauto).
  congruence.
Qed.

Lemma keyed_row (wcol : list cell) (n : nat) :
  length wcol = n -> existsb notna wcol = true ->
  List.filter (fun p => notna (cell_at wcol p)) (seq 0 n) <> [].
Proof.
  intros Hlen Hk. subst n.
  pose proof (keyed_row_sorted (seq 0 (length wcol)) wcol (length wcol) eq_refl
                (Permutation_refl _) Hk) as H.
  now rewrite (take_seq CNone wcol) in H.
Qed.

Lemma no_keyed_row (wcol : list cell) (n : nat) :
  existsb notna wcol = false ->
  List.filter (fun p => notna (cell_at wcol p)) (seq 0 n) = [].
Proof.
  intros Hk. apply filter_none. intros p _. unfold cell_at.
  destruct (nth_in_or_default p wcol CNone) as [H | ->]; [| reflexivity].
  apply not_true_iff_false. intros Hn.
  assert (E : existsb notna wcol = true) by (apply existsb_exists; eauto).
  congruence.
Qed.

Lemma groups_of_keyed_rows (groups : list (list nat)) (keyed : list nat) :
  Permutation (concat groups) keyed ->
  Forall (fun g => g <> []) groups ->
  (groups = [] <-> keyed = []).
Proof.
  intros Hp Hne. split.
  - intros ->. simpl in Hp. now apply Permutation_nil in Hp.
  - intros ->. apply Permutation_sym, Permutation_nil in Hp.
    destruct groups as [|g groups]; [reflexivity|].
    apply Forall_inv in Hne. simpl in Hp. apply app_eq_nil in Hp as [Hg _].
    congruence.
Qed.

End KeyedRows.

(** C7, as the code has it.  With the four columns in the table and an
    ordering column that can be sorted, [has_next_corresponding_record]
    sorts the rows by the ordering column and groups the sorted rows by
    the within column (rows without a key belong to no group).  Where
    some row has a key, it lists the flags group after group: inside a
    group the flag at position [j] tells whether the target of that row
    equals the comparator of the next row of the group, and the last row
    of every group holds [NA].  Where no row has a key, it raises
    [TypeError]. *)
Theorem has_next_corresponding_record_rows (self : DataframeType.t)
    (ov : DataframeType.other_value) (ckey : Pandas.cell)
    (tcol ccol wcol ocol : list Pandas.cell) :
  Pandas.wf (DataframeType.value self) ->
  DataframeType.replace_prefix_arg self (DataframeType.comparator ov)
    = DataframeType.AVal ckey ->
  Pandas.getitem (DataframeType.value self)
    (DataframeType.replace_prefix self (DataframeType.target ov)) = Ok tcol ->
  Pandas.getitem (DataframeType.value self) ckey = Ok ccol ->
  Pandas.getitem (DataframeType.value self)
    (DataframeType.replace_prefix self (DataframeType.within ov)) = Ok wcol ->
  Pandas.getitem (DataframeType.value self)
    (DataframeType.replace_prefix self (DataframeType.ordering ov)) = Ok ocol ->
  Pandas.comparable (List.filter Pandas.notna ocol) = true ->
  let n := Pandas.index (DataframeType.value self) in
  (existsb Pandas.notna wcol = true ->
   exists (rows : list nat) (groups : list (list nat))
          (results : list (list (option bool))),
     Permutation rows (seq 0 n) /\
     Sorted (fun i j => Pandas.cell_leb (Pandas.cell_at ocol i) (Pandas.cell_at ocol j) = true)
       rows /\
     Permutation (concat groups)
       (List.filter
          (fun p => Pandas.notna (Pandas.cell_at (Pandas.take Pandas.CNone rows wcol) p))
          (seq 0 n)) /\
     Forall (fun g =>
               g <> [] /\
               exists k, Pandas.notna k = true /\
                 g = List.filter
                       (fun p => Pandas.cell_eqb
                                   (Pandas.cell_at (Pandas.take Pandas.CNone rows wcol) p) k)
                       (seq 0 n))
       groups /\
     DataframeType.has_next_corresponding_record self ov = Ok (concat results) /\
     Forall2 (fun g res =>
                length res = length g /\
                res !! (length g - 1)%nat = Some None /\
                forall j p q, g !! j = Some p -> g !! S j = Some q ->
                  res !! j =
                  Some (Some (Pandas.cell_eqb
                                (Pandas.cell_at (Pandas.take Pandas.CNone rows tcol) p)
                                (Pandas.cell_at (Pandas.take Pandas.CNone rows ccol) q))))
       groups results) /\
  (existsb Pandas.notna wcol = false ->
   DataframeType.has_next_corresponding_record self ov
   = Raise (TypeError
              "DataFrame.explode() missing 1 required positional argument: 'column'")).
Proof.
  intros Hwf Hcmp Ht Hc Hw Ho Hsortable n.
  destruct (sort_values_Ok _ _ _ Ho Hsortable) as (rows & Hsort & Hperm & Hsorted).
  assert (Hn : length ocol = n) by (eapply getitem_length; eauto).
  assert (Hwn : length wcol = n) by (eapply getitem_length; eauto).
  rewrite Hn in Hperm.
  assert (Hrows : length rows = n).
  { rewrite (Permutation_length Hperm). apply length_seq. }
  destruct (group_positions_single (Pandas.take Pandas.CNone rows wcol) n)
    as [Hpart Hgroups].
  assert (Hne : Forall (fun g : list nat => g <> [])
                  (Pandas.group_positions [Pandas.take Pandas.CNone rows wcol] n)).
  { apply Forall_forall. intros g Hg. rewrite Forall_forall in Hgroups.
    exact (proj1 (Hgroups g Hg)). }
  pose proof (groups_of_keyed_rows _ _ Hpart Hne) as Hempty. clear Hne.
  set (groups := Pandas.group_positions [Pandas.take Pandas.CNone rows wcol] n) in *.
  set (flags := fun g : list nat =>
    List.map (fun p => Some (Pandas.cell_eqb
                               (Pandas.cell_at (Pandas.take Pandas.CNone rows tcol) (fst p))
                               (Pandas.cell_at (Pandas.take Pandas.CNone rows ccol) (snd p))))
      (combine (removelast g) (tail g)) ++ [None]).
  assert (Hrun : DataframeType.has_next_corresponding_record self ov
                 = match groups with
                   | [] => Raise (TypeError
                       "DataFrame.explode() missing 1 required positional argument: 'column'")
                   | _ => Ok (concat (List.map flags groups))
                   end).
  { unfold DataframeType.has_next_corresponding_record.
    rewrite Hcmp, Hsort. simpl.
    rewrite (groupby_take _ rows _ _ Hw), Hrows. simpl. fold groups.
    rewrite (mapM_Ok _ groups flags); [reflexivity|].
    intros g _. apply compare_next_row_take; now apply getitem_take. }
  split.
  - intros Hk. exists rows, groups, (List.map flags groups).
    split; [exact Hperm|]. split; [exact Hsorted|]. split; [exact Hpart|].
    split; [exact Hgroups|]. split.
    + rewrite Hrun. destruct groups as [|g gs] eqn:Eg; [| reflexivity].
      exfalso. apply (keyed_row_sorted rows wcol n Hwn Hperm Hk).
      now apply Hempty.
    + apply Forall2_map_right. intros g Hg.
      rewrite Forall_forall in Hgroups.
      destruct (Hgroups g (proj2 (list_elem_of_In _ _) Hg)) as [Hne _].
      exact (next_row_flags g _ _ Hne).
  - intros Hk. rewrite Hrun.
    now rewrite (proj2 Hempty (no_keyed_row_sorted rows wcol n Hk)).
Qed.

Lemma has_next_corresponding_record_rows_witness :
  exists (rows : list nat) (groups : list (list nat))
         (results : list (list (option bool))),
    Permutation rows (seq 0 3) /\
    DataframeType.has_next_corresponding_record Samples.records
      (Samples.rule_within (Pandas.CStr "target")
         (DataframeType.AVal (Pandas.CStr "comparator")) (Pandas.CStr "g") (Pandas.CStr "t"))
    = Ok (concat results) /\
    Forall2 (fun g res => length res = length g) groups results.
Proof.
  destruct (proj1 (has_next_corresponding_record_rows Samples.records
              (Samples.rule_within (Pandas.CStr "target")
                 (DataframeType.AVal (Pandas.CStr "comparator")) (Pandas.CStr "g")
                 (Pandas.CStr "t"))
              (Pandas.CStr "comparator")
              [Pandas.CInt 30; Pandas.CInt 10; Pandas.CInt 20]
              [Pandas.CInt 20; Pandas.CNone; Pandas.CInt 10]
              [Pandas.CStr "X"; Pandas.CStr "X"; Pandas.CStr "X"]
              [Pandas.CInt 3; Pandas.CInt 1; Pandas.CInt 2]
              records_wf eq_refl eq_refl eq_refl eq_refl eq_refl eq_refl) eq_refl)
    as (rows & groups & results & Hperm & _ & _ & _ & Hres & Hflags).
  exists rows, groups, results. split; [exact Hperm|]. split; [exact Hres|].
  eapply Forall2_impl; [exact Hflags|]. intros g res H. exact (proj1 H).
Defined.

(** C7 at two tables that hold the four columns.  In the first the
    ordering column has a number and a string, and the sort raises; in the
    second the only record has no grouping key, no group is made and no
    flags are returned. *)
Lemma has_next_corresponding_record_raises :
  (forall c, In c [Pandas.CStr "target"; Pandas.CStr "comparator";
                   Pandas.CStr "g"; Pandas.CStr "t"] ->
     Pandas.has_column (DataframeType.value Samples.unordered) c = true /\
     Pandas.has_column (DataframeType.value Samples.unkeyed) c = true) /\
  DataframeType.has_next_corresponding_record Samples.unordered
    (Samples.rule_within (Pandas.CStr "target")
       (DataframeType.AVal (Pandas.CStr "comparator")) (Pandas.CStr "g") (Pandas.CStr "t"))
  = Raise (TypeError "'<' not supported between instances") /\
  DataframeType.has_next_corresponding_record Samples.unkeyed
    (Samples.rule_within (Pandas.CStr "target")
       (DataframeType.AVal (Pandas.CStr "comparator")) (Pandas.CStr "g") (Pandas.CStr "t"))
  = Raise (TypeError
             "DataFrame.explode() missing 1 required positional argument: 'column'").
Proof.
  split; [| split; vm_compute; reflexivity].
  intros c Hc. simpl in Hc.
  decompose [or] Hc; try contradiction; subst c; split; vm_compute; reflexivity.
Qed.

(** The fifth scenario of the specification, evaluated. *)
Example has_next_corresponding_record_scenario :
  DataframeType.has_next_corresponding_record Samples.records
    (Samples.rule_within (Pandas.CStr "target")
       (DataframeType.AVal (Pandas.CStr "comparator")) (Pandas.CStr "g") (Pandas.CStr "t"))
  = Ok [Some true; Some true; None].
Proof. vm_compute. reflexivity. Qed.

(** * Further properties of the scalar types *)

(** ** Coercion *)

Lemma string_cast_of_string (s : string) :
  StringType._assert_valid_value_and_cast (VStr s) = Ok s.
Proof. destruct s; reflexivity. Qed.



(** X1. Casting is idempotent in every scalar type: what a cast has
    accepted, the same cast accepts again and gives back unchanged. *)
Theorem coercion_idempotent (v : Py.value) :
  (forall s, StringType._assert_valid_value_and_cast v = Ok s ->
     StringType._assert_valid_value_and_cast (VStr s) = Ok s) /\
  (forall d, NumericType._assert_valid_value_and_cast v = Ok d ->
     NumericType._assert_valid_value_and_cast (VDec d) = Ok d) /\
  (forall b, BooleanType._assert_valid_value_and_cast v = Ok b ->
     BooleanType._assert_valid_value_and_cast (VBool b) = Ok b) /\
  (forall x, SelectType._assert_valid_value_and_cast v = Ok x ->
     SelectType._assert_valid_value_and_cast x = Ok x) /\
  (forall x, SelectMultipleType._assert_valid_value_and_cast v = Ok x ->
     SelectMultipleType._assert_valid_value_and_cast x = Ok x) /\
  GenericType._assert_valid_value_and_cast (GenericType._assert_valid_value_and_cast v)
  = GenericType._assert_valid_value_and_cast v.
Proof.
  repeat apply conj.
  - intros s _. apply string_cast_of_string.
  - reflexivity.
  - reflexivity.
  - unfold SelectType._assert_valid_value_and_cast.
    intros x. destruct (has_iter v) eqn:E; [| discriminate].
    intros [= <-]. now rewrite E.
  - intros x H. now apply select_multiple_cast_Ok in H.
  - apply generic_cast_idempotent.
Qed.

Lemma coercion_idempotent_witness :
  StringType._assert_valid_value_and_cast (VStr "") = Ok "".
Proof.
  apply (proj1 (coercion_idempotent VNone) ""). reflexivity.
Defined.

(** ** Numeric comparison *)

Section NumericRelation.
Import NumericType.





(** The strict comparisons and [equal_to], read off one difference and
    its opposite. *)
Lemma one_of_three (r r' : Q) :
  (r' == - r)%Q ->
  let l := dec_gt r' EPSILON in
  let e := dec_le (Qabs r) EPSILON in
  let g := dec_gt r EPSILON in
  ((l = true /\ e = false /\ g = false) \/
   (l = false /\ e = true /\ g = false) \/
   (l = false /\ e = false /\ g = true)) /\
  g || e = negb l /\
  l || e = negb g.
Proof.
  intros Hr l e g.
  assert (Hl : l = true <-> (EPSILON < - r)%Q).
  { unfold l. rewrite dec_gt_iff. now rewrite Hr. }
  assert (He : e = true <-> (- EPSILON <= r <= EPSILON)%Q).
  { unfold e. rewrite dec_le_iff. apply Qabs_Qle_condition. }
  assert (Hg : g = true <-> (EPSILON < r)%Q) by apply dec_gt_iff.
  clearbody l e g. unfold EPSILON in *.
  destruct l, e, g;
    repeat match goal with
    | H : true = true <-> _ |- _ => pose proof (proj1 H eq_refl); clear H
    | H : false = true <-> ?P |- _ =>
        assert (~ P) by (intros HP; apply H in HP; discriminate); clear H
    end;
    try (exfalso; lra);
    (split; [| split; reflexivity]); auto 6.
Qed.

End NumericRelation.



(** The six comparisons of two decimals, from one difference. *)
Lemma comparisons_of_difference (a b : Q) :
  let self := {| NumericType.value := a |} in
  (forall op,
     In op [NumericType.equal_to; NumericType.not_equal_to; NumericType.greater_than;
            NumericType.greater_than_or_equal_to; NumericType.less_than;
            NumericType.less_than_or_equal_to] ->
     op self (VDec b) = Raise (Overflow "above Emax")) \/
  (exists l e g : bool,
     NumericType.less_than self (VDec b) = Ok l /\
     NumericType.equal_to self (VDec b) = Ok e /\
     NumericType.not_equal_to self (VDec b) = Ok (negb e) /\
     NumericType.greater_than self (VDec b) = Ok g /\
     ((l = true /\ e = false /\ g = false) \/
      (l = false /\ e = true /\ g = false) \/
      (l = false /\ e = false /\ g = true)) /\
     NumericType.greater_than_or_equal_to self (VDec b) = Ok (negb l) /\
     NumericType.less_than_or_equal_to self (VDec b) = Ok (negb g) /\
     NumericType.less_than {| NumericType.value := b |} (VDec a) = Ok g).
Proof.
  intros self. subst self.
  pose proof (sub_swap a b) as H. pose proof (sub_Raise a b) as He.
  destruct (Context.sub a b) as [r|e] eqn:Eab, (Context.sub b a) as [r'|e'] eqn:Eba;
    try contradiction.
  - right. destruct (one_of_three r r' H) as (Hone & Hge & Hle).
    exists (NumericType.dec_gt r' NumericType.EPSILON),
           (NumericType.dec_le (Qabs r) NumericType.EPSILON),
           (NumericType.dec_gt r NumericType.EPSILON).
    unfold NumericType.greater_than_or_equal_to, NumericType.less_than_or_equal_to,
      NumericType.less_than, NumericType.equal_to, NumericType.not_equal_to,
      NumericType.greater_than, NumericType._assert_valid_value_and_cast.
    cbn [Py.bind NumericType.value]. rewrite Eab, Eba. cbn [Py.bind].
    split; [reflexivity|]. split; [reflexivity|].
    split; [reflexivity|]. split; [reflexivity|]. split; [exact Hone|].
    split; [| split; [| reflexivity]].
    + rewrite <- Hge. now destruct (NumericType.dec_gt r _).
    + rewrite <- Hle. now destruct (NumericType.dec_gt r' _).
  - left. pose proof (He e eq_refl) as E. subst e e'.
    intros op Hop. simpl in Hop.
    decompose [or] Hop; try contradiction; subst op;
      unfold NumericType.greater_than_or_equal_to, NumericType.less_than_or_equal_to,
        NumericType.less_than, NumericType.equal_to, NumericType.not_equal_to,
        NumericType.greater_than, NumericType._assert_valid_value_and_cast;
      cbn [Py.bind NumericType.value]; rewrite ?Eab, ?Eba; reflexivity.
Qed.

(** X3. For two finite decimals, either the difference is beyond the
    largest exponent of the context and all six comparisons raise
    [Overflow], or all six return and exactly one of [less_than],
    [equal_to] and [greater_than] holds; then
    [greater_than_or_equal_to] is the negation of [less_than],
    [less_than_or_equal_to] the negation of [greater_than], and
    [greater_than] is [less_than] with the operands exchanged. *)
Theorem numeric_trichotomy (a b : Q) :
  let self := {| NumericType.value := a |} in
  (forall op,
     In op [NumericType.equal_to; NumericType.not_equal_to; NumericType.greater_than;
            NumericType.greater_than_or_equal_to; NumericType.less_than;
            NumericType.less_than_or_equal_to] ->
     op self (VDec b) = Raise (Overflow "above Emax")) \/
  (exists l e g : bool,
     NumericType.less_than self (VDec b) = Ok l /\
     NumericType.equal_to self (VDec b) = Ok e /\
     NumericType.not_equal_to self (VDec b) = Ok (negb e) /\
     NumericType.greater_than self (VDec b) = Ok g /\
     ((l = true /\ e = false /\ g = false) \/
      (l = false /\ e = true /\ g = false) \/
      (l = false /\ e = false /\ g = true)) /\
     NumericType.greater_than_or_equal_to self (VDec b) = Ok (negb l) /\
     NumericType.less_than_or_equal_to self (VDec b) = Ok (negb g) /\
     NumericType.less_than {| NumericType.value := b |} (VDec a) = Ok g).
Proof. apply comparisons_of_difference. Qed.

(** ** Arguments that fail the cast *)



(** ** Tests on strings *)

Lemma string_cast_falsy (v : Py.value) :
  truthy v = false -> StringType._assert_valid_value_and_cast v = Ok "".
Proof.
  intros T. unfold StringType._assert_valid_value_and_cast, or_. now rewrite T.
Qed.

Section StringTests.
Import StringOperators.
Local Open Scope string_scope.

Lemma append_cons (c : ascii) (s t : string) :
  (String c s ++ t)%string = String c (s ++ t)%string.
Proof. reflexivity. Qed.

Lemma append_empty_l (s : string) : ("" ++ s)%string = s.
Proof. reflexivity. Qed.

Lemma append_empty_r (s : string) : (s ++ "")%string = s.
Proof.
  induction s as [|c s IH]; [reflexivity|]. rewrite append_cons. now f_equal.
Qed.

Lemma prefix_iff (p s : string) :
  String.prefix p s = true <-> exists q, s = (p ++ q)%string.
Proof.
  revert s. induction p as [|a p IH]; intros s.
  - simpl. destruct s; split; eauto.
  - destruct s as [|b s]; simpl.
    + split; [discriminate | intros [q H]; rewrite append_cons in H; discriminate].
    + destruct (ascii_dec a b) as [<- | Hne].
      * rewrite IH. split; intros [q H]; exists q; rewrite append_cons in *; congruence.
      * split; [discriminate|]. intros [q H]. rewrite append_cons in H.
        congruence.
Qed.

Lemma is_suffix_iff (p s : string) :
  is_suffix p s = true <-> exists q, s = (q ++ p)%string.
Proof.
  induction s as [|b s IH]; cbn [is_suffix].
  - rewrite orb_false_r, String.eqb_eq. split.
    + intros ->. now exists "".
    + intros [[|c q] H]; [auto | rewrite append_cons in H; discriminate].
  - rewrite orb_true_iff, String.eqb_eq, IH. split.
    + intros [-> | [q ->]]; [now exists "" | now exists (String b q)].
    + intros [[|c q] H]; [now left|].
      rewrite append_cons in H. injection H as -> ->. right. eauto.
Qed.

Lemma is_substring_iff (p s : string) :
  is_substring p s = true <-> exists a b, s = (a ++ p ++ b)%string.
Proof.
  induction s as [|c s IH]; cbn [is_substring].
  - rewrite orb_false_r, prefix_iff. split.
    + intros [q H]. now exists "", q.
    + intros ([|d a] & b & H); [eauto | rewrite append_cons in H; discriminate].
  - rewrite orb_true_iff, prefix_iff, IH. split.
    + intros [[q H] | (a & b & ->)]; [now exists "", q | now exists (String c a), b].
    + intros ([|d a] & b & H); [left; eauto|].
      rewrite append_cons in H. injection H as -> ->. right. eauto.
Qed.

End StringTests.

(** X5. [starts_with], [ends_with] and [contains] hold exactly when the
    stored string is the argument followed, preceded or surrounded by
    other text.  A falsy argument (such as [None]) is cast to the empty
    string, for which all three hold on every instance. *)
Theorem string_tests (self : StringType.t) (p : string) :
  (StringOperators.starts_with self (VStr p) = Ok true <->
     exists q, StringType.value self = (p ++ q)%string) /\
  (StringOperators.ends_with self (VStr p) = Ok true <->
     exists q, StringType.value self = (q ++ p)%string) /\
  (StringOperators.contains self (VStr p) = Ok true <->
     exists a b, StringType.value self = (a ++ p ++ b)%string) /\
  (forall arg, truthy arg = false ->
     StringOperators.starts_with self arg = Ok true /\
     StringOperators.ends_with self arg = Ok true /\
     StringOperators.contains self arg = Ok true).
Proof.
  unfold StringOperators.starts_with, StringOperators.ends_with,
    StringOperators.contains, StringType.type_operator.
  rewrite string_cast_of_string. cbn [Py.bind].
  split; [| split; [| split]].
  - rewrite <- prefix_iff. split; [intros [= H]; exact H | intros ->; reflexivity].
  - rewrite <- is_suffix_iff. split; [intros [= H]; exact H | intros ->; reflexivity].
  - rewrite <- is_substring_iff. split; [intros [= H]; exact H | intros ->; reflexivity].
  - intros arg T. rewrite (string_cast_falsy arg T). cbn [Py.bind].
    repeat split; f_equal.
    + now destruct (StringType.value self).
    + apply is_suffix_iff. exists (StringType.value self).
      symmetry. apply append_empty_r.
    + apply is_substring_iff. now exists "", (StringType.value self).
Qed.

Lemma string_tests_witness :
  StringOperators.starts_with {| StringType.value := "AESEV" |} VNone = Ok true /\
  StringOperators.ends_with {| StringType.value := "AESEV" |} VNone = Ok true /\
  StringOperators.contains {| StringType.value := "AESEV" |} VNone = Ok true.
Proof.
  apply (proj2 (proj2 (proj2 (string_tests {| StringType.value := "AESEV" |} "")))).
  reflexivity.
Defined.

(** ** Case folding *)

Lemma lower_ascii_idempotent (c : ascii) : lower_ascii (lower_ascii c) = lower_ascii c.
Proof. destruct c as [[] [] [] [] [] [] [] []]; reflexivity. Qed.

Lemma lower_idempotent (s : string) : lower (lower s) = lower s.
Proof.
  induction s as [|c s IH]; simpl; [reflexivity|].
  now rewrite lower_ascii_idempotent, IH.
Qed.

(** X6. Case-insensitive equality of strings holds wherever equality
    holds, is symmetric in the stored string and the argument, and does
    not change when either side is put in lower case. *)
Theorem string_equal_to_case_insensitive (s t : string) :
  (StringType.equal_to {| StringType.value := s |} (VStr t) = Ok true ->
   StringType.equal_to_case_insensitive {| StringType.value := s |} (VStr t) = Ok true) /\
  StringType.equal_to_case_insensitive {| StringType.value := s |} (VStr t)
  = StringType.equal_to_case_insensitive {| StringType.value := t |} (VStr s) /\
  StringType.equal_to_case_insensitive {| StringType.value := s |} (VStr t)
  = StringType.equal_to_case_insensitive {| StringType.value := lower s |} (VStr (lower t)) /\
  StringType.equal_to_case_insensitive {| StringType.value := s |} (VStr t)
  = StringType.equal_to {| StringType.value := lower s |} (VStr (lower t)).
Proof.
  unfold StringType.equal_to_case_insensitive, StringType.equal_to,
    StringType.type_operator.
  rewrite !string_cast_of_string. cbn [Py.bind StringType.value].
  split; [| split; [| split]].
  - intros [= H]. apply String.eqb_eq in H. subst t. now rewrite String.eqb_refl.
  - now rewrite String.eqb_sym.
  - now rewrite !lower_idempotent.
  - reflexivity.
Qed.

Lemma string_equal_to_case_insensitive_witness :
  StringType.equal_to_case_insensitive {| StringType.value := "Mild" |} (VStr "Mild")
  = Ok true.
Proof.
  apply (proj1 (string_equal_to_case_insensitive "Mild" "Mild")). reflexivity.
Defined.

(** ** Collections *)

Section Select.
Import SelectType.

Lemma contains_loop_existsb (vals : list Py.value) (x : Py.value) :
  contains_loop vals x = existsb (fun val => _case_insensitive_equal_to val x) vals.
Proof.
  induction vals as [|val rest IH]; simpl; [reflexivity|].
  now destruct (_case_insensitive_equal_to val x).
Qed.

Lemma case_insensitive_equal_to_lower (val : Py.value) (s : string) :
  _case_insensitive_equal_to val (VStr s) = _case_insensitive_equal_to val (VStr (lower s)).
Proof.
  destruct val; simpl; try reflexivity. now rewrite lower_idempotent.
Qed.

End Select.

(** X7. [SelectType.contains] holds exactly when some item of the
    collection equals the argument; between strings the comparison ignores
    case, so a string argument may be replaced by its lower-case form; an
    empty collection contains nothing. *)
Theorem select_contains (self : SelectType.t) (x : Py.value) :
  (SelectType.contains self x = true <->
     exists item, In item (items (SelectType.value self)) /\
                  SelectType._case_insensitive_equal_to item x = true) /\
  (forall s, SelectType.contains self (VStr s) = SelectType.contains self (VStr (lower s))) /\
  (items (SelectType.value self) = [] ->
     SelectType.contains self x = false /\ SelectType.does_not_contain self x = true).
Proof.
  unfold SelectType.contains, SelectType.does_not_contain.
  split; [| split].
  - rewrite contains_loop_existsb. apply existsb_exists.
  - intros s. rewrite !contains_loop_existsb.
    induction (items (SelectType.value self)) as [|val rest IH]; simpl; [reflexivity|].
    now rewrite IH, case_insensitive_equal_to_lower.
  - intros ->. split; reflexivity.
Qed.

Lemma select_contains_witness :
  SelectType.contains {| SelectType.value := VList [] |} (VStr "apple") = false /\
  SelectType.does_not_contain {| SelectType.value := VList [] |} (VStr "apple") = true.
Proof.
  apply (proj2 (proj2 (select_contains {| SelectType.value := VList [] |} (VStr "apple")))).
  reflexivity.
Defined.

Section SelectMultiple.
Import SelectMultipleType.

Lemma contains_all_loop_forallb (select : SelectType.t) (others : list Py.value) :
  contains_all_loop select others = forallb (SelectType.contains select) others.
Proof.
  induction others as [|o rest IH]; simpl; [reflexivity|].
  now destruct (SelectType.contains select o).
Qed.

Lemma shares_at_least_one_loop_existsb (select : SelectType.t) (others : list Py.value) :
  shares_at_least_one_loop select others = existsb (SelectType.contains select) others.
Proof.
  induction others as [|o rest IH]; simpl; [reflexivity|].
  now destruct (SelectType.contains select o).
Qed.

Lemma shares_exactly_one_loop_count (select : SelectType.t) (found_one : bool)
    (others : list Py.value) :
  shares_exactly_one_loop select found_one others
  = (length (List.filter (SelectType.contains select) others)
       + (if found_one then 1 else 0) =? 1)%nat.
Proof.
  revert found_one. induction others as [|o rest IH]; intros found_one;
    cbn [shares_exactly_one_loop List.filter].
  - now destruct found_one.
  - destruct (SelectType.contains select o); cbn [length].
    + destruct found_one.
      * symmetry. apply Nat.eqb_neq. lia.
      * rewrite IH. apply (f_equal (fun n => n =? 1)%nat). lia.
    + apply IH.
Qed.

Lemma select_new_iterable (v : Py.value) :
  has_iter v = true -> SelectType.new v = Ok {| SelectType.value := v |}.
Proof.
  intros H. unfold SelectType.new, SelectType._assert_valid_value_and_cast.
  now rewrite H.
Qed.

Lemma select_multiple_cast_iterable (v : Py.value) :
  has_iter v = true -> _assert_valid_value_and_cast v = Ok v.
Proof. intros H. unfold _assert_valid_value_and_cast. now rewrite H. Qed.

Lemma iter_iterable (v : Py.value) : has_iter v = true -> iter v = Ok (items v).
Proof. intros H. unfold iter. now rewrite H. Qed.

End SelectMultiple.

(** X8. On two iterable collections, [contains_all] holds when every
    item of the argument is contained in the stored collection,
    [shares_at_least_one_element_with] when some item is, and
    [shares_exactly_one_element_with] when exactly one position of the
    argument holds a contained item; [is_contained_by] is [contains_all]
    with the two collections exchanged.  An argument that does not iterate
    makes each of them raise the [AssertionError] of the cast. *)
Theorem select_multiple_operators (self : SelectMultipleType.t) (arg : Py.value) :
  has_iter (SelectMultipleType.value self) = true ->
  let select := {| SelectType.value := SelectMultipleType.value self |} in
  (has_iter arg = true ->
     SelectMultipleType.contains_all self arg
       = Ok (forallb (SelectType.contains select) (items arg)) /\
     SelectMultipleType.shares_at_least_one_element_with self arg
       = Ok (existsb (SelectType.contains select) (items arg)) /\
     SelectMultipleType.shares_exactly_one_element_with self arg
       = Ok (length (List.filter (SelectType.contains select) (items arg)) =? 1)%nat /\
     SelectMultipleType.is_contained_by self arg
       = SelectMultipleType.contains_all {| SelectMultipleType.value := arg |}
           (SelectMultipleType.value self)) /\
  (has_iter arg = false ->
     forall op,
       In op [SelectMultipleType.contains_all; SelectMultipleType.is_contained_by;
              SelectMultipleType.is_not_contained_by;
              SelectMultipleType.shares_at_least_one_element_with;
              SelectMultipleType.shares_exactly_one_element_with;
              SelectMultipleType.shares_no_elements_with] ->
       op self arg = Raise (AssertionError "is not a valid select multiple type" arg)).
Proof.
  intros Hself select. split.
  - intros Harg.
    unfold SelectMultipleType.contains_all, SelectMultipleType.contains_all_with,
      SelectMultipleType.contains_all_body,
      SelectMultipleType.shares_at_least_one_element_with,
      SelectMultipleType.shares_at_least_one_element_with_with,
      SelectMultipleType.shares_exactly_one_element_with,
      SelectMultipleType.shares_exactly_one_element_with_with,
      SelectMultipleType.is_contained_by, SelectMultipleType.is_contained_by_with,
      SelectMultipleType.is_contained_by_body, SelectMultipleType.new.
    cbn [SelectMultipleType.value].
    rewrite !(select_multiple_cast_iterable arg Harg),
      !(select_multiple_cast_iterable _ Hself). cbn [Py.bind SelectMultipleType.value].
    rewrite (select_new_iterable _ Hself), (select_new_iterable _ Harg).
    cbn [Py.bind]. rewrite !(iter_iterable arg Harg), !(iter_iterable _ Hself).
    cbn [Py.bind]. fold select.
    rewrite contains_all_loop_forallb, shares_at_least_one_loop_existsb,
      shares_exactly_one_loop_count, Nat.add_0_r.
    repeat split.
    rewrite (select_multiple_cast_iterable arg Harg).
    cbn [Py.bind SelectMultipleType.value].
    unfold SelectMultipleType.contains_all_body.
    now rewrite (select_new_iterable _ Harg), (iter_iterable _ Hself).
  - intros Harg op Hop.
    assert (E : SelectMultipleType._assert_valid_value_and_cast arg
                = Raise (AssertionError "is not a valid select multiple type" arg)).
    { unfold SelectMultipleType._assert_valid_value_and_cast. now rewrite Harg. }
    simpl in Hop. decompose [or] Hop; try contradiction; subst op;
      unfold SelectMultipleType.contains_all, SelectMultipleType.contains_all_with,
        SelectMultipleType.is_contained_by, SelectMultipleType.is_contained_by_with,
        SelectMultipleType.is_not_contained_by,
        SelectMultipleType.shares_at_least_one_element_with,
        SelectMultipleType.shares_at_least_one_element_with_with,
        SelectMultipleType.shares_exactly_one_element_with,
        SelectMultipleType.shares_exactly_one_element_with_with,
        SelectMultipleType.shares_no_elements_with,
        SelectMultipleType.shares_no_elements_with_with; now rewrite E.
Qed.

Lemma select_multiple_operators_witness :
  SelectMultipleType.shares_exactly_one_element_with
    {| SelectMultipleType.value := VList [VStr "Apple"; VStr "Pear"] |}
    (VList [VStr "apple"; VStr "APPLE"])
  = Ok false.
Proof.
  apply (proj1 (proj2 (proj2 (proj1
           (select_multiple_operators
              {| SelectMultipleType.value := VList [VStr "Apple"; VStr "Pear"] |}
              (VList [VStr "apple"; VStr "APPLE"]) eq_refl) eq_refl)))).
Defined.

(** ** The generic type *)

(** X9. [GenericType] compares a stored number with a number as
    [NumericType] does and a stored string with a string as [StringType]
    does.  It casts nothing to a string, though: against [None] a stored
    empty string is unequal where [StringType] finds it equal, and a stored
    number compared with a string or with [None] raises [TypeError]. *)
Theorem generic_equal_to_dispatch :
  (forall v arg d e,
     NumericType._assert_valid_value_and_cast v = Ok d ->
     NumericType._assert_valid_value_and_cast arg = Ok e ->
     GenericType.equal_to (GenericType.new v) arg
       = NumericType.equal_to {| NumericType.value := d |} arg /\
     GenericType.not_equal_to (GenericType.new v) arg
       = NumericType.not_equal_to {| NumericType.value := d |} arg) /\
  (forall s t,
     GenericType.equal_to (GenericType.new (VStr s)) (VStr t)
       = StringType.equal_to {| StringType.value := s |} (VStr t) /\
     GenericType.not_equal_to (GenericType.new (VStr s)) (VStr t)
       = StringType.not_equal_to {| StringType.value := s |} (VStr t)) /\
  (GenericType.equal_to (GenericType.new (VStr "")) VNone = Ok false /\
   StringType.equal_to {| StringType.value := "" |} VNone = Ok true) /\
  (forall v d arg,
     NumericType._assert_valid_value_and_cast v = Ok d ->
     as_number arg = None ->
     GenericType.equal_to (GenericType.new v) arg
       = Raise (TypeError "unsupported operand type(s) for -") /\
     GenericType.not_equal_to (GenericType.new v) arg
       = Raise (TypeError "unsupported operand type(s) for -")).
Proof.
  split; [| split; [| split]].
  - intros v arg d e Hv Harg.
    unfold GenericType.equal_to, GenericType.not_equal_to, GenericType.new,
      GenericType.num_equal_to, GenericType.num_not_equal_to, GenericType.cast,
      NumericType.equal_to, NumericType.not_equal_to.
    rewrite Harg.
    destruct v; try discriminate; destruct arg; try discriminate;
      simpl in Hv, Harg; injection Hv as <-; injection Harg as <-; split; reflexivity.
  - intros s t.
    unfold GenericType.equal_to, GenericType.not_equal_to, GenericType.new,
      GenericType.str_equal_to, GenericType.str_not_equal_to, GenericType.cast,
      StringType.equal_to, StringType.not_equal_to, StringType.type_operator.
    rewrite string_cast_of_string. split; reflexivity.
  - split; reflexivity.
  - intros v d arg Hv Harg.
    unfold GenericType.equal_to, GenericType.not_equal_to, GenericType.new,
      GenericType.num_equal_to, GenericType.num_not_equal_to, GenericType.cast.
    destruct v; try discriminate; destruct arg; try discriminate; split; reflexivity.
Qed.

Lemma generic_equal_to_dispatch_witness :
  GenericType.equal_to (GenericType.new (VInt 1)) (VStr "1")
  = Raise (TypeError "unsupported operand type(s) for -").
Proof.
  apply (proj1 (proj2 (proj2 (proj2 generic_equal_to_dispatch))
                  (VInt 1) (inject_Z 1) (VStr "1") eq_refl eq_refl)).
Defined.

(** X10. [GenericType.is_contained_by] always leaves a list behind, and
    a second call with the same argument finds the instance as the first
    call left it and gives the same answer.  The wrapping changes
    [contains]: on a stored string it is a substring test before the call
    and a test for the whole string after it. *)
Theorem generic_is_contained_by_settles (self : GenericType.t) (other : Py.value) :
  let first := GenericType.is_contained_by self other in
  let second := GenericType.is_contained_by (snd first) other in
  is_list (GenericType.value (snd first)) = true /\
  second = first /\
  (forall s p,
     GenericType.value self = VStr s ->
     GenericOperators.contains self (VStr p) = Ok (StringOperators.is_substring p s) /\
     GenericOperators.contains (snd first) (VStr p) = Ok (String.eqb p s)).
Proof.
  unfold GenericType.is_contained_by. cbn [snd].
  destruct (is_list (GenericType.value self)) eqn:E; cbn [negb].
  - rewrite E. split; [reflexivity | split; [reflexivity |]].
    intros s p H. rewrite H in E. discriminate.
  - cbn [GenericType.value is_list negb]. split; [reflexivity | split; [reflexivity |]].
    intros s p H. unfold GenericOperators.contains. rewrite H. split.
    + reflexivity.
    + simpl. now rewrite orb_false_r.
Qed.

Lemma generic_is_contained_by_settles_witness :
  GenericOperators.contains (GenericType.new (VStr "AESEV")) (VStr "SEV") = Ok true /\
  GenericOperators.contains
    (snd (GenericType.is_contained_by (GenericType.new (VStr "AESEV")) (VList [VStr "AESEV"])))
    (VStr "SEV") = Ok false.
Proof.
  apply (proj2 (proj2 (generic_is_contained_by_settles
           (GenericType.new (VStr "AESEV")) (VList [VStr "AESEV"]))) "AESEV" "SEV").
  reflexivity.
Defined.

(** X11. [GenericType.contains] on a stored string and a string
    argument is the substring test of [StringType.contains]: it holds
    exactly when the stored string is the argument surrounded by other
    text.  On a stored list it holds exactly when some item equals the
    cast argument.  A stored string asked for anything but a string raises
    [TypeError], also for the falsy arguments that [StringType.contains]
    takes for the empty string; a stored decimal, boolean or [None] raises
    [TypeError] whatever the argument. *)
Theorem generic_contains (self : GenericType.t) (arg : Py.value) :
  (forall s p, GenericType.value self = VStr s ->
     (GenericOperators.contains self (VStr p) = Ok true <->
        exists a b, s = (a ++ p ++ b)%string) /\
     GenericOperators.contains self (VStr p)
     = StringOperators.contains {| StringType.value := s |} (VStr p)) /\
  (forall l, GenericType.value self = VList l ->
     exists b,
       GenericOperators.contains self arg = Ok b /\
       (b = true <->
        exists item, In item l /\
          Py.eqb (GenericType._assert_valid_value_and_cast arg) item = true)) /\
  (forall s, GenericType.value self = VStr s ->
     Py.is_str arg = false ->
     GenericOperators.contains self arg
       = Raise (TypeError "'in <string>' requires string as left operand") /\
     (truthy arg = false ->
      StringOperators.contains {| StringType.value := s |} arg = Ok true)) /\
  (has_iter (GenericType.value self) = false ->
     GenericOperators.contains self arg = Raise (TypeError "argument is not iterable")).
Proof.
  unfold GenericOperators.contains, GenericType.cast. cbn [Py.bind].
  split; [| split; [| split]].
  - intros s p ->. cbn [GenericType._assert_valid_value_and_cast GenericOperators.py_in].
    unfold StringOperators.contains, StringType.type_operator.
    rewrite string_cast_of_string. cbn [Py.bind StringType.value].
    split; [| reflexivity].
    rewrite <- is_substring_iff. split; [intros [= H]; exact H | intros ->; reflexivity].
  - intros l ->. eexists. split; [reflexivity|]. apply existsb_exists.
  - intros s -> H. split.
    + destruct arg; try discriminate; reflexivity.
    + intros T. unfold StringOperators.contains, StringType.type_operator.
      rewrite (string_cast_falsy arg T). cbn [Py.bind StringType.value].
      f_equal. apply is_substring_iff. now exists ""%string, s.
  - intros H. destruct (GenericType.value self); try discriminate; reflexivity.
Qed.

Lemma generic_contains_witness :
  GenericOperators.contains (GenericType.new (VInt 5)) (VStr "5")
  = Raise (TypeError "argument is not iterable").
Proof.
  apply (proj2 (proj2 (proj2 (generic_contains (GenericType.new (VInt 5)) (VStr "5"))))).
  reflexivity.
Defined.

(** A stored string asked for [None], in both types. *)
Example generic_contains_none :
  GenericOperators.contains (GenericType.new (VStr "AESEV")) VNone
  = Raise (TypeError "'in <string>' requires string as left operand") /\
  StringOperators.contains {| StringType.value := "AESEV" |} VNone = Ok true.
Proof. split; reflexivity. Qed.

(** * Further properties of the dataframe operators *)

(** ** Column names *)

Section Prefixes.
Import Pandas DataframeType.
Local Open Scope string_scope.

Lemma substring_all (s : string) : String.substring 0 (String.length s) s = s.
Proof. induction s as [|c s IH]; [reflexivity|]. simpl. now rewrite IH. Qed.

Lemma substring_after_prefix (p rest : string) :
  String.substring (String.length p)
    (String.length (p ++ rest) - String.length p) (p ++ rest) = rest.
Proof.
  induction p as [|c p IH].
  - rewrite append_empty_l. simpl. rewrite Nat.sub_0_r. apply substring_all.
  - rewrite append_cons. simpl. exact IH.
Qed.

Lemma replace_prefix_loop_no_match (items : list (string * string)) (s : string) :
  Forall (fun e => String.prefix (fst e) s = false) items ->
  replace_prefix_loop items s = s.
Proof.
  induction 1 as [|[p r] items Hp _ IH]; [reflexivity|].
  simpl in *. now rewrite Hp.
Qed.

Lemma replace_prefix_loop_first_match
    (before after : list (string * string)) (p r rest : string) :
  Forall (fun e => String.prefix (fst e) (p ++ rest) = false) before ->
  replace_prefix_loop (before ++ (p, r) :: after) (p ++ rest) = r ++ rest.
Proof.
  induction 1 as [|[p' r'] before Hp _ IH].
  - cbn [app replace_prefix_loop].
    rewrite (proj2 (prefix_iff p (p ++ rest))) by eauto.
    now rewrite substring_after_prefix.
  - cbn [app replace_prefix_loop]. simpl in Hp. now rewrite Hp.
Qed.

End Prefixes.

(** X12. [replace_prefix] rewrites a column name with the first entry of
    the prefix map whose key the name starts with: the key is cut off the
    front and the replacement put in its place, and the entries after it
    are not looked at.  A name that no key starts, and any value that is
    not a string, comes back as it is. *)
Theorem replace_prefix_first_match (self : DataframeType.t) :
  (forall before after p r rest,
     DataframeType.column_prefix_map self = before ++ (p, r) :: after ->
     Forall (fun e => String.prefix (fst e) (p ++ rest)%string = false) before ->
     DataframeType.replace_prefix self (Pandas.CStr (p ++ rest)%string)
     = Pandas.CStr (r ++ rest)%string) /\
  (forall s,
     Forall (fun e => String.prefix (fst e) s = false)
       (DataframeType.column_prefix_map self) ->
     DataframeType.replace_prefix self (Pandas.CStr s) = Pandas.CStr s) /\
  (forall c, Pandas.is_str c = false -> DataframeType.replace_prefix self c = c).
Proof.
  split; [| split].
  - intros before after p r rest Hmap Hbefore.
    unfold DataframeType.replace_prefix. rewrite Hmap.
    now rewrite replace_prefix_loop_first_match.
  - intros s H. unfold DataframeType.replace_prefix.
    now rewrite replace_prefix_loop_no_match.
  - intros c H. destruct c; try reflexivity. discriminate.
Qed.

Lemma replace_prefix_first_match_witness :
  DataframeType.replace_prefix Samples.events (Pandas.CStr "--SEV")
  = Pandas.CStr "AESEV".
Proof.
  apply (proj1 (replace_prefix_first_match Samples.events)
           [] [] "--"%string "AE"%string "SEV"%string eq_refl).
  constructor.
Defined.

(** ** The target column *)

(** X13. [empty], [non_empty] and [has_different_values] return
    exactly when [exists] holds of the same rule.  When it does not, these
    three and [has_same_values], [equal_to], [not_equal_to] and
    [is_ordered_by] all raise the [KeyError] of the target column. *)
Theorem operators_need_the_target (self : DataframeType.t)
    (ov : DataframeType.other_value) :
  (Py.is_ok (DataframeType.empty self ov) = DataframeType.exists_ self ov /\
   Py.is_ok (DataframeType.non_empty self ov) = DataframeType.exists_ self ov /\
   Py.is_ok (DataframeType.has_different_values self ov) = DataframeType.exists_ self ov) /\
  (DataframeType.exists_ self ov = false ->
   exists key,
     DataframeType.empty self ov = Raise (KeyError key) /\
     DataframeType.non_empty self ov = Raise (KeyError key) /\
     DataframeType.has_different_values self ov = Raise (KeyError key) /\
     DataframeType.has_same_values self ov = Raise (KeyError key) /\
     DataframeType.equal_to self ov = Raise (KeyError key) /\
     DataframeType.not_equal_to self ov = Raise (KeyError key) /\
     DataframeType.is_ordered_by self ov = Raise (KeyError key)).
Proof.
  unfold DataframeType.non_empty, DataframeType.has_same_values,
    DataframeType.not_equal_to, DataframeType.empty,
    DataframeType.has_different_values, DataframeType.equal_to,
    DataframeType.is_ordered_by, DataframeType.exists_, Pandas.has_column,
    Pandas.getitem.
  destruct (DataframeType.replace_prefix self (DataframeType.target ov))
    as [| b | n | name]; cbn [Py.bind Py.is_ok].
  1-3: split; [repeat split | intros _; eexists; repeat split].
  destruct (Pandas.columns (DataframeType.value self) !! name) as [col|] eqn:E;
    cbn [Py.bind Py.is_ok].
  - split.
    + rewrite bool_decide_eq_true_2 by eauto. repeat split.
    + rewrite bool_decide_eq_true_2 by eauto. discriminate.
  - split.
    + rewrite bool_decide_eq_false_2 by (intros [x Hx]; discriminate). repeat split.
    + intros _. eexists. repeat split.
Qed.

Lemma operators_need_the_target_witness :
  exists key,
    DataframeType.equal_to Samples.events
      (Samples.rule (Pandas.CStr "AETERM") (DataframeType.AVal (Pandas.CStr "AESEV")))
    = Raise (KeyError key).
Proof.
  destruct (proj2 (operators_need_the_target Samples.events
              (Samples.rule (Pandas.CStr "AETERM")
                 (DataframeType.AVal (Pandas.CStr "AESEV")))))
    as (key & _ & _ & _ & _ & H & _).
  - vm_compute. reflexivity.
  - exists key. exact H.
Defined.

(** ** Distinct values *)

Section Unique.
Import Pandas DataframeType.

Lemma unique_In (l : list cell) (x : cell) : In x (unique l) -> In x l.
Proof.
  revert x. induction l as [|y l IH]; simpl; intros x; [tauto|].
  intros [-> | H]; [now left|]. right. apply IH. now apply filter_In in H.
Qed.

Lemma unique_cover (l : list cell) (x : cell) :
  In x l -> exists y, In y (unique l) /\ cell_eqb y x = true.
Proof.
  induction l as [|z l IH]; simpl; intros H; [destruct H|].
  destruct H as [-> | H].
  - exists x. split; [now left | apply cell_eqb_refl].
  - destruct (IH H) as (y & Hin & Heq).
    destruct (cell_eqb z y) eqn:E.
    + exists z. split; [now left|]. eapply cell_eqb_trans; eauto.
    + exists y. split; [| exact Heq]. right. apply filter_In. now rewrite E.
Qed.

Lemma existsb_cell_eqb (v : cell) (l : list cell) :
  existsb (cell_eqb v) l = true <-> exists y, In y l /\ cell_eqb v y = true.
Proof. apply existsb_exists. Qed.

(** Looking a value up among the distinct values of a column is looking
    it up in the column. *)
Lemma existsb_unique (v : cell) (l : list cell) :
  existsb (cell_eqb v) (unique l) = existsb (cell_eqb v) l.
Proof.
  apply eq_true_iff_eq. rewrite !existsb_cell_eqb. split.
  - intros (y & Hy & E). exists y. split; [now apply unique_In | exact E].
  - intros (y & Hy & E). destruct (unique_cover l y Hy) as (u & Hu & Eu).
    exists u. split; [exact Hu|].
    rewrite cell_eqb_sym in Eu. eapply cell_eqb_trans; eauto.
Qed.

Lemma existsb_cell_eqb_compat (v w : cell) (l : list cell) :
  cell_eqb v w = true -> existsb (cell_eqb v) l = existsb (cell_eqb w) l.
Proof.
  intros E. apply eq_true_iff_eq. rewrite !existsb_cell_eqb.
  split; intros (y & Hy & H); exists y; (split; [exact Hy|]).
  - rewrite cell_eqb_sym in E. eapply cell_eqb_trans; eauto.
  - eapply cell_eqb_trans; eauto.
Qed.

Lemma forallb_pointwise {A} (f g : A -> bool) (l : list A) :
  (forall x, f x = g x) -> forallb f l = forallb g l.
Proof.
  intros H. induction l as [|x l IH]; simpl; [reflexivity|]. now rewrite H, IH.
Qed.

Lemma forallb_unique (l tcol : list cell) :
  forallb (fun v => existsb (cell_eqb v) tcol) (unique l)
  = forallb (fun v => existsb (cell_eqb v) tcol) l.
Proof.
  apply eq_true_iff_eq. rewrite !forallb_forall. split.
  - intros H x Hx. destruct (unique_cover l x Hx) as (u & Hu & Eu).
    rewrite <- (existsb_cell_eqb_compat u x tcol Eu). now apply H.
  - intros H x Hx. apply H. now apply unique_In.
Qed.

Lemma forallb_existsb_refl (l : list cell) :
  forallb (fun v => existsb (cell_eqb v) l) l = true.
Proof.
  apply forallb_forall. intros x Hx. apply existsb_cell_eqb.
  exists x. split; [exact Hx | apply cell_eqb_refl].
Qed.

(** A column has more than one distinct value exactly when two of its
    cells differ. *)
Lemma unique_more_than_one (l : list cell) :
  (1 <? length (unique l))%nat = true <->
  exists x y, In x l /\ In y l /\ cell_eqb x y = false.
Proof.
  rewrite Nat.ltb_lt. destruct l as [|h l]; cbn [unique length].
  - split; [lia | intros (x & _ & [] & _)].
  - split.
    + intros Hlen.
      destruct (List.filter (fun y => negb (cell_eqb h y)) (unique l))
        as [|y rest] eqn:E; [simpl in Hlen; lia|].
      assert (Hy : In y (List.filter (fun y => negb (cell_eqb h y)) (unique l)))
        by (rewrite E; now left).
      apply filter_In in Hy as [Hy Hne]. apply negb_true_iff in Hne.
      exists h, y. split; [now left|]. split; [right; now apply unique_In | exact Hne].
    + intros (x & y & Hx & Hy & Hne).
      assert (Hz : exists z, In z l /\ cell_eqb h z = false).
      { destruct (cell_eqb h x) eqn:Ex.
        - destruct (cell_eqb h y) eqn:Ey.
          + rewrite cell_eqb_sym in Ex.
            now rewrite (cell_eqb_trans _ _ _ Ex Ey) in Hne.
          + destruct Hy as [<- | Hy]; [now rewrite cell_eqb_refl in Ey | eauto].
        - destruct Hx as [<- | Hx]; [now rewrite cell_eqb_refl in Ex | eauto]. }
      destruct Hz as (z & Hz & Ez).
      destruct (unique_cover l z Hz) as (u & Hu & Eu).
      assert (Hin : In u (List.filter (fun y => negb (cell_eqb h y)) (unique l))).
      { apply filter_In. split; [exact Hu|]. apply negb_true_iff.
        destruct (cell_eqb h u) eqn:Ehu; [| reflexivity].
        now rewrite (cell_eqb_trans _ _ _ Ehu Eu) in Ez. }
      destruct (List.filter _ (unique l)); [destruct Hin | simpl; lia].
Qed.

Lemma invert_repeat (b : bool) (n : nat) : invert (repeat b n) = repeat (negb b) n.
Proof. unfold invert. induction n as [|n IH]; simpl; [reflexivity | now rewrite IH]. Qed.

End Unique.

(** X14. With the target column in the table, [contains_all] tells
    whether every value of the comparator, a list of values or the cells
    of the column it names, occurs in the target column, and
    [not_contains_all] tells the opposite; the values looked for are
    taken to be present ones.  A column without missing cells contains
    all of itself, and every column contains all of the empty list. *)
Theorem contains_all_values (self : DataframeType.t) (ov : DataframeType.other_value)
    (tcol : list Pandas.cell) :
  Pandas.getitem (DataframeType.value self)
    (DataframeType.replace_prefix self (DataframeType.target ov)) = Ok tcol ->
  let occurs := fun v => existsb (Pandas.cell_eqb v) tcol in
  (forall l, DataframeType.comparator ov = DataframeType.AList l ->
     forallb Pandas.notna l = true ->
     DataframeType.contains_all self ov = Ok (forallb occurs l) /\
     DataframeType.not_contains_all self ov = Ok (negb (forallb occurs l))) /\
  (forall c ccol, DataframeType.comparator ov = DataframeType.AVal c ->
     Pandas.getitem (DataframeType.value self) (DataframeType.replace_prefix self c)
       = Ok ccol ->
     forallb Pandas.notna ccol = true ->
     DataframeType.contains_all self ov = Ok (forallb occurs ccol) /\
     DataframeType.not_contains_all self ov = Ok (negb (forallb occurs ccol))) /\
  (DataframeType.comparator ov = DataframeType.AVal (DataframeType.target ov) ->
     forallb Pandas.notna tcol = true ->
     DataframeType.contains_all self ov = Ok true) /\
  (DataframeType.comparator ov = DataframeType.AList [] ->
     DataframeType.contains_all self ov = Ok true).
Proof.
  intros Ht occurs. unfold DataframeType.not_contains_all, DataframeType.contains_all.
  split; [| split; [| split]].
  - intros l -> _. cbn [Py.bind]. rewrite Ht. cbn [Py.bind].
    assert (E : forallb (fun v => existsb (Pandas.cell_eqb v) (Pandas.unique tcol)) l
                = forallb occurs l).
    { apply forallb_pointwise. intros v. apply existsb_unique. }
    rewrite E. split; reflexivity.
  - intros c ccol -> Hc _. rewrite Hc. cbn [Py.bind]. rewrite Ht. cbn [Py.bind].
    assert (E : forallb (fun v => existsb (Pandas.cell_eqb v) (Pandas.unique tcol))
                  (Pandas.unique ccol)
                = forallb occurs ccol).
    { transitivity (forallb occurs (Pandas.unique ccol)).
      - apply forallb_pointwise. intros v. apply existsb_unique.
      - apply forallb_unique. }
    rewrite E. split; reflexivity.
  - intros -> _. rewrite Ht. cbn [Py.bind]. f_equal.
    transitivity (forallb occurs (Pandas.unique tcol)).
    + apply forallb_pointwise. intros v. apply existsb_unique.
    + unfold occurs. rewrite forallb_unique. apply forallb_existsb_refl.
  - intros ->. cbn [Py.bind]. rewrite Ht. reflexivity.
Qed.

Lemma contains_all_values_witness :
  DataframeType.contains_all Samples.events
    (Samples.rule (Pandas.CStr "--SEV")
       (DataframeType.AList [Pandas.CStr "SEVERE"; Pandas.CStr "MODERATE"]))
  = Ok false.
Proof.
  apply (proj1 (proj1 (contains_all_values Samples.events
           (Samples.rule (Pandas.CStr "--SEV")
              (DataframeType.AList [Pandas.CStr "SEVERE"; Pandas.CStr "MODERATE"]))
           [Pandas.CStr "MILD"; Pandas.CStr "SEVERE"] eq_refl)
           [Pandas.CStr "SEVERE"; Pandas.CStr "MODERATE"] eq_refl eq_refl)).
Defined.

(** X15. [has_different_values] gives every row the same flag: true
    when two cells of the target column differ, false when the column
    holds one value throughout.  [has_same_values] gives every row of a
    table that has rows the opposite flag. *)
Theorem has_different_values_constant (self : DataframeType.t)
    (ov : DataframeType.other_value) (col : list Pandas.cell) :
  Pandas.getitem (DataframeType.value self)
    (DataframeType.replace_prefix self (DataframeType.target ov)) = Ok col ->
  exists b,
    DataframeType.has_different_values self ov = Ok (repeat b (length col)) /\
    (col <> [] ->
     DataframeType.has_same_values self ov = Ok (repeat (negb b) (length col))) /\
    (b = true <->
     exists x y, In x col /\ In y col /\ Pandas.cell_eqb x y = false).
Proof.
  intros Ht. exists (1 <? length (Pandas.unique col))%nat.
  unfold DataframeType.has_same_values, DataframeType.has_different_values.
  rewrite Ht. cbn [Py.bind]. rewrite invert_repeat.
  split; [reflexivity|]. split; [| apply unique_more_than_one].
  intros Hne. destruct col; [congruence | reflexivity].
Qed.

Lemma has_different_values_constant_witness :
  exists b,
    DataframeType.has_different_values Samples.records
      (Samples.rule (Pandas.CStr "g") (DataframeType.AVal Pandas.CNone))
    = Ok (repeat b 3) /\
    (b = true <->
     exists x y, In x [Pandas.CStr "X"; Pandas.CStr "X"; Pandas.CStr "X"] /\
                 In y [Pandas.CStr "X"; Pandas.CStr "X"; Pandas.CStr "X"] /\
                 Pandas.cell_eqb x y = false).
Proof.
  destruct (has_different_values_constant Samples.records
              (Samples.rule (Pandas.CStr "g") (DataframeType.AVal Pandas.CNone))
              [Pandas.CStr "X"; Pandas.CStr "X"; Pandas.CStr "X"] eq_refl)
    as (b & H1 & _ & H2).
  exists b. split; [exact H1 | exact H2].
Defined.

(** ** Order inside groups *)

Section OrderedGroups.
Import Pandas DataframeType.

Lemma cells_eqb_Forall2 (a b : list cell) :
  cells_eqb a b = true -> Forall2 (fun x y => cell_eqb x y = true) b a.
Proof.
  revert b. induction a as [|x a IH]; intros [|y b]; simpl; try discriminate.
  - constructor.
  - intros [H1 H2]%andb_true_iff. constructor; [now rewrite cell_eqb_sym | now apply IH].
Qed.

(** [sorted(x) == x] on cells of one kind: [x] is in ascending order. *)
Lemma sorted_eq_iff (x : list cell) :
  forallb is_num x || forallb is_str x = true ->
  cells_eqb (isort cell_leb x) x = true <-> non_decreasing x.
Proof.
  intros Hhom. split.
  - intros H. apply (non_decreasing_transfer x (isort cell_leb x)).
    + now apply cells_eqb_Forall2.
    + apply isort_Sorted. intros a b. now apply homogeneous_total.
  - intros H. unfold non_decreasing in H.
    rewrite (isort_of_Sorted cell_leb x H). apply cells_eqb_refl.
Qed.

Lemma take_homogeneous (g : list nat) (tcol : list cell) :
  (forall i, In i g -> (i < length tcol)%nat) ->
  forallb is_num tcol || forallb is_str tcol = true ->
  forallb is_num (take CNone g tcol) || forallb is_str (take CNone g tcol) = true.
Proof.
  intros Hr H. apply orb_true_iff in H as [H | H].
  - now rewrite (take_forallb _ _ _ Hr H).
  - rewrite (take_forallb _ _ _ Hr H). apply orb_true_r.
Qed.

Lemma ordered_flags_value (self : t) (target : cell) (by_ : string) (wcol tcol : list cell) :
  wf (DataframeType.value self) ->
  columns (DataframeType.value self) !! by_ = Some wcol ->
  target <> CStr by_ ->
  getitem (DataframeType.value self) target = Ok tcol ->
  forallb is_num tcol || forallb is_str tcol = true ->
  ordered_flags self target (CStr by_)
  = Ok (List.map
          (fun g => cells_eqb (isort cell_leb (take CNone g tcol)) (take CNone g tcol))
          (group_positions [wcol] (index (DataframeType.value self)))).
Proof.
  intros Hwf Hw Hne Ht Hhom. unfold ordered_flags.
  rewrite (groupby_Ok _ _ _ Hw). cbn [Py.bind].
  rewrite bool_decide_eq_false_2 by exact Hne. rewrite Ht. cbn [Py.bind].
  apply mapM_Ok. intros g Hg. unfold sorted.
  rewrite comparable_homogeneous; [reflexivity|].
  apply take_homogeneous; [| exact Hhom].
  intros i Hi. rewrite (getitem_length _ _ _ Hwf Ht).
  eapply group_positions_range; eauto.
Qed.

Lemma all_flags (flags : list bool) :
  negb (existsb negb flags) = true <-> Forall (fun b => b = true) flags.
Proof.
  induction flags as [|b flags IH]; simpl.
  - split; [constructor | reflexivity].
  - rewrite negb_orb, andb_true_iff, IH, negb_involutive. split.
    + intros [H1 H2]. now constructor.
    + intros H. inversion H. auto.
Qed.

(** The rows of one key, in table order. *)
Lemma rows_of_key_compat (w : list cell) (n : nat) (k k' : cell) :
  cell_eqb k k' = true ->
  List.filter (fun p => cell_eqb (cell_at w p) k) (seq 0 n)
  = List.filter (fun p => cell_eqb (cell_at w p) k') (seq 0 n).
Proof.
  intros E. apply filter_ext. intros p. apply eq_true_iff_eq. split; intros H.
  - eapply cell_eqb_trans; eauto.
  - rewrite cell_eqb_sym in E. eapply cell_eqb_trans; eauto.
Qed.

Lemma rows_of_key_grouped (w : list cell) (n : nat) (k : cell) :
  notna k = true ->
  List.filter (fun p => cell_eqb (cell_at w p) k) (seq 0 n) <> [] ->
  In (List.filter (fun p => cell_eqb (cell_at w p) k) (seq 0 n))
     (group_positions [w] n).
Proof.
  intros Hk Hne.
  destruct (List.filter (fun p => cell_eqb (cell_at w p) k) (seq 0 n))
    as [|p rest] eqn:E; [congruence|]. rewrite <- E.
  assert (Hp : In p (List.filter (fun p => cell_eqb (cell_at w p) k) (seq 0 n)))
    by (rewrite E; now left).
  apply filter_In in Hp as [Hp Hpk].
  destruct (group_positions_single w n) as [Hperm Hall].
  assert (Hin : In p (concat (group_positions [w] n))).
  { eapply Permutation_in; [symmetry; exact Hperm|].
    apply filter_In. split; [exact Hp|].
    destruct (cell_at w p), k; try discriminate; reflexivity. }
  apply in_concat in Hin as (g & Hg & Hpg).
  rewrite Forall_forall in Hall.
  destruct (Hall g (proj2 (list_elem_of_In _ _) Hg)) as (_ & k' & _ & ->).
  apply filter_In in Hpg as [_ Hpk'].
  rewrite (rows_of_key_compat w n k k'); [exact Hg|].
  rewrite cell_eqb_sym in Hpk. eapply cell_eqb_trans; eauto.
Qed.

End OrderedGroups.

(** X16. With a grouping column, another column as target and target
    cells that are all numbers or all strings, [is_ordered_set] holds
    exactly when, for every key, the target cells of the rows with that
    key are in ascending order as the table lists them;
    [is_not_ordered_set] holds exactly when it does not. *)
Theorem is_ordered_set_groups (self : DataframeType.t) (ov : DataframeType.other_value)
    (by_ : string) (wcol tcol : list Pandas.cell) :
  Pandas.wf (DataframeType.value self) ->
  DataframeType.comparator ov = DataframeType.AVal (Pandas.CStr by_) ->
  Pandas.columns (DataframeType.value self) !! by_ = Some wcol ->
  DataframeType.replace_prefix self (DataframeType.target ov) <> Pandas.CStr by_ ->
  Pandas.getitem (DataframeType.value self)
    (DataframeType.replace_prefix self (DataframeType.target ov)) = Ok tcol ->
  forallb Pandas.is_num tcol || forallb Pandas.is_str tcol = true ->
  let n := Pandas.index (DataframeType.value self) in
  exists b,
    DataframeType.is_ordered_set self ov = Ok b /\
    DataframeType.is_not_ordered_set self ov = Ok (negb b) /\
    (b = true <->
     forall k, Pandas.notna k = true ->
       Pandas.non_decreasing
         (Pandas.take Pandas.CNone
            (List.filter (fun p => Pandas.cell_eqb (Pandas.cell_at wcol p) k) (seq 0 n))
            tcol)).
Proof.
  intros Hwf Hcmp Hw Hne Ht Hhom n.
  pose proof (ordered_flags_value self _ by_ wcol tcol Hwf Hw Hne Ht Hhom) as Hflags.
  fold n in Hflags.
  set (flags := List.map
          (fun g => Pandas.cells_eqb
                      (Pandas.isort Pandas.cell_leb (Pandas.take Pandas.CNone g tcol))
                      (Pandas.take Pandas.CNone g tcol))
          (Pandas.group_positions [wcol] n)) in *.
  exists (negb (existsb negb flags)).
  unfold DataframeType.is_ordered_set, DataframeType.is_not_ordered_set.
  rewrite Hcmp, Hflags. cbn [Py.bind]. rewrite negb_involutive.
  split; [reflexivity|]. split; [reflexivity|].
  assert (Hrange : forall g, In g (Pandas.group_positions [wcol] n) ->
            forallb Pandas.is_num (Pandas.take Pandas.CNone g tcol)
            || forallb Pandas.is_str (Pandas.take Pandas.CNone g tcol) = true).
  { intros g Hg. apply take_homogeneous; [| exact Hhom].
    intros i Hi. rewrite (getitem_length _ _ _ Hwf Ht).
    eapply group_positions_range; eauto. }
  rewrite all_flags. unfold flags. rewrite Forall_map, Forall_forall. split.
  - intros H k Hk.
    destruct (List.filter (fun p => Pandas.cell_eqb (Pandas.cell_at wcol p) k) (seq 0 n))
      as [|p rest] eqn:E; [constructor|]. rewrite <- E.
    assert (Hg : In (List.filter (fun p => Pandas.cell_eqb (Pandas.cell_at wcol p) k)
                       (seq 0 n)) (Pandas.group_positions [wcol] n)).
    { apply rows_of_key_grouped; [exact Hk | rewrite E; discriminate]. }
    apply sorted_eq_iff; [now apply Hrange|].
    apply H. now apply list_elem_of_In.
  - intros H g Hg. apply list_elem_of_In in Hg.
    apply sorted_eq_iff; [now apply Hrange|].
    destruct (group_positions_single wcol n) as [_ Hall].
    rewrite Forall_forall in Hall.
    destruct (Hall g (proj2 (list_elem_of_In _ _) Hg)) as (_ & k & Hk & ->).
    now apply H.
Qed.

Lemma is_ordered_set_groups_witness :
  exists b,
    DataframeType.is_ordered_set Samples.records
      (Samples.rule (Pandas.CStr "t") (DataframeType.AVal (Pandas.CStr "g"))) = Ok b /\
    DataframeType.is_not_ordered_set Samples.records
      (Samples.rule (Pandas.CStr "t") (DataframeType.AVal (Pandas.CStr "g")))
    = Ok (negb b).
Proof.
  destruct (is_ordered_set_groups Samples.records
              (Samples.rule (Pandas.CStr "t") (DataframeType.AVal (Pandas.CStr "g")))
              "g"%string
              [Pandas.CStr "X"; Pandas.CStr "X"; Pandas.CStr "X"]
              [Pandas.CInt 3; Pandas.CInt 1; Pandas.CInt 2]
              records_wf eq_refl eq_refl)
    as (b & H1 & H2 & _).
  - discriminate.
  - reflexivity.
  - reflexivity.
  - exists b. split; [exact H1 | exact H2].
Defined.

(** ** Rows that share a key *)

Section GroupOfRow.
Import Pandas.
Context (key : nat -> list cell) (rows : list nat).

Local Abbreviation group_of k := (List.filter (fun i => cells_eqb (key i) k) rows).

(** The group [transform] finds for a row is the group of its own key. *)
Lemma find_group (keys : list (list cell)) (i : nat) :
  In i rows ->
  (exists k, In k keys /\ cells_eqb (key i) k = true) ->
  List.find (fun g => existsb (Nat.eqb i) g) (List.map (fun k => group_of k) keys)
  = Some (group_of (key i)).
Proof.
  intros Hi (k & Hk & E).
  destruct (List.find _ _) as [g|] eqn:F.
  - apply find_some in F as [Hg Hex].
    apply in_map_iff in Hg as (k' & <- & _).
    apply existsb_exists in Hex as (j & Hj & Eij). apply Nat.eqb_eq in Eij. subst j.
    apply filter_In in Hj as [_ E']. f_equal. apply filter_ext. intros j.
    apply eq_true_iff_eq. split; intros H.
    + rewrite cells_eqb_sym in E'. eapply cells_eqb_trans; eauto.
    + eapply cells_eqb_trans; eauto.
  - exfalso. pose proof (find_none _ _ F (group_of k)) as H.
    rewrite (proj2 (existsb_exists _ _)) in H.
    + discriminate H. apply in_map_iff. eauto.
    + exists i. split; [| apply Nat.eqb_refl]. apply filter_In. auto.
Qed.

Lemma NoDup_all_equal (g : list nat) (i : nat) :
  List.NoDup g -> (forall j, In j g -> j = i) -> (length g <= 1)%nat.
Proof.
  intros Hnd H. destruct g as [|a [|b g]]; simpl; try lia.
  exfalso. inversion Hnd as [|? ? Hnotin _]; subst. apply Hnotin.
  rewrite (H a) by now left. rewrite (H b) at 1 by (right; now left). now left.
Qed.

Lemma group_alone (i : nat) :
  List.NoDup rows -> In i rows ->
  (length (group_of (key i)) <=? 1)%nat = true <->
  forall j, In j rows -> cells_eqb (key j) (key i) = true -> j = i.
Proof.
  intros Hnd Hi. rewrite Nat.leb_le.
  assert (Hin : In i (group_of (key i))).
  { apply filter_In. split; [exact Hi | apply cells_eqb_refl]. }
  split.
  - intros Hlen j Hj E.
    assert (Hjn : In j (group_of (key i))) by (apply filter_In; auto).
    destruct (group_of (key i)) as [|a [|b g]]; simpl in *; lia.
  - intros H. apply (NoDup_all_equal _ i).
    + now apply List.NoDup_filter.
    + intros j Hj. apply filter_In in Hj as [Hj E]. now apply H.
Qed.

End GroupOfRow.

Section UniqueSet.
Import Pandas DataframeType.

Lemma cell_at_In (col : list cell) (i : nat) :
  (i < length col)%nat -> In (cell_at col i) col.
Proof. intros H. unfold cell_at. now apply nth_In. Qed.

(** Without missing keys every row is grouped. *)
Lemma keyed_all (ccol tcol : list cell) (n : nat) :
  length ccol = n -> length tcol = n ->
  forallb notna ccol = true -> forallb notna tcol = true ->
  List.filter (fun i => forallb notna (row_key [ccol; tcol] i)) (seq 0 n) = seq 0 n.
Proof.
  intros Hc Ht Hnc Hnt. apply filter_all. intros i Hi. apply in_seq in Hi.
  rewrite forallb_forall in Hnc, Hnt. simpl.
  rewrite Hnc by (apply cell_at_In; lia). rewrite Hnt by (apply cell_at_In; lia).
  reflexivity.
Qed.

Lemma transform_size_lookup (ccol tcol : list cell) (n i : nat) :
  length ccol = n -> length tcol = n ->
  forallb notna ccol = true -> forallb notna tcol = true ->
  (i < n)%nat ->
  transform_size (group_positions [ccol; tcol] n) n !! i
  = Some (Some (length (List.filter
                          (fun j => cells_eqb (row_key [ccol; tcol] j)
                                      (row_key [ccol; tcol] i))
                          (seq 0 n)))).
Proof.
  intros Hc Ht Hnc Hnt Hi. unfold transform_size.
  erewrite lookup_map; [| apply lookup_seq_lt; exact Hi]. cbn [Nat.add].
  unfold group_positions. rewrite (keyed_all ccol tcol n Hc Ht Hnc Hnt).
  rewrite (find_group (row_key [ccol; tcol]) (seq 0 n)); [reflexivity | |].
  - apply in_seq. lia.
  - destruct (distinct_keys_cover (List.map (row_key [ccol; tcol]) (seq 0 n))
                (row_key [ccol; tcol] i)) as (k & Hk & E).
    { apply in_map, in_seq. lia. }
    exists k. split.
    + apply isort_In. exact Hk.
    + now rewrite cells_eqb_sym.
Qed.

Lemma sub_table_getitem (df : DataFrame) (keys : list cell) (sub : DataFrame)
    (name : string) (col : list cell) :
  getitem_list df keys = Ok sub ->
  In (CStr name) keys ->
  columns df !! name = Some col ->
  getitem sub (CStr name) = Ok col /\ index sub = index df.
Proof.
  unfold getitem_list. intros H Hin Hcol.
  rewrite (is_bool_indexer_label keys name Hin) in H.
  apply bind_Ok in H as (ls & Hls & [= <-]). split; [| reflexivity].
  cbn [getitem columns].
  assert (Hname : name ∈ ls).
  { clear Hcol. revert ls Hls. induction keys as [|k keys IH]; intros ls Hls;
      [destruct Hin|].
    simpl in Hls. destruct k as [| | | nm]; try discriminate.
    destruct (columns df !! nm); [| discriminate].
    apply bind_Ok in Hls as (ls' & Hls' & [= <-]).
    destruct Hin as [[= ->] | Hin].
    - apply list_elem_of_here.
    - apply list_elem_of_further. now apply IH. }
  rewrite (map_lookup_filter_Some_2 _ (columns df) name col Hcol Hname).
  reflexivity.
Qed.

End UniqueSet.

(** X17. With one column as comparator, no missing cell in it or in
    the target column and a target name the prefix map leaves alone,
    [is_unique_set] gives one flag per row: true exactly when no other row
    holds the same pair of comparator and target.  [is_not_unique_set]
    gives the opposite flags. *)
Theorem is_unique_set_rows (self : DataframeType.t) (ov : DataframeType.other_value)
    (c : Pandas.cell) (cn tn : string) (ccol tcol : list Pandas.cell) :
  Pandas.wf (DataframeType.value self) ->
  DataframeType.comparator ov = DataframeType.AVal c ->
  DataframeType.replace_prefix self c = Pandas.CStr cn ->
  DataframeType.replace_prefix self (DataframeType.target ov) = Pandas.CStr tn ->
  DataframeType.replace_prefix self (Pandas.CStr tn) = Pandas.CStr tn ->
  cn <> tn ->
  Pandas.columns (DataframeType.value self) !! cn = Some ccol ->
  Pandas.columns (DataframeType.value self) !! tn = Some tcol ->
  forallb Pandas.notna ccol = true ->
  forallb Pandas.notna tcol = true ->
  let n := Pandas.index (DataframeType.value self) in
  exists r,
    fst (DataframeType.is_unique_set self ov) = Ok r /\
    fst (DataframeType.is_not_unique_set self ov) = Ok (Pandas.invert r) /\
    length r = n /\
    forall i, (i < n)%nat ->
      (r !! i = Some true <->
       forall j, (j < n)%nat ->
         Pandas.cell_eqb (Pandas.cell_at ccol j) (Pandas.cell_at ccol i) = true ->
         Pandas.cell_eqb (Pandas.cell_at tcol j) (Pandas.cell_at tcol i) = true ->
         j = i).
Proof.
  intros Hwf Hcmp Hc Ht Hidem Hne Hccol Htcol Hnc Hnt n.
  assert (Hlc : length ccol = n) by exact (Hwf cn _ Hccol).
  assert (Hlt : length tcol = n) by exact (Hwf tn _ Htcol).
  set (flag := fun c0 : option nat =>
                 match c0 with Some k => (k <=? 1)%nat | None => false end).
  exists (List.map flag
            (DataframeType.transform_size (Pandas.group_positions [ccol; tcol] n) n)).
  assert (Hrun : fst (DataframeType.is_unique_set self ov)
                 = Ok (List.map flag
                         (DataframeType.transform_size
                            (Pandas.group_positions [ccol; tcol] n) n))).
  { unfold DataframeType.is_unique_set. rewrite Hcmp, Ht. cbn [fst].
    unfold DataframeType.replace_all_prefixes. cbn [List.map].
    rewrite Hc, Hidem.
    destruct (Pandas.getitem_list (DataframeType.value self)
                [Pandas.CStr cn; Pandas.CStr tn]) as [sub|e] eqn:Hsub.
    2:{ exfalso. unfold Pandas.getitem_list in Hsub.
        cbn [Pandas.is_bool_indexer forallb andb Pandas.labels] in Hsub.
        rewrite Hccol, Htcol in Hsub. discriminate. }
    cbn [Py.bind].
    destruct (sub_table_getitem _ _ sub cn ccol Hsub) as [Hgc Hidx];
      [now left | exact Hccol |].
    destruct (sub_table_getitem _ _ sub tn tcol Hsub) as [Hgt _];
      [right; now left | exact Htcol |].
    unfold Pandas.groupby_list. cbn [Pandas.mapM]. rewrite Hgc, Hgt. cbn [Py.bind].
    rewrite bool_decide_eq_true_2.
    2:{ apply NoDup_cons. split.
        - intros H. apply list_elem_of_singleton in H. congruence.
        - apply NoDup_singleton. }
    cbn [Py.bind]. rewrite Hidx. reflexivity. }
  split; [exact Hrun|]. split.
  { unfold DataframeType.is_not_unique_set.
    destruct (DataframeType.is_unique_set self ov) as [r0 ov0].
    cbn [fst] in *. now rewrite Hrun. }
  split.
  { unfold DataframeType.transform_size. now rewrite !length_map, length_seq. }
  intros i Hi.
  erewrite lookup_map;
    [| apply (transform_size_lookup ccol tcol n i Hlc Hlt Hnc Hnt Hi)].
  cbn [flag].
  assert (Hiff :
    (length (List.filter
               (fun j => Pandas.cells_eqb (Pandas.row_key [ccol; tcol] j)
                           (Pandas.row_key [ccol; tcol] i)) (seq 0 n)) <=? 1)%nat = true
    <-> forall j, In j (seq 0 n) ->
          Pandas.cells_eqb (Pandas.row_key [ccol; tcol] j)
            (Pandas.row_key [ccol; tcol] i) = true -> j = i).
  { apply (group_alone (Pandas.row_key [ccol; tcol]) (seq 0 n) i).
    - apply List.seq_NoDup.
    - apply in_seq. lia. }
  split.
  - intros [= H]. intros j Hj E1 E2. apply (proj1 Hiff H j).
    + apply in_seq. lia.
    + simpl. now rewrite E1, E2.
  - intros H. f_equal. apply (proj2 Hiff). intros j Hj E.
    apply in_seq in Hj. simpl in E.
    apply andb_true_iff in E as [E1 E2]. rewrite andb_true_r in E2.
    apply H; [lia | exact E1 | exact E2].
Qed.

Lemma is_unique_set_rows_witness :
  exists r,
    fst (DataframeType.is_unique_set Samples.records
           (Samples.rule (Pandas.CStr "target") (DataframeType.AVal (Pandas.CStr "g"))))
    = Ok r /\ length r = 3%nat.
Proof.
  destruct (is_unique_set_rows Samples.records
              (Samples.rule (Pandas.CStr "target") (DataframeType.AVal (Pandas.CStr "g")))
              (Pandas.CStr "g") "g"%string "target"%string
              [Pandas.CStr "X"; Pandas.CStr "X"; Pandas.CStr "X"]
              [Pandas.CInt 30; Pandas.CInt 10; Pandas.CInt 20]
              records_wf eq_refl eq_refl eq_refl eq_refl)
    as (r & H1 & _ & H2 & _).
  - discriminate.
  - reflexivity.
  - reflexivity.
  - reflexivity.
  - reflexivity.
  - exists r. split; [exact H1 | exact H2].
Defined.

(** X18. A rule whose comparator is a list serves [is_unique_set]
    once.  The call leaves the target appended to the list, so a second
    call with the same rule asks for the target column twice and raises,
    whatever the table holds, when the prefix map leaves the target name
    alone. *)
Theorem is_unique_set_second_call (self : DataframeType.t)
    (ov : DataframeType.other_value) (l : list Pandas.cell) :
  DataframeType.comparator ov = DataframeType.AList l ->
  DataframeType.replace_prefix self
    (DataframeType.replace_prefix self (DataframeType.target ov))
  = DataframeType.replace_prefix self (DataframeType.target ov) ->
  let ov' := snd (DataframeType.is_unique_set self ov) in
  exists e, fst (DataframeType.is_unique_set self ov') = Raise e.
Proof.
  intros Hcmp Hidem ov'.
  assert (Hov' : DataframeType.comparator ov'
                 = DataframeType.AList
                     (DataframeType.replace_all_prefixes self
                        (l ++ [DataframeType.replace_prefix self (DataframeType.target ov)]))
                 /\ DataframeType.target ov' = DataframeType.target ov).
  { unfold ov'. rewrite is_unique_set_rule, Hcmp. split; reflexivity. }
  destruct Hov' as [Hc' Ht'].
  unfold DataframeType.is_unique_set. rewrite Hc', Ht'. cbn [fst].
  set (t1 := DataframeType.replace_prefix self (DataframeType.target ov)) in *.
  set (keys := DataframeType.replace_all_prefixes self
                 (DataframeType.replace_all_prefixes self (l ++ [t1]) ++ [t1])).
  assert (Hdup : ~ NoDup keys).
  { unfold keys, DataframeType.replace_all_prefixes.
    rewrite !List.map_app. cbn [List.map]. rewrite Hidem.
    rewrite <- app_assoc. cbn [app]. intros H.
    apply NoDup_app in H as (_ & _ & H).
    apply NoDup_cons in H as [H _]. apply H. rewrite ?Hidem.
    apply list_elem_of_here. }
  destruct (Pandas.getitem_list (DataframeType.value self) keys) as [sub|e];
    cbn [Py.bind]; [| eauto].
  unfold Pandas.groupby_list.
  destruct keys as [|k keys']; cbn [Py.bind]; [eauto|].
  destruct (Pandas.mapM (Pandas.getitem sub) (k :: keys')) as [cols|e];
    cbn [Py.bind]; [| eauto].
  rewrite bool_decide_eq_false_2 by exact Hdup. cbn [Py.bind]. eauto.
Qed.

Lemma is_unique_set_second_call_witness :
  exists e,
    fst (DataframeType.is_unique_set Samples.records
           (snd (DataframeType.is_unique_set Samples.records
                   (Samples.rule (Pandas.CStr "target")
                      (DataframeType.AList [Pandas.CStr "g"])))))
    = Raise e.
Proof.
  apply (is_unique_set_second_call Samples.records
           (Samples.rule (Pandas.CStr "target") (DataframeType.AList [Pandas.CStr "g"]))
           [Pandas.CStr "g"] eq_refl eq_refl).
Defined.

(** ** All rows of a group but the last *)

Section ExceptLast.
Import Pandas DataframeType.

Lemma seq_increasing (a n : nat) : StronglySorted lt (seq a n).
Proof.
  revert a. induction n as [|n IH]; intros a; simpl; constructor; [apply IH|].
  apply Forall_forall. intros x Hx. apply list_elem_of_In, in_seq in Hx. lia.
Qed.

Lemma filter_increasing (f : nat -> bool) (l : list nat) :
  StronglySorted lt l -> StronglySorted lt (List.filter f l).
Proof.
  induction 1 as [|a l Hs IH Hall]; simpl; [constructor|].
  destruct (f a); [| exact IH]. constructor; [exact IH|].
  rewrite Forall_forall in *. intros x Hx.
  apply Hall. apply list_elem_of_In. apply list_elem_of_In in Hx.
  now apply filter_In in Hx.
Qed.

(** In a list of increasing positions, all but the last have a later one. *)
Lemma removelast_increasing (g : list nat) (i : nat) :
  StronglySorted lt g ->
  In i (removelast g) <-> In i g /\ exists j, In j g /\ (i < j)%nat.
Proof.
  induction 1 as [|a g Hs IH Hall]; [simpl; split; [tauto | intros [[] _]]|].
  destruct g as [|b g].
  - simpl. split; [tauto|]. intros [[<- | []] (j & [<- | []] & Hlt)]. lia.
  - change (removelast (a :: b :: g)) with (a :: removelast (b :: g)).
    rewrite Forall_forall in Hall.
    assert (Hgt : forall x, In x (b :: g) -> (a < x)%nat).
    { intros x Hx. apply Hall. now apply list_elem_of_In. }
    split.
    + intros [<- | Hi].
      * split; [now left|]. exists b. split; [right; now left|].
        apply Hgt. now left.
      * apply IH in Hi as (Hi & j & Hj & Hlt). split; [now right|].
        exists j. split; [now right | exact Hlt].
    + intros ([<- | Hi] & j & Hj & Hlt); [now left|]. right. apply IH.
      split; [exact Hi|]. exists j. split; [| exact Hlt].
      destruct Hj as [<- | Hj]; [| exact Hj].
      specialize (Hgt i Hi). lia.
Qed.

Lemma except_last_row_flags_In (groups : list (list nat)) (tcol : list cell)
    (i : nat) (b : bool) :
  In (i, b) (except_last_row_flags groups tcol) <->
  b = in_empty (cell_at tcol i) /\ exists g, In g groups /\ In i (removelast g).
Proof.
  unfold except_last_row_flags. rewrite in_concat. split.
  - intros (fl & Hfl & Hin). apply in_map_iff in Hfl as (g & <- & Hg).
    apply in_map_iff in Hin as (i' & [= <- <-] & Hi). eauto.
  - intros (-> & g & Hg & Hi). eexists. split.
    + apply in_map_iff. exists g. split; [reflexivity | exact Hg].
    + apply in_map_iff. exists i. split; [reflexivity | exact Hi].
Qed.

(** A row is not the last of its group: it has a key and a later row
    has the same key. *)
Lemma not_last_iff (w : list cell) (n i : nat) :
  (exists g, In g (group_positions [w] n) /\ In i (removelast g)) <->
  (i < n)%nat /\ notna (cell_at w i) = true /\
  exists j, (i < j < n)%nat /\ cell_eqb (cell_at w j) (cell_at w i) = true.
Proof.
  destruct (group_positions_single w n) as [_ Hall]. rewrite Forall_forall in Hall.
  split.
  - intros (g & Hg & Hi).
    destruct (Hall g (proj2 (list_elem_of_In _ _) Hg)) as (_ & k & Hk & ->).
    apply removelast_increasing in Hi as (Hi & j & Hj & Hlt);
      [| apply filter_increasing, seq_increasing].
    apply filter_In in Hi as [Hi Ei]. apply filter_In in Hj as [Hj Ej].
    apply in_seq in Hi. apply in_seq in Hj.
    split; [lia|]. split.
    + destruct (cell_at w i), k; try discriminate; reflexivity.
    + exists j. split; [lia|].
      rewrite cell_eqb_sym in Ei. eapply cell_eqb_trans; eauto.
  - intros (Hi & Hna & j & Hj & E).
    exists (List.filter (fun p => cell_eqb (cell_at w p) (cell_at w i)) (seq 0 n)).
    assert (Hin : In i (List.filter (fun p => cell_eqb (cell_at w p) (cell_at w i))
                          (seq 0 n))).
    { apply filter_In. split; [apply in_seq; lia | apply cell_eqb_refl]. }
    split.
    + apply rows_of_key_grouped; [exact Hna|]. intros Hnil. now rewrite Hnil in Hin.
    + apply removelast_increasing; [apply filter_increasing, seq_increasing|].
      split; [exact Hin|]. exists j. split; [| lia].
      apply filter_In. split; [apply in_seq; lia | exact E].
Qed.

Lemma aligned_column_lookup (flags : list (nat * bool)) (n i : nat) (f : nat -> bool) :
  (i < n)%nat ->
  (forall p, In p flags -> snd p = f (fst p)) ->
  aligned_column flags n !! i
  = Some (if existsb (fun p => Nat.eqb (fst p) i) flags then CBool (f i) else CNone).
Proof.
  intros Hi Hf. unfold aligned_column.
  erewrite lookup_map; [| apply lookup_seq_lt; exact Hi]. cbn [Nat.add]. f_equal.
  destruct (List.find _ flags) as [p|] eqn:F.
  - apply find_some in F as [Hp E]. apply Nat.eqb_eq in E.
    rewrite (proj2 (existsb_exists _ _)).
    + now rewrite (Hf p Hp), E.
    + exists p. split; [exact Hp | now apply Nat.eqb_eq].
  - destruct (existsb _ flags) eqn:Ex; [| reflexivity].
    apply existsb_exists in Ex as (p & Hp & E).
    now rewrite (find_none _ _ F p Hp) in E.
Qed.

End ExceptLast.

(** X19. Grouped by one column, [empty_within_except_last_row] returns
    whether some row with an empty target has a later row of the same key.
    The column it writes holds, for every row that has a key and a later
    row of that key, whether the target is empty there, and a missing
    value at every other row; the table stays well formed. *)
Theorem empty_within_except_last_row_value (uuid : string) (self : DataframeType.t)
    (ov : DataframeType.other_value) (by_ : string) (wcol tcol : list Pandas.cell) :
  Pandas.wf (DataframeType.value self) ->
  DataframeType.comparator ov = DataframeType.AVal (Pandas.CStr by_) ->
  Pandas.columns (DataframeType.value self) !! by_ = Some wcol ->
  Pandas.getitem (DataframeType.value self)
    (DataframeType.replace_prefix self (DataframeType.target ov)) = Ok tcol ->
  let n := Pandas.index (DataframeType.value self) in
  let not_last := fun i =>
    Pandas.notna (Pandas.cell_at wcol i) = true /\
    exists j, (i < j < n)%nat /\
      Pandas.cell_eqb (Pandas.cell_at wcol j) (Pandas.cell_at wcol i) = true in
  let out := DataframeType.empty_within_except_last_row uuid self ov in
  exists b col,
    fst out = Ok b /\
    (b = true <->
     exists i, (i < n)%nat /\ not_last i /\
       DataframeType.in_empty (Pandas.cell_at tcol i) = true) /\
    Pandas.wf (DataframeType.value (snd out)) /\
    Pandas.columns (DataframeType.value (snd out)) !! ("result_" ++ uuid)%string
      = Some col /\
    forall i, (i < n)%nat ->
      (not_last i ->
       col !! i = Some (Pandas.CBool (DataframeType.in_empty (Pandas.cell_at tcol i)))) /\
      (~ not_last i -> col !! i = Some Pandas.CNone).
Proof.
  intros Hwf Hcmp Hw Ht n not_last out.
  set (groups := Pandas.group_positions [wcol] n).
  set (flags := DataframeType.except_last_row_flags groups tcol).
  assert (Hout : out = (Ok (existsb id (List.map snd flags)),
                        DataframeType.set_value self
                          (Pandas.setitem (DataframeType.value self)
                             ("result_" ++ uuid)%string
                             (DataframeType.aligned_column flags n)))).
  { unfold out, DataframeType.empty_within_except_last_row,
      DataframeType.grouped_target.
    rewrite Hcmp, (groupby_Ok _ _ _ Hw). cbn [Py.bind]. rewrite Ht. reflexivity. }
  assert (Hflag : forall p, In p flags ->
            snd p = DataframeType.in_empty (Pandas.cell_at tcol (fst p))).
  { intros [i b] Hp. apply except_last_row_flags_In in Hp as [-> _]. reflexivity. }
  assert (Hnl : forall i, (i < n)%nat ->
            existsb (fun p => Nat.eqb (fst p) i) flags = true <-> not_last i).
  { intros i Hi. rewrite existsb_exists. split.
    - intros ([i' b] & Hp & E). apply Nat.eqb_eq in E. simpl in E. subst i'.
      apply except_last_row_flags_In in Hp as [_ Hg].
      apply not_last_iff in Hg as (_ & Hna & Hj). split; assumption.
    - intros [Hna Hj].
      exists (i, DataframeType.in_empty (Pandas.cell_at tcol i)). split.
      + apply except_last_row_flags_In. split; [reflexivity|].
        apply not_last_iff. auto.
      + apply Nat.eqb_refl. }
  exists (existsb id (List.map snd flags)), (DataframeType.aligned_column flags n).
  rewrite Hout. cbn [fst snd DataframeType.set_value DataframeType.value].
  split; [reflexivity|]. split; [| split; [| split]].
  - rewrite existsb_exists. split.
    + intros (b & Hb & Eb). unfold id in Eb. subst b.
      apply in_map_iff in Hb as ([i b] & Eb & Hp). simpl in Eb. subst b.
      apply except_last_row_flags_In in Hp as [Hemp Hg].
      apply not_last_iff in Hg as (Hi & Hna & Hj).
      exists i. split; [exact Hi|]. split; [split; assumption | now symmetry].
    + intros (i & Hi & [Hna Hj] & Hemp). exists true. split; [| reflexivity].
      apply in_map_iff. exists (i, true). split; [reflexivity|].
      apply except_last_row_flags_In. split; [now symmetry|].
      apply not_last_iff. auto.
  - unfold Pandas.wf, Pandas.setitem. cbn [Pandas.columns Pandas.index].
    apply map_Forall_insert_2; [| exact Hwf].
    unfold DataframeType.aligned_column. now rewrite length_map, length_seq.
  - unfold Pandas.setitem. cbn [Pandas.columns]. apply lookup_insert_eq.
  - intros i Hi.
    rewrite (aligned_column_lookup flags n i
               (fun i => DataframeType.in_empty (Pandas.cell_at tcol i)) Hi Hflag).
    split.
    + intros H. now rewrite (proj2 (Hnl i Hi) H).
    + intros H. destruct (existsb _ flags) eqn:E; [| reflexivity].
      destruct H. now apply (Hnl i Hi).
Qed.

Lemma empty_within_except_last_row_value_witness :
  exists b,
    fst (DataframeType.empty_within_except_last_row "0" Samples.records
           (Samples.rule (Pandas.CStr "comparator") (DataframeType.AVal (Pandas.CStr "g"))))
    = Ok b /\
    (b = true <->
     exists i, (i < 3)%nat /\
       (Pandas.notna (Pandas.cell_at [Pandas.CStr "X"; Pandas.CStr "X"; Pandas.CStr "X"] i)
        = true /\
        exists j, (i < j < 3)%nat /\
          Pandas.cell_eqb
            (Pandas.cell_at [Pandas.CStr "X"; Pandas.CStr "X"; Pandas.CStr "X"] j)
            (Pandas.cell_at [Pandas.CStr "X"; Pandas.CStr "X"; Pandas.CStr "X"] i)
          = true) /\
       DataframeType.in_empty
         (Pandas.cell_at [Pandas.CInt 20; Pandas.CNone; Pandas.CInt 10] i) = true).
Proof.
  destruct (empty_within_except_last_row_value "0" Samples.records
              (Samples.rule (Pandas.CStr "comparator")
                 (DataframeType.AVal (Pandas.CStr "g")))
              "g"%string
              [Pandas.CStr "X"; Pandas.CStr "X"; Pandas.CStr "X"]
              [Pandas.CInt 20; Pandas.CNone; Pandas.CInt 10]
              records_wf eq_refl eq_refl eq_refl)
    as (b & col & H1 & H2 & _).
  exists b. split; [exact H1 | exact H2].
Defined.

(** * Codelists *)

Section CodelistLemmas.
Import Codelists.

Lemma generic_lookup_no_match (codelists : gmap string (list string))
    (items : list (string * string)) (column_name codelist : string) :
  Forall (fun e => String.prefix (snd e) column_name = false) items ->
  generic_lookup codelists items column_name codelist = true.
Proof.
  induction 1 as [|[k r] items Hp _ IH]; [reflexivity|].
  simpl in *. now rewrite Hp.
Qed.

Lemma generic_lookup_first_match (codelists : gmap string (list string))
    (before after : list (string * string)) (p r rest codelist : string)
    (names : list string) :
  Forall (fun e => String.prefix (snd e) (r ++ rest)%string = false) before ->
  codelists !! (p ++ rest)%string = Some names ->
  generic_lookup codelists (before ++ (p, r) :: after) (r ++ rest)%string codelist
  = listed codelist names.
Proof.
  intros Hbefore Hnames. induction Hbefore as [|[k r'] before Hp _ IH].
  - cbn [app generic_lookup].
    rewrite (proj2 (prefix_iff r (r ++ rest)%string)) by eauto.
    now rewrite substring_after_prefix, Hnames.
  - cbn [app generic_lookup]. simpl in Hp. now rewrite Hp.
Qed.

Lemma valid_terms_loop_true (maps : list (gmap string codelist)) (c : string)
    (terms_list : Py.value) :
  valid_terms_loop maps (VStr c) terms_list true = Ok true.
Proof.
  induction maps as [|m maps IH]; [reflexivity|].
  cbn [valid_terms_loop lookup_codelist Py.bind]. now destruct (m !! c).
Qed.

Lemma valid_terms_loop_list (maps : list (gmap string codelist)) (c : string)
    (ts : list Py.value) :
  forallb (fun x => negb (is_list x)) ts = true ->
  valid_terms_loop maps (VStr c) (VList ts) false
  = Ok (existsb (fun m => match m !! c with
                          | Some entry =>
                              extensible entry
                              || forallb (allowed (allowed_terms entry)) ts
                          | None => false
                          end) maps).
Proof.
  intros Hts. induction maps as [|m maps IH]; [reflexivity|].
  cbn [valid_terms_loop lookup_codelist Py.bind existsb].
  destruct (m !! c) as [entry|]; [| exact IH].
  destruct (extensible entry); cbn [Py.bind orb].
  - apply valid_terms_loop_true.
  - unfold set_of. rewrite Hts. cbn [Py.bind].
    destruct (forallb (allowed (allowed_terms entry)) ts); cbn [orb].
    + apply valid_terms_loop_true.
    + exact IH.
Qed.

End CodelistLemmas.

(** X20. [valid_codelist_reference] undoes [replace_prefix]: a column
    whose name [replace_prefix] makes out of a generic name is checked
    against the codelists of that generic name, when the column has no
    codelists of its own and no earlier entry of the prefix map fits.  A
    column with codelists of its own is checked against those, and a
    column that neither has codelists nor starts with a replacement of the
    prefix map passes with any codelist. *)
Theorem valid_codelist_reference_generic (self : Codelists.t) (codelist : string) :
  (forall before after p r rest names,
     DataframeType.column_prefix_map (Codelists.bundle self)
       = before ++ (p, r) :: after ->
     Forall (fun e => String.prefix (fst e) (p ++ rest)%string = false) before ->
     Forall (fun e => String.prefix (snd e) (r ++ rest)%string = false) before ->
     Codelists.column_codelist_map self !! (r ++ rest)%string = None ->
     Codelists.column_codelist_map self !! (p ++ rest)%string = Some names ->
     DataframeType.replace_prefix (Codelists.bundle self) (Pandas.CStr (p ++ rest)%string)
       = Pandas.CStr (r ++ rest)%string /\
     Codelists.valid_codelist_reference self (r ++ rest)%string codelist
       = Codelists.listed codelist names) /\
  (forall column_name names,
     Codelists.column_codelist_map self !! column_name = Some names ->
     Codelists.valid_codelist_reference self column_name codelist
       = Codelists.listed codelist names) /\
  (forall column_name,
     Codelists.column_codelist_map self !! column_name = None ->
     Forall (fun e => String.prefix (snd e) column_name = false)
       (DataframeType.column_prefix_map (Codelists.bundle self)) ->
     Codelists.valid_codelist_reference self column_name codelist = true).
Proof.
  split; [| split].
  - intros before after p r rest names Hmap Hkeys Hrepl Hown Hgeneric. split.
    + unfold DataframeType.replace_prefix. rewrite Hmap.
      now rewrite replace_prefix_loop_first_match.
    + unfold Codelists.valid_codelist_reference. rewrite Hown, Hmap.
      now apply generic_lookup_first_match.
  - intros column_name names H. unfold Codelists.valid_codelist_reference.
    now rewrite H.
  - intros column_name Hown H. unfold Codelists.valid_codelist_reference.
    rewrite Hown. now apply generic_lookup_no_match.
Qed.

Lemma valid_codelist_reference_generic_witness :
  Codelists.valid_codelist_reference
    {| Codelists.bundle := Samples.events;
       Codelists.column_codelist_map := {[ "--SEV"%string := ["C66769"%string] ]};
       Codelists.codelist_term_maps := [] |}
    "AESEV" "C66769"
  = Codelists.listed "C66769" ["C66769"%string].
Proof.
  apply (proj1 (valid_codelist_reference_generic
           {| Codelists.bundle := Samples.events;
              Codelists.column_codelist_map := {[ "--SEV"%string := ["C66769"%string] ]};
              Codelists.codelist_term_maps := [] |} "C66769")
           [] [] "--"%string "AE"%string "SEV"%string ["C66769"%string] eq_refl).
  - constructor.
  - constructor.
  - apply (bool_decide_unpack _). vm_compute. exact I.
  - apply (bool_decide_unpack _). vm_compute. exact I.
Defined.

(** X21. [valid_terms] accepts everything for a falsy codelist.  For a
    named codelist and a list of terms it holds exactly when one of the
    term maps that know the codelist marks it extensible or allows every
    term; the order of the maps plays no part, and a codelist that no map
    knows is never valid, even with no terms at all. *)
Theorem valid_terms_some_map (self : Codelists.t) :
  (forall codelist terms_list,
     truthy codelist = false ->
     Codelists.valid_terms self codelist terms_list = Ok true) /\
  (forall c ts,
     c <> ""%string ->
     forallb (fun x => negb (is_list x)) ts = true ->
     Codelists.valid_terms self (VStr c) (VList ts)
     = Ok (existsb
             (fun m => match m !! c with
                       | Some entry =>
                           Codelists.extensible entry
                           || forallb (Codelists.allowed (Codelists.allowed_terms entry)) ts
                       | None => false
                       end)
             (Codelists.codelist_term_maps self))) /\
  (forall c ts,
     c <> ""%string ->
     Forall (fun m => m !! c = None) (Codelists.codelist_term_maps self) ->
     Codelists.valid_terms self (VStr c) ts = Ok false).
Proof.
  split; [| split].
  - intros codelist terms_list H. unfold Codelists.valid_terms. now rewrite H.
  - intros c ts Hc Hts. unfold Codelists.valid_terms.
    assert (T : truthy (VStr c) = true).
    { simpl. apply negb_true_iff. now apply String.eqb_neq. }
    rewrite T. cbn [negb]. now apply valid_terms_loop_list.
  - intros c ts Hc Hall. unfold Codelists.valid_terms.
    assert (T : truthy (VStr c) = true).
    { simpl. apply negb_true_iff. now apply String.eqb_neq. }
    rewrite T. cbn [negb].
    induction Hall as [|m maps Hm _ IH]; [reflexivity|].
    cbn [Codelists.valid_terms_loop Codelists.lookup_codelist Py.bind].
    now rewrite Hm.
Qed.

Lemma valid_terms_some_map_witness :
  Codelists.valid_terms
    {| Codelists.bundle := Samples.events;
       Codelists.column_codelist_map := ∅;
       Codelists.codelist_term_maps := [] |}
    (VStr "C66769") (VList [])
  = Ok false.
Proof.
  apply (proj2 (proj2 (valid_terms_some_map
           {| Codelists.bundle := Samples.events;
              Codelists.column_codelist_map := ∅;
              Codelists.codelist_term_maps := [] |}))
           "C66769"%string (VList [])).
  - discriminate.
  - constructor.
Defined.

(** * One-to-one relationships *)

Section KeptRows.
Import Pandas.
Context (key : nat -> list cell) (n : nat).

Local Abbreviation first_of i :=
  (negb (existsb (fun j => cells_eqb (key j) (key i)) (seq 0 i))).
Local Abbreviation kept := (List.filter (fun i => first_of i) (seq 0 n)).

(** Every row equals a row that is kept. *)
Lemma kept_cover (i : nat) :
  (i < n)%nat -> exists k, In k kept /\ cells_eqb (key k) (key i) = true.
Proof.
  induction i as [i IH] using lt_wf_ind. intros Hi.
  destruct (existsb (fun j => cells_eqb (key j) (key i)) (seq 0 i)) eqn:E.
  - apply existsb_exists in E as (j & Hj & Ej). apply in_seq in Hj.
    destruct (IH j) as (k & Hk & Ek); [lia | lia |].
    exists k. split; [exact Hk|]. eapply cells_eqb_trans; eauto.
  - exists i. split; [| apply cells_eqb_refl].
    apply filter_In. split; [apply in_seq; lia | now rewrite E].
Qed.

(** No two kept rows are equal. *)
Lemma kept_distinct (k k' : nat) :
  In k kept -> In k' kept -> cells_eqb (key k) (key k') = true -> k = k'.
Proof.
  assert (Hlt : forall a b, In b kept -> (a < b)%nat ->
                  cells_eqb (key a) (key b) = true -> False).
  { intros a b Hb Hab E. apply filter_In in Hb as [_ Hb].
    apply negb_true_iff in Hb.
    rewrite (proj2 (existsb_exists _ _)) in Hb; [discriminate|].
    exists a. split; [apply in_seq; lia | exact E]. }
  intros Hk Hk' E. destruct (Nat.lt_trichotomy k k') as [H | [H | H]].
  - destruct (Hlt k k' Hk' H E).
  - exact H.
  - rewrite cells_eqb_sym in E. destruct (Hlt k' k Hk H E).
Qed.

Lemma kept_range (k : nat) : In k kept -> (k < n)%nat.
Proof. intros H. apply filter_In in H as [H _]. apply in_seq in H. lia. Qed.

Lemma kept_NoDup : List.NoDup kept.
Proof. apply List.NoDup_filter, List.seq_NoDup. Qed.

End KeptRows.

Section Duplicated.
Import Pandas Relationship.

Lemma mask_map (f : cell -> bool) (s : list cell) :
  mask (List.map f s) s = List.filter f s.
Proof.
  unfold mask. induction s as [|x s IH]; [reflexivity|].
  cbn [List.map combine List.filter fst]. destruct (f x); cbn [List.map snd]; now rewrite IH.
Qed.

Lemma existsb_map_id (f : cell -> bool) (s : list cell) :
  existsb id (List.map f s) = existsb f s.
Proof. induction s as [|x s IH]; [reflexivity|]. simpl. now rewrite IH. Qed.

Lemma filter_nil_of_existsb (f : cell -> bool) (s : list cell) :
  existsb f s = false -> List.filter f s = [].
Proof.
  induction s as [|x s IH]; [reflexivity|]. simpl.
  destruct (f x); [discriminate | exact IH].
Qed.

Lemma add_false (r : list bool) (s : list cell) :
  length r = length s -> add r (isin s []) = r.
Proof.
  unfold add, isin. revert s. induction r as [|b r IH]; intros [|x s]; simpl;
    try reflexivity; try discriminate.
  intros [= H]. now rewrite orb_false_r, IH.
Qed.

(** The guard [if duplicated.any()] changes nothing. *)
Lemma flag_guard (r : list bool) (col kept_col : list cell) :
  length r = length col ->
  (if existsb id (duplicated kept_col)
   then add r (isin col (mask (duplicated kept_col) kept_col))
   else r)
  = add r (isin col (mask (duplicated kept_col) kept_col)).
Proof.
  intros Hlen. destruct (existsb id (duplicated kept_col)) eqn:E; [reflexivity|].
  unfold duplicated in *. rewrite mask_map. rewrite existsb_map_id in E.
  rewrite (filter_nil_of_existsb _ _ E). symmetry. now apply add_false.
Qed.

Lemma two_of_filter {A} (Q : A -> bool) (l : list A) :
  List.NoDup l ->
  (1 < length (List.filter Q l))%nat <->
  exists a b, In a l /\ In b l /\ a <> b /\ Q a = true /\ Q b = true.
Proof.
  intros Hnd. pose proof (List.NoDup_filter Q Hnd) as Hf. split.
  - intros Hlen.
    destruct (List.filter Q l) as [|a [|b rest]] eqn:E; simpl in Hlen; try lia.
    assert (Ha : In a (List.filter Q l)) by (rewrite E; now left).
    assert (Hb : In b (List.filter Q l)) by (rewrite E; right; now left).
    apply filter_In in Ha as [Ha Qa]. apply filter_In in Hb as [Hb Qb].
    exists a, b. repeat split; try assumption.
    intros ->. inversion Hf as [|? ? Hnotin _]; subst. apply Hnotin. now left.
  - intros (a & b & Ha & Hb & Hne & Qa & Qb).
    assert (Ha' : In a (List.filter Q l)) by (apply filter_In; auto).
    assert (Hb' : In b (List.filter Q l)) by (apply filter_In; auto).
    destruct (List.filter Q l) as [|x [|y rest]]; simpl in *; [tauto | | lia].
    destruct Ha' as [<- | []]. destruct Hb' as [<- | []]. congruence.
Qed.

Lemma filter_map_length {A B} (P : B -> bool) (g : A -> B) (l : list A) :
  length (List.filter P (List.map g l)) = length (List.filter (fun a => P (g a)) l).
Proof.
  induction l as [|x l IH]; [reflexivity|]. simpl.
  destruct (P (g x)); simpl; now rewrite IH.
Qed.

(** The values [isin] looks for: those held by two of the kept rows. *)
Lemma isin_duplicated (g : nat -> cell) (rows : list nat) (x : cell) :
  List.NoDup rows ->
  existsb (cell_eqb x)
    (mask (duplicated (List.map g rows)) (List.map g rows)) = true <->
  exists a b, In a rows /\ In b rows /\ a <> b /\
    cell_eqb x (g a) = true /\ cell_eqb (g a) (g b) = true.
Proof.
  intros Hnd. unfold duplicated. rewrite mask_map, existsb_exists. split.
  - intros (v & Hv & Exv). apply filter_In in Hv as [Hv Hdup].
    apply in_map_iff in Hv as (a & <- & Ha).
    apply Nat.ltb_lt in Hdup. rewrite filter_map_length in Hdup.
    apply (two_of_filter _ rows Hnd) in Hdup
      as (p & q & Hp & Hq & Hpq & Ep & Eq).
    destruct (Nat.eq_dec a p) as [-> | Hap].
    + exists p, q. repeat split; assumption.
    + exists a, p. repeat split; assumption.
  - intros (a & b & Ha & Hb & Hab & Exa & Eab).
    exists (g a). split; [| exact Exa]. apply filter_In. split.
    + now apply in_map.
    + apply Nat.ltb_lt. rewrite filter_map_length.
      apply (two_of_filter _ rows Hnd). exists a, b.
      repeat split; try assumption. apply cell_eqb_refl.
Qed.

Lemma add_lookup (a b : list bool) (i : nat) (x y : bool) :
  a !! i = Some x -> b !! i = Some y -> add a b !! i = Some (x || y).
Proof.
  intros Ha Hb. unfold add.
  now rewrite (lookup_map_combine _ _ _ _ _ _ Ha Hb).
Qed.

Lemma add_length (a b : list bool) :
  length a = length b -> length (add a b) = length a.
Proof. intros H. unfold add. rewrite length_map, length_combine. lia. Qed.

End Duplicated.

Section OneToOne.
Import Pandas DataframeType Relationship.
Context (tcol ccol : list cell) (n : nat).

Local Abbreviation key := (row_key [tcol; ccol]).
Local Abbreviation t_ i := (cell_at tcol i).
Local Abbreviation c_ i := (cell_at ccol i).

Lemma key_eqb (i j : nat) :
  cells_eqb (key i) (key j) = cell_eqb (t_ i) (t_ j) && cell_eqb (c_ i) (c_ j).
Proof. simpl. now rewrite andb_true_r. Qed.

(** A value of the one column is flagged when it comes with two values
    of the other. *)
Lemma flagged_iff (first second : nat -> cell) (i : nat) :
  (forall a b, cells_eqb (key a) (key b)
               = cell_eqb (first a) (first b) && cell_eqb (second a) (second b)) ->
  (i < n)%nat ->
  existsb (cell_eqb (first i))
    (mask (duplicated (List.map first (drop_duplicates [tcol; ccol] n)))
       (List.map first (drop_duplicates [tcol; ccol] n))) = true <->
  exists j, (j < n)%nat /\ cell_eqb (first j) (first i) = true /\
            cell_eqb (second j) (second i) = false.
Proof.
  intros Hkey Hi. unfold drop_duplicates.
  rewrite isin_duplicated by apply kept_NoDup. split.
  - intros (a & b & Ha & Hb & Hab & Eia & Eab).
    assert (Hsec : cell_eqb (second a) (second b) = false).
    { destruct (cell_eqb (second a) (second b)) eqn:E; [| reflexivity].
      destruct Hab. apply (kept_distinct key n a b Ha Hb).
      now rewrite Hkey, Eab, E. }
    destruct (cell_eqb (second a) (second i)) eqn:Ea.
    + exists b. split; [eapply kept_range; eauto|]. split.
      * rewrite cell_eqb_sym. eapply cell_eqb_trans; eauto.
      * destruct (cell_eqb (second b) (second i)) eqn:Eb; [| reflexivity].
        rewrite cell_eqb_sym in Eb.
        now rewrite (cell_eqb_trans _ _ _ Ea Eb) in Hsec.
    + exists a. split; [eapply kept_range; eauto|]. split; [| exact Ea].
      now rewrite cell_eqb_sym.
  - intros (j & Hj & Efirst & Esec).
    destruct (kept_cover key n i Hi) as (k & Hk & Ek).
    destruct (kept_cover key n j Hj) as (k' & Hk' & Ek').
    rewrite Hkey in Ek, Ek'.
    apply andb_true_iff in Ek as [Ek1 Ek2]. apply andb_true_iff in Ek' as [Ek1' Ek2'].
    exists k, k'. split; [exact Hk|]. split; [exact Hk'|]. split; [| split].
    + intros ->. rewrite cell_eqb_sym in Ek2'.
      now rewrite (cell_eqb_trans _ _ _ Ek2' Ek2) in Esec.
    + now rewrite cell_eqb_sym.
    + eapply cell_eqb_trans; [exact Ek1|].
      rewrite cell_eqb_sym in Efirst. eapply cell_eqb_trans; [exact Efirst|].
      now rewrite cell_eqb_sym.
Qed.

End OneToOne.

Lemma lookup_cell_at (col : list Pandas.cell) (i : nat) :
  (i < length col)%nat -> col !! i = Some (Pandas.cell_at col i).
Proof.
  unfold Pandas.cell_at. revert i.
  induction col as [|x col IH]; intros [|i] H; simpl in *; try lia; [reflexivity|].
  apply IH. lia.
Qed.

Lemma lookup_repeat {A} (x : A) (n i : nat) :
  (i < n)%nat -> repeat x n !! i = Some x.
Proof.
  revert i. induction n as [|n IH]; intros [|i] H; simpl; try lia; [reflexivity|].
  apply IH. lia.
Qed.

(** X22. With two different columns as target and comparator,
    [is_not_unique_relationship] gives one flag per row: true exactly when
    some row holds the same comparator with another target, or the same
    target with another comparator.  Missing cells count as one value.
    [is_unique_relationship] gives the opposite flags on a table that has
    rows. *)
Theorem is_not_unique_relationship_rows (self : DataframeType.t)
    (ov : DataframeType.other_value) (c0 : Pandas.cell) (cn tn : string)
    (ccol tcol : list Pandas.cell) :
  Pandas.wf (DataframeType.value self) ->
  DataframeType.comparator ov = DataframeType.AVal c0 ->
  DataframeType.replace_prefix self c0 = Pandas.CStr cn ->
  DataframeType.replace_prefix self (DataframeType.target ov) = Pandas.CStr tn ->
  cn <> tn ->
  Pandas.columns (DataframeType.value self) !! cn = Some ccol ->
  Pandas.columns (DataframeType.value self) !! tn = Some tcol ->
  let n := Pandas.index (DataframeType.value self) in
  exists r,
    fst (Relationship.is_not_unique_relationship self ov) = Ok r /\
    length r = n /\
    (n <> 0%nat ->
     fst (Relationship.is_unique_relationship self ov) = Ok (Pandas.invert r)) /\
    forall i, (i < n)%nat ->
      (r !! i = Some true <->
       exists j, (j < n)%nat /\
         ((Pandas.cell_eqb (Pandas.cell_at ccol j) (Pandas.cell_at ccol i) = true /\
           Pandas.cell_eqb (Pandas.cell_at tcol j) (Pandas.cell_at tcol i) = false) \/
          (Pandas.cell_eqb (Pandas.cell_at tcol j) (Pandas.cell_at tcol i) = true /\
           Pandas.cell_eqb (Pandas.cell_at ccol j) (Pandas.cell_at ccol i) = false))).
Proof.
  intros Hwf Hcmp Hc Ht Hne Hccol Htcol n.
  assert (Hlc : length ccol = n) by exact (Hwf cn _ Hccol).
  assert (Hlt : length tcol = n) by exact (Hwf tn _ Htcol).
  set (kept := Relationship.drop_duplicates [tcol; ccol] n).
  set (Vc := Relationship.mask
               (Relationship.duplicated (List.map (Pandas.cell_at ccol) kept))
               (List.map (Pandas.cell_at ccol) kept)).
  set (Vt := Relationship.mask
               (Relationship.duplicated (List.map (Pandas.cell_at tcol) kept))
               (List.map (Pandas.cell_at tcol) kept)).
  set (r := Relationship.add
              (Relationship.add (repeat false n) (Pandas.isin ccol Vc))
              (Pandas.isin tcol Vt)).
  assert (Hl1 : length (Relationship.add (repeat false n) (Pandas.isin ccol Vc)) = n).
  { rewrite add_length; rewrite repeat_length; [reflexivity|].
    unfold Pandas.isin. now rewrite length_map. }
  assert (Hrun : fst (Relationship.is_not_unique_relationship self ov) = Ok r).
  { unfold Relationship.is_not_unique_relationship. rewrite Hcmp, Hc, Ht. cbn [fst].
    destruct (Pandas.getitem_list (DataframeType.value self)
                [Pandas.CStr tn; Pandas.CStr cn]) as [sub|e] eqn:Hsub.
    2:{ exfalso. unfold Pandas.getitem_list in Hsub.
        cbn [Pandas.is_bool_indexer forallb andb Pandas.labels] in Hsub.
        rewrite Hccol, Htcol in Hsub. discriminate. }
    cbn [Py.bind].
    rewrite bool_decide_eq_false_2 by congruence.
    destruct (sub_table_getitem _ _ sub tn tcol Hsub) as [Hgt Hidx];
      [now left | exact Htcol |].
    destruct (sub_table_getitem _ _ sub cn ccol Hsub) as [Hgc _];
      [right; now left | exact Hccol |].
    rewrite Hgt, Hgc. cbn [Py.bind]. rewrite Hidx.
    unfold Pandas.getitem. rewrite Hccol, Htcol. cbn [Py.bind].
    fold n. fold kept.
    change (Pandas.take Pandas.CNone kept ccol)
      with (List.map (Pandas.cell_at ccol) kept).
    change (Pandas.take Pandas.CNone kept tcol)
      with (List.map (Pandas.cell_at tcol) kept).
    rewrite (flag_guard (repeat false n) ccol) by now rewrite repeat_length.
    rewrite (flag_guard _ tcol) by (fold Vc; now rewrite Hl1).
    reflexivity. }
  assert (Hlen : length r = n).
  { unfold r. rewrite add_length; [exact Hl1|].
    rewrite Hl1. unfold Pandas.isin. now rewrite length_map. }
  exists r. split; [exact Hrun|]. split; [exact Hlen | split].
  - intros Hn0. unfold Relationship.is_unique_relationship.
    destruct (Relationship.is_not_unique_relationship self ov) as [r0 ov0].
    cbn [fst] in *. rewrite Hrun. cbn [Py.bind]. clearbody r.
    destruct r; [simpl in Hlen; congruence | reflexivity].
  - intros i Hi.
    assert (Hri : r !! i
              = Some (false || existsb (Pandas.cell_eqb (Pandas.cell_at ccol i)) Vc
                      || existsb (Pandas.cell_eqb (Pandas.cell_at tcol i)) Vt)).
    { unfold r. apply add_lookup.
      - apply add_lookup.
        + apply lookup_repeat. exact Hi.
        + unfold Pandas.isin.
          apply (lookup_map (fun x => existsb (Pandas.cell_eqb x) Vc)).
          apply lookup_cell_at. lia.
      - unfold Pandas.isin.
        apply (lookup_map (fun x => existsb (Pandas.cell_eqb x) Vt)).
        apply lookup_cell_at. lia. }
    rewrite Hri. cbn [orb].
    pose proof (flagged_iff tcol ccol n (Pandas.cell_at ccol) (Pandas.cell_at tcol) i)
      as Fc.
    pose proof (flagged_iff tcol ccol n (Pandas.cell_at tcol) (Pandas.cell_at ccol) i)
      as Ft.
    fold kept in Fc, Ft. fold Vc in Fc. fold Vt in Ft.
    specialize (Fc (fun a b => eq_trans (key_eqb tcol ccol a b) (andb_comm _ _)) Hi).
    specialize (Ft (key_eqb tcol ccol) Hi).
    split.
    + intros [= H]. apply orb_true_iff in H as [H | H].
      * apply Fc in H as (j & Hj & E1 & E2). exists j. split; [exact Hj|]. left. auto.
      * apply Ft in H as (j & Hj & E1 & E2). exists j. split; [exact Hj|]. right. auto.
    + intros (j & Hj & [[E1 E2] | [E1 E2]]); f_equal; apply orb_true_iff.
      * left. apply Fc. eauto.
      * right. apply Ft. eauto.
Qed.

Lemma is_not_unique_relationship_rows_witness :
  exists r,
    fst (Relationship.is_not_unique_relationship Samples.records
           (Samples.rule (Pandas.CStr "target") (DataframeType.AVal (Pandas.CStr "g"))))
    = Ok r /\ length r = 3%nat.
Proof.
  destruct (is_not_unique_relationship_rows Samples.records
              (Samples.rule (Pandas.CStr "target") (DataframeType.AVal (Pandas.CStr "g")))
              (Pandas.CStr "g") "g"%string "target"%string
              [Pandas.CStr "X"; Pandas.CStr "X"; Pandas.CStr "X"]
              [Pandas.CInt 30; Pandas.CInt 10; Pandas.CInt 20]
              records_wf eq_refl eq_refl eq_refl)
    as (r & H1 & H2 & _).
  - discriminate.
  - reflexivity.
  - reflexivity.
  - exists r. split; [exact H1 | exact H2].
Defined.

(** ** Rows per key *)

Section RowsPerKey.
Import Pandas DataframeType.

Lemma forallb_concat (ls : list (list bool)) :
  forallb id (concat ls) = forallb (forallb id) ls.
Proof.
  induction ls as [|l ls IH]; [reflexivity|]. simpl.
  now rewrite forallb_app, IH.
Qed.

Lemma forallb_repeat (b : bool) (k : nat) :
  forallb id (repeat b k) = (k =? 0)%nat || b.
Proof.
  induction k as [|k IH]; [reflexivity|]. simpl. rewrite IH.
  destruct b, k; reflexivity.
Qed.

Lemma length_concat_map {A} (f : list nat -> list A) (groups : list (list nat)) :
  (forall g, In g groups -> length (f g) = length g) ->
  length (concat (List.map f groups)) = length (concat groups).
Proof.
  induction groups as [|g groups IH]; intros H; [reflexivity|].
  simpl. rewrite !length_app, IH.
  - rewrite H; [reflexivity | now left].
  - intros g' Hg'. apply H. now right.
Qed.

Lemma validate_series_length_flags (ser : list cell) (c : cell) (m : Z) :
  cell_number c = Some m -> ser <> [] ->
  exists flags,
    validate_series_length ser (AVal c) = Ok flags /\
    forallb id flags = (m <? Z.of_nat (length ser))%Z /\
    ((m <? Z.of_nat (length ser))%Z = true -> length flags = length ser).
Proof.
  intros Hc Hne. unfold validate_series_length. rewrite Hc.
  destruct (Z.ltb_spec m (Z.of_nat (length ser))) as [Hlt | Hge].
  - eexists. split; [reflexivity|]. rewrite forallb_repeat, orb_true_r.
    split; [reflexivity|]. intros _. apply repeat_length.
  - eexists. split; [reflexivity|]. split; [| discriminate].
    rewrite forallb_repeat, orb_false_r. apply Nat.eqb_neq.
    destruct ser; [congruence|]. simpl length in Hge. lia.
Qed.

End RowsPerKey.

(** X23. With the grouping and target columns in the table and a
    number as count (1 when the rule gives none),
    [present_on_multiple_rows_within] raises [TypeError] where no row
    has a key.  Where some row has one, it returns flags that are all true
    exactly when every key of the grouping column is held by more rows
    than the count; the flags are then as many as the rows that have a
    key. *)
Theorem present_on_multiple_rows_within_all (self : DataframeType.t)
    (ov : DataframeType.other_value) (by_ : string) (wcol tcol : list Pandas.cell)
    (c : Pandas.cell) (m : Z) :
  Pandas.wf (DataframeType.value self) ->
  DataframeType.replace_prefix self (DataframeType.within ov) = Pandas.CStr by_ ->
  Pandas.columns (DataframeType.value self) !! by_ = Some wcol ->
  Pandas.getitem (DataframeType.value self)
    (DataframeType.replace_prefix self (DataframeType.target ov)) = Ok tcol ->
  (if DataframeType.arg_truthy (DataframeType.comparator ov)
   then DataframeType.comparator ov
   else DataframeType.AVal (Pandas.CInt 1)) = DataframeType.AVal c ->
  Pandas.cell_number c = Some m ->
  let n := Pandas.index (DataframeType.value self) in
  let rows_of := fun k =>
    List.filter (fun p => Pandas.cell_eqb (Pandas.cell_at wcol p) k) (seq 0 n) in
  (existsb Pandas.notna wcol = true ->
   exists r,
     DataframeType.present_on_multiple_rows_within self ov = Ok r /\
     (forallb id r = true <->
      forall k, Pandas.notna k = true -> rows_of k <> [] ->
        (m < Z.of_nat (length (rows_of k)))%Z) /\
     (forallb id r = true ->
      length r
      = length (List.filter (fun p => Pandas.notna (Pandas.cell_at wcol p)) (seq 0 n)))) /\
  (existsb Pandas.notna wcol = false ->
   DataframeType.present_on_multiple_rows_within self ov
   = Raise (TypeError
              "DataFrame.explode() missing 1 required positional argument: 'column'")).
Proof.
  intros Hwf Hby Hw Ht Hmin Hc n rows_of.
  assert (Hwn : length wcol = n) by exact (Hwf by_ _ Hw).
  destruct (group_positions_single wcol n) as [Hperm Hall].
  assert (Hne : Forall (fun g : list nat => g <> []) (Pandas.group_positions [wcol] n)).
  { apply Forall_forall. intros g Hg. rewrite Forall_forall in Hall.
    exact (proj1 (Hall g Hg)). }
  pose proof (groups_of_keyed_rows _ _ Hperm Hne) as Hempty. clear Hne.
  rewrite Forall_forall in Hall.
  set (groups := Pandas.group_positions [wcol] n) in *.
  set (f := fun g : list nat =>
              if (m <? Z.of_nat (length (Pandas.take Pandas.CNone g tcol)))%Z
              then repeat true (length (Pandas.take Pandas.CNone g tcol))
              else repeat false (Z.to_nat m)).
  assert (Hrun : DataframeType.present_on_multiple_rows_within self ov
                 = match groups with
                   | [] => Raise (TypeError
                       "DataFrame.explode() missing 1 required positional argument: 'column'")
                   | _ => Ok (concat (List.map f groups))
                   end).
  { unfold DataframeType.present_on_multiple_rows_within.
    rewrite Hby, (groupby_Ok _ _ _ Hw). cbn [Py.bind]. fold n. fold groups.
    rewrite (mapM_Ok _ groups f); [reflexivity|].
    intros g _. rewrite (getitem_take _ g _ _ Ht). cbn [Py.bind].
    rewrite Hmin. unfold DataframeType.validate_series_length. rewrite Hc.
    unfold f. now destruct (m <? _)%Z. }
  split.
  2:{ intros Hk. rewrite Hrun.
      now rewrite (proj2 Hempty (no_keyed_row wcol n Hk)). }
  intros Hk.
  assert (Hrun' : DataframeType.present_on_multiple_rows_within self ov
                  = Ok (concat (List.map f groups))).
  { rewrite Hrun. destruct groups as [|g gs] eqn:Eg; [| reflexivity].
    exfalso. apply (keyed_row wcol n Hwn Hk). now apply Hempty. }
  clear Hrun Hempty.
  assert (Hflag : forall g, In g groups ->
            forallb id (f g) = (m <? Z.of_nat (length g))%Z /\
            ((m <? Z.of_nat (length g))%Z = true -> length (f g) = length g)).
  { intros g Hg.
    destruct (Hall g (proj2 (list_elem_of_In _ _) Hg)) as (Hne & _).
    assert (Hser : Pandas.take Pandas.CNone g tcol <> []).
    { destruct g; [congruence | discriminate]. }
    destruct (validate_series_length_flags _ c m Hc Hser) as (flags & Hv & H1 & H2).
    assert (Hfg : flags = f g).
    { unfold DataframeType.validate_series_length in Hv. rewrite Hc in Hv.
      unfold f. destruct (m <? _)%Z; now injection Hv as <-. }
    subst flags.
    rewrite take_length in H1, H2. split; assumption. }
  assert (Hiff : forallb id (concat (List.map f groups)) = true <->
                 forall g, In g groups -> (m < Z.of_nat (length g))%Z).
  { rewrite forallb_concat, forallb_forall. split.
    - intros H g Hg. apply Z.ltb_lt. rewrite <- (proj1 (Hflag g Hg)).
      apply H. now apply in_map.
    - intros H fl Hfl. apply in_map_iff in Hfl as (g & <- & Hg).
      rewrite (proj1 (Hflag g Hg)). apply Z.ltb_lt. now apply H. }
  exists (concat (List.map f groups)). split; [exact Hrun'|]. split.
  - rewrite Hiff. split.
    + intros H k Hk' Hne. apply H. now apply rows_of_key_grouped.
    + intros H g Hg.
      destruct (Hall g (proj2 (list_elem_of_In _ _) Hg)) as (Hne & k & Hk' & E).
      rewrite E. apply H; [exact Hk'|]. fold (rows_of k) in E. now rewrite <- E.
  - intros Htrue. rewrite <- (Permutation_length Hperm).
    apply length_concat_map. intros g Hg. apply (Hflag g Hg).
    apply Z.ltb_lt. now apply (proj1 Hiff Htrue).
Qed.

Lemma present_on_multiple_rows_within_all_witness :
  exists r,
    DataframeType.present_on_multiple_rows_within Samples.records
      (Samples.rule_within (Pandas.CStr "target") (DataframeType.AVal Pandas.CNone)
         (Pandas.CStr "g") Pandas.CNone)
    = Ok r /\
    (forallb id r = true -> length r = 3%nat).
Proof.
  destruct (present_on_multiple_rows_within_all Samples.records
              (Samples.rule_within (Pandas.CStr "target") (DataframeType.AVal Pandas.CNone)
                 (Pandas.CStr "g") Pandas.CNone)
              "g"%string
              [Pandas.CStr "X"; Pandas.CStr "X"; Pandas.CStr "X"]
              [Pandas.CInt 30; Pandas.CInt 10; Pandas.CInt 20]
              (Pandas.CInt 1) 1%Z
              records_wf eq_refl eq_refl eq_refl eq_refl eq_refl)
    as [H _].
  destruct (H eq_refl) as (r & H1 & _ & H2).
  exists r. split; [exact H1 | exact H2].
Defined.
